(** * MonteCarloMultiGPU: work distribution, device driving and aggregation

    A shallow embedding of [sycl_migrated/MonteCarloMultiGPU.cpp]: the two
    capability helpers ([adjustProblemSize], [adjustGridSize]), the
    plan-building loops of [main], the two host-side driving strategies
    ([solverThread], [multiSolver]), the comparison pass against the
    Black-Scholes reference and the final judgement.

    Conventions.  A C [int] is a [Z] kept in the 32-bit range by [to_int];
    a [cl_uint] is a [Z] reduced by [to_uint].  [a / b] and [a % b] on [int]
    are [Z.quot] and [Z.rem] and fault on a zero divisor.  Arrays are lists
    indexed from zero; an access outside the array is a fault, and so is an
    allocation of negative length.  [float] and [double] are IEEE 754
    binary32 and binary64 values of [spec_float]. *)

From Stdlib Require Import ZArith List Lia Bool String Ascii.
From Stdlib Require Import Floats.SpecFloat.
From stdpp Require Import base list list_numbers.

Local Open Scope Z_scope.

(* ================================================================== *)
(** * Part I: the model                                                 *)
(* ================================================================== *)

(** ** Machine integers *)

Definition INT_MIN : Z := - 2 ^ 31.
Definition INT_MAX : Z := 2 ^ 31 - 1.

(** Reduction of a mathematical integer to a 32-bit two's complement [int]. *)
Definition to_int (z : Z) : Z := (z + 2 ^ 31) mod 2 ^ 32 - 2 ^ 31.

(** Reduction to a 32-bit unsigned value ([cl_uint]). *)
Definition to_uint (z : Z) : Z := z mod 2 ^ 32.

Definition int_add (a b : Z) : Z := to_int (a + b).
Definition int_mul (a b : Z) : Z := to_int (a * b).
Definition uint_mul (a b : Z) : Z := to_uint (a * b).

(** ** Faults and the result type of the host code *)

Inductive fault : Type :=
| DivisionByZero
| OutOfBounds
| BadArrayNewLength.

Inductive result (A : Type) : Type :=
| Ok (a : A)
| Fault (f : fault).

Arguments Ok {A} a.
Arguments Fault {A} f.

Definition rbind {A B : Type} (r : result A) (k : A -> result B) : result B :=
  match r with
  | Ok a => k a
  | Fault f => Fault f
  end.

Notation "'let*' x ':=' c 'in' k" := (rbind c (fun x => k))
  (at level 10, x pattern, c at level 100, k at level 200).

(** [a / b] on [int]: truncating division, a fault when [b] is zero. *)
Definition int_div (a b : Z) : result Z :=
  if b =? 0 then Fault DivisionByZero else Ok (to_int (Z.quot a b)).

(** [a % b] on [int]: remainder with the sign of [a], a fault when [b] is
    zero. *)
Definition int_rem (a b : Z) : result Z :=
  if b =? 0 then Fault DivisionByZero else Ok (to_int (Z.rem a b)).

(** ** Arrays *)

(** [new T[n]] for a type without initialiser: [n] cells whose content is
    whatever [garbage] says.  A negative [n] is refused: the expression
    throws [std::bad_array_new_length], which nothing in the program
    catches.  Memory is taken to be available for every other length. *)
Definition new_array {A : Type} (n : Z) (garbage : nat -> A) : result (list A) :=
  if n <? 0 then Fault BadArrayNewLength
  else Ok (map garbage (seq 0 (Z.to_nat n))).

(** [a[i]] as an rvalue. *)
Definition at_index {A : Type} (a : list A) (i : Z) : result A :=
  if i <? 0 then Fault OutOfBounds
  else match a !! Z.to_nat i with
       | Some x => Ok x
       | None => Fault OutOfBounds
       end.

(** [a[i].field = ...]: the cell [i] is replaced by [f] of its old value. *)
Definition update {A : Type} (a : list A) (i : Z) (f : A -> A) : result (list A) :=
  let* x := at_index a i in
  Ok (<[Z.to_nat i := f x]> a).

(** ** Counted loops *)

(** [for (i = lo; ...; i++) body] run for [n] iterations from index [i]. *)
Fixpoint for_loop {S : Type} (n : nat) (i : Z) (body : Z -> S -> result S) (s : S)
  : result S :=
  match n with
  | O => Ok s
  | Datatypes.S n' => let* s' := body i s in for_loop n' (i + 1) body s'
  end.

(** [for (i = 0; i < hi; i++) body]: [hi] iterations, none when [hi <= 0]. *)
Definition for_upto {S : Type} (hi : Z) (body : Z -> S -> result S) (s : S)
  : result S :=
  for_loop (Z.to_nat hi) 0 body s.

(** The same loop for a body that cannot fault. *)
Fixpoint iterate {S : Type} (n : nat) (i : Z) (body : Z -> S -> S) (s : S) : S :=
  match n with
  | O => s
  | Datatypes.S n' => iterate n' (i + 1) body (body i s)
  end.

Definition iterate_upto {S : Type} (hi : Z) (body : Z -> S -> S) (s : S) : S :=
  iterate (Z.to_nat hi) 0 body s.

(** ** The device platform *)

(** What the SYCL runtime answers on this host: the compute-unit count of
    each GPU by index ([info::device::max_compute_units], a [cl_uint]), and
    the index of the device that [gpu_selector] picks for a default
    [sycl::queue(gpu_selector{})]. *)
Record Platform : Type := {
  max_compute_units : Z -> Z;
  gpu_selector : Z
}.

(** [sycl::queue(gpu_selector{}).get_device().get_info<max_compute_units>()] *)
Definition selected_compute_units (P : Platform) : Z :=
  to_uint (max_compute_units P (gpu_selector P)).

(** ** adjustProblemSize (lines 62-79) *)

Definition adjustProblemSize (P : Platform) (GPU_N default_nOptions : Z) : Z :=
  let nOptions := default_nOptions in
  iterate_upto GPU_N
    (fun (i : Z) (nOptions : Z) =>
       let cudaCores := to_int (selected_compute_units P) in
       if cudaCores <=? 32
       then (if nOptions <? Z.quot cudaCores 2 then nOptions else Z.quot cudaCores 2)
       else nOptions)
    nOptions.

(** ** adjustGridSize (lines 81-89) *)

Definition adjustGridSize (P : Platform) (GPUIndex defaultGridSize : Z) : Z :=
  let maxGridSize := to_int (uint_mul (selected_compute_units P) 40) in
  if defaultGridSize >? maxGridSize then maxGridSize else defaultGridSize.

(** ** Execution plans *)

Module Plan.

(** Modelled from the spec: [TOptionPlan] is declared in
    [MonteCarlo_common.h], which is not among the sources.  The record has
    the fields that [main] assigns: the device identifier, the number of
    options, the two views into the shared arrays (pointers
    [optionData + gpuBase] and [callValueGPU + gpuBase], kept as the offset
    of their first element), the path count and the grid size. *)
Record TOptionPlan : Type := mk {
  device : Z;
  optionCount : Z;
  optionData : Z;
  callValue : Z;
  pathN : Z;
  gridSize : Z
}.

Definition set_device (v : Z) (p : TOptionPlan) : TOptionPlan :=
  mk v (optionCount p) (optionData p) (callValue p) (pathN p) (gridSize p).
Definition set_optionCount (v : Z) (p : TOptionPlan) : TOptionPlan :=
  mk (device p) v (optionData p) (callValue p) (pathN p) (gridSize p).
Definition set_optionData (v : Z) (p : TOptionPlan) : TOptionPlan :=
  mk (device p) (optionCount p) v (callValue p) (pathN p) (gridSize p).
Definition set_callValue (v : Z) (p : TOptionPlan) : TOptionPlan :=
  mk (device p) (optionCount p) (optionData p) v (pathN p) (gridSize p).
Definition set_pathN (v : Z) (p : TOptionPlan) : TOptionPlan :=
  mk (device p) (optionCount p) (optionData p) (callValue p) v (gridSize p).
Definition set_gridSize (v : Z) (p : TOptionPlan) : TOptionPlan :=
  mk (device p) (optionCount p) (optionData p) (callValue p) (pathN p) v.

End Plan.

Abbreviation TOptionPlan := Plan.TOptionPlan.

(** ** Plan building: [main], lines 307-328 *)

(** Lines 308-310: every plan gets [OPT_N / GPU_N] options. *)
Definition assign_base_counts (GPU_N OPT_N : Z) (optionSolver : list TOptionPlan)
  : result (list TOptionPlan) :=
  for_upto GPU_N
    (fun i optionSolver =>
       let* q := int_div OPT_N GPU_N in
       update optionSolver i (Plan.set_optionCount q))
    optionSolver.

(** Lines 313-315: the first [OPT_N % GPU_N] plans get one more.  The bound
    is evaluated by the first test of the loop condition, before any
    iteration. *)
Definition distribute_remainder (GPU_N OPT_N : Z) (optionSolver : list TOptionPlan)
  : result (list TOptionPlan) :=
  let* r := int_rem OPT_N GPU_N in
  for_upto r
    (fun i optionSolver =>
       update optionSolver i
         (fun p => Plan.set_optionCount (int_add (Plan.optionCount p) 1) p))
    optionSolver.

(** Lines 318-328: ranges are laid out one after the other from [gpuBase]. *)
Definition assign_ranges (P : Platform) (GPU_N PATH_N : Z)
  (optionSolver : list TOptionPlan) : result (list TOptionPlan * Z) :=
  let gpuBase := 0 in
  for_upto GPU_N
    (fun i '(optionSolver, gpuBase) =>
       let* optionSolver := update optionSolver i (Plan.set_device i) in
       let* optionSolver := update optionSolver i (Plan.set_optionData gpuBase) in
       let* optionSolver := update optionSolver i (Plan.set_callValue gpuBase) in
       let* optionSolver := update optionSolver i (Plan.set_pathN PATH_N) in
       let* optionSolver :=
         update optionSolver i
           (fun p => Plan.set_gridSize
                       (adjustGridSize P (Plan.device p) (Plan.optionCount p)) p) in
       let* p := at_index optionSolver i in
       Ok (optionSolver, int_add gpuBase (Plan.optionCount p)))
    (optionSolver, gpuBase).

(** Line 272 and lines 307-328 together. *)
Definition build_plans (P : Platform) (GPU_N OPT_N PATH_N : Z)
  (garbage : nat -> TOptionPlan) : result (list TOptionPlan) :=
  let* optionSolver := new_array GPU_N garbage in
  let* optionSolver := assign_base_counts GPU_N OPT_N optionSolver in
  let* optionSolver := distribute_remainder GPU_N OPT_N optionSolver in
  let* (optionSolver, gpuBase) := assign_ranges P GPU_N PATH_N optionSolver in
  Ok optionSolver.


(** ** Floating point: [float] is binary32, [double] is binary64 *)

Definition float_sub : spec_float -> spec_float -> spec_float := SFsub 24 128.
Definition float_add : spec_float -> spec_float -> spec_float := SFadd 24 128.
Definition float_mul : spec_float -> spec_float -> spec_float := SFmul 24 128.
Definition float_div : spec_float -> spec_float -> spec_float := SFdiv 24 128.
Definition double_add : spec_float -> spec_float -> spec_float := SFadd 53 1024.
Definition double_div : spec_float -> spec_float -> spec_float := SFdiv 53 1024.

(** [(float) n] and [(double) n] for an integer [n]. *)
Definition float_of_int (n : Z) : spec_float := binary_normalize 24 128 n 0 false.
Definition double_of_int (n : Z) : spec_float := binary_normalize 53 1024 n 0 false.

(** The implicit conversion of a [float] to [double]; it is exact. *)
Definition double_of_float (x : spec_float) : spec_float :=
  match x with
  | S754_finite s m e => binary_normalize 53 1024 (cond_Zopp s (Zpos m)) e s
  | _ => x
  end.

(** [a > b]; false when either side is a NaN. *)
Definition fp_gt (a b : spec_float) : bool := SFltb b a.

(** The literals of the source. *)
Definition lit_1em6 : spec_float :=            (* 1e-6 *)
  double_div (double_of_int 1) (double_of_int 1000000).
Definition lit_1f : spec_float := float_of_int 1.                  (* 1.0f *)
Definition lit_minus1f : spec_float := float_of_int (-1).          (* -1.0f *)
Definition lit_006f : spec_float :=                                (* 0.06f *)
  float_div (float_of_int 6) (float_of_int 100).
Definition lit_010f : spec_float :=                                (* 0.10f *)
  float_div (float_of_int 10) (float_of_int 100).

(** ** Option data and option values *)

Module Option.

(** Modelled from the spec: [TOptionData] and [TOptionValue] are declared in
    [MonteCarlo_common.h], which is not among the sources.  [TOptionData]
    holds spot price, strike, time to maturity, rate and volatility;
    [TOptionValue] the expected value and the confidence width.  All fields
    are [float]. *)
Record TOptionData : Type := mkData {
  S : spec_float;
  X : spec_float;
  T : spec_float;
  R : spec_float;
  V : spec_float
}.

Record TOptionValue : Type := mkValue {
  Expected : spec_float;
  Confidence : spec_float
}.

End Option.

Abbreviation TOptionData := Option.TOptionData.
Abbreviation TOptionValue := Option.TOptionValue.

(** ** Host calls, the world and the host monad *)

(** The calls the host makes to its collaborators.  A stream is named by its
    index in [streams] ([multiSolver]) or by the device it is bound to
    ([solverThread]); an event by its index in [events].  [OpenQueue stream
    dev] is the construction of a queue on entry [dev] of the list of GPU
    devices (lines 109-111 and 136-141), taken as one call: the list is
    taken to have that entry. *)
Inductive call : Type :=
| CreateTimer (timer : Z)
| ResetTimer (timer : Z)
| StartTimer (timer : Z)
| StopTimer (timer : Z)
| OpenQueue (stream dev : Z)
| Init (plan : TOptionPlan) (stream : Z)
| Simulate (plan : TOptionPlan) (stream : Z)
| Close (plan : TOptionPlan) (stream : Z)
| QueueWaitAndThrow (stream : Z)
| QueueWait (stream : Z)
| SubmitBarrier (stream : Z)
| EventWaitAndThrow (event : Z).

(** The part of the process state that the modelled code shares with its
    collaborators: the calls made so far, oldest first, and the result array
    [callValueGPU] that the plans view. *)
Record World : Type := mkWorld {
  trace : list call;
  callValueGPU : list TOptionValue
}.

Inductive outcome (A : Type) : Type :=
| Done (a : A)
| Crashed (f : fault)
| Uncaught (c : call).

Arguments Done {A} a.
Arguments Crashed {A} f.
Arguments Uncaught {A} c.

Definition Host (A : Type) : Type := World -> World * outcome A.

Definition hret {A : Type} (a : A) : Host A := fun w => (w, Done a).

Definition hbind {A B : Type} (c : Host A) (k : A -> Host B) : Host B :=
  fun w =>
    match c w with
    | (w', Done a) => k a w'
    | (w', Crashed f) => (w', Crashed f)
    | (w', Uncaught e) => (w', Uncaught e)
    end.

Notation "'let!' x ':=' c 'in' k" := (hbind c (fun x => k))
  (at level 10, x pattern, c at level 100, k at level 200).

(** A fault of the pure host code stops the process where it stands. *)
Definition lift {A : Type} (r : result A) : Host A :=
  fun w => match r with
           | Ok a => (w, Done a)
           | Fault f => (w, Crashed f)
           end.

Definition log (c : call) : Host unit :=
  fun w => (mkWorld (trace w ++ [c]) (callValueGPU w), Done tt).

Fixpoint host_for {S : Type} (n : nat) (i : Z) (body : Z -> S -> Host S) (s : S)
  : Host S :=
  match n with
  | O => hret s
  | Datatypes.S n' => let! s' := body i s in host_for n' (i + 1) body s'
  end.

Definition host_upto {S : Type} (hi : Z) (body : Z -> S -> Host S) (s : S) : Host S :=
  host_for (Z.to_nat hi) 0 body s.

Section Collaborators.

(** The devices of the host. *)
Variable P : Platform.

(** Whether a SYCL call raises, given the calls made before it.  No
    [try]/[catch] appears in the source, so a raised exception ends the
    process. *)
Variable raises : list call -> call -> bool.

(** What [MonteCarloGPU] leaves in cell [k] of the plan's result view, given
    the calls made before it. *)
Variable kernel : list call -> TOptionPlan -> Z -> TOptionValue.

(** A call into the SYCL runtime or the device code: it is recorded, and it
    either returns or raises. *)
Definition invoke (c : call) : Host unit :=
  fun w =>
    let w' := mkWorld (trace w ++ [c]) (callValueGPU w) in
    if raises (trace w) c then (w', Uncaught c) else (w', Done tt).

Definition sdkStartTimer (timer : Z) : Host unit := log (StartTimer timer).
Definition sdkStopTimer (timer : Z) : Host unit := log (StopTimer timer).

(** Modelled from the spec: [initMonteCarloGPU], [MonteCarloGPU] and
    [closeMonteCarloGPU] are defined in the kernel file, which is not among
    the sources.  Init prepares device-resident state and teardown releases
    it; to the host each is a call that returns or raises. *)
Definition initMonteCarloGPU (plan : TOptionPlan) (stream : Z) : Host unit :=
  invoke (Init plan stream).

(** Modelled from the spec: simulate produces one pair of expected value and
    confidence per option of the plan's range, written into the range of the
    shared result array that the plan owns: [plan->callValue[0 ..
    optionCount)], a view into [callValueGPU].  The pairs are stored here at
    the call; the host reads them only after it has waited for the
    stream. *)
Definition store_results (h : list call) (plan : TOptionPlan)
  (results : list TOptionValue) : list TOptionValue :=
  iterate_upto (Plan.optionCount plan)
    (fun k results =>
       <[Z.to_nat (Plan.callValue plan + k) := kernel h plan k]> results)
    results.

(** Modelled from the spec: see [store_results]. *)
Definition MonteCarloGPU (plan : TOptionPlan) (stream : Z) : Host unit :=
  fun w =>
    match invoke (Simulate plan stream) w with
    | (w', Done _) =>
        (mkWorld (trace w') (store_results (trace w) plan (callValueGPU w')), Done tt)
    | other => other
    end.

(** Modelled from the spec: see [initMonteCarloGPU]. *)
Definition closeMonteCarloGPU (plan : TOptionPlan) (stream : Z) : Host unit :=
  invoke (Close plan stream).

(** ** solverThread (lines 106-128) *)

Definition solverThread (plan : TOptionPlan) : Host unit :=
  let! _ := sdkStartTimer (Plan.device plan) in
  let stream := Plan.device plan in
  let! _ := invoke (OpenQueue stream (Plan.device plan)) in
  let! _ := initMonteCarloGPU plan stream in
  let! _ := MonteCarloGPU plan stream in
  let! _ := invoke (QueueWaitAndThrow stream) in
  let! _ := sdkStopTimer (Plan.device plan) in
  let! _ := closeMonteCarloGPU plan stream in
  invoke (QueueWait stream).

(** ** multiSolver (lines 130-170) *)

Definition multiSolver (plan : list TOptionPlan) (nPlans : Z) : Host unit :=
  let! _ := host_upto nPlans (fun i _ =>
              let! p := lift (at_index plan i) in
              invoke (OpenQueue i (Plan.device p))) tt in
  let! _ := host_upto nPlans (fun i _ =>
              let! p := lift (at_index plan i) in
              initMonteCarloGPU p i) tt in
  let! _ := host_upto nPlans (fun i _ =>
              invoke (QueueWaitAndThrow i)) tt in
  let! _ := host_upto nPlans (fun i _ =>
              let! p := lift (at_index plan i) in
              let! _ := MonteCarloGPU p i in
              invoke (SubmitBarrier i)) tt in
  let! _ := host_upto nPlans (fun i _ =>
              invoke (EventWaitAndThrow i)) tt in
  let! _ := sdkStopTimer 0 in
  host_upto nPlans (fun i _ =>
    let! p := lift (at_index plan i) in
    closeMonteCarloGPU p i) tt.


(** ** The comparison pass (lines 355-376 and 398-419) *)

Record Accumulators : Type := mkAcc {
  sumDelta : spec_float;
  sumRef : spec_float;
  sumReserve : spec_float
}.

(** The closed-form reference price, an external routine. *)
Variable BlackScholesCall : TOptionData -> spec_float.

(** The body of the loop for one option: [bs] is [callValueBS[i]] and [v] is
    [callValueGPU[i]]. *)
Definition compare_option (bs : spec_float) (v : TOptionValue) (acc : Accumulators)
  : Accumulators :=
  let delta := SFabs (double_of_float (float_sub bs (Option.Expected v))) in
  let ref := double_of_float bs in
  let sumDelta' := double_add (sumDelta acc) delta in
  let sumRef' := double_add (sumRef acc) (SFabs ref) in
  let sumReserve' :=
    if fp_gt delta lit_1em6
    then double_add (sumReserve acc)
           (double_div (double_of_float (Option.Confidence v)) delta)
    else sumReserve acc in
  mkAcc sumDelta' sumRef' sumReserve'.

Definition read_callValueGPU (i : Z) : Host TOptionValue :=
  fun w => lift (at_index (callValueGPU w) i) w.

(** The three accumulators are assigned zero, the loop runs over all
    options, and [sumReserve] is divided by [OPT_N]. *)
Definition compare_pass (OPT_N : Z) (optionData : list TOptionData)
  (acc : Accumulators) : Host Accumulators :=
  let acc := mkAcc (double_of_int 0) (double_of_int 0) (double_of_int 0) in
  let! acc := host_upto OPT_N
                (fun i acc =>
                   let! d := lift (at_index optionData i) in
                   let bs := BlackScholesCall d in
                   let! v := read_callValueGPU i in
                   hret (compare_option bs v acc))
                acc in
  hret (mkAcc (sumDelta acc) (sumRef acc)
          (double_div (sumReserve acc) (double_of_int OPT_N))).

(** ** The test summary and the exit status (lines 455-459) *)

Definition EXIT_SUCCESS : Z := 0.
Definition EXIT_FAILURE : Z := 1.

Definition newline : string := String (ascii_of_nat 10) EmptyString.

Record Report : Type := mkReport {
  L1_norm : spec_float;
  average_reserve : spec_float;
  verdict : string;
  exit_status : Z
}.

Definition summary (acc : Accumulators) : Report :=
  {| L1_norm := double_div (sumDelta acc) (sumRef acc);
     average_reserve := sumReserve acc;
     verdict := if fp_gt (sumReserve acc) (double_of_float lit_1f)
                then ("Test passed" ++ newline)%string
                else ("Test failed!" ++ newline)%string;
     exit_status := if fp_gt (sumReserve acc) (double_of_float lit_1f)
                    then EXIT_SUCCESS else EXIT_FAILURE |}.

(** ** Input generation (lines 56-59 and 293-303) *)

(** [rand k] is what the [k]-th call of [rand()] returns after
    [srand(123)]; [RAND_MAX] is the constant of [stdlib.h]. *)
Variable rand : Z -> Z.
Variable RAND_MAX : Z.

Definition randFloat (k : Z) (low high : spec_float) : spec_float :=
  let t := float_div (float_of_int (rand k)) (float_of_int RAND_MAX) in
  float_add (float_mul (float_sub lit_1f t) low) (float_mul t high).

(** What uninitialised storage holds. *)
Variable garbage_plan : nat -> TOptionPlan.
Variable garbage_data : nat -> TOptionData.
Variable garbage_value : nat -> TOptionValue.

(** Lines 266-268 and 293-303: the two arrays are allocated and every cell
    is written. *)
Definition generate_input (OPT_N : Z)
  : result (list TOptionData * list TOptionValue) :=
  let* optionData := new_array OPT_N garbage_data in
  let* callValueGPU := new_array OPT_N garbage_value in
  for_upto OPT_N
    (fun i '(optionData, callValueGPU) =>
       let* optionData :=
         update optionData i
           (fun _ => Option.mkData
                       (randFloat (3 * i) (float_of_int 5) (float_of_int 50))
                       (randFloat (3 * i + 1) (float_of_int 10) (float_of_int 25))
                       (randFloat (3 * i + 2) (float_of_int 1) (float_of_int 5))
                       lit_006f lit_010f) in
       let* callValueGPU :=
         update callValueGPU i (fun _ => Option.mkValue lit_minus1f lit_minus1f) in
       Ok (optionData, callValueGPU))
    (optionData, callValueGPU).

(** ** main, from the device count on (lines 244-459) *)

(** The choices read from the command line (lines 205-242). *)
Record Config : Type := mkConfig {
  use_threads : bool;
  bqatest : bool;
  strongScaling : bool
}.

Definition set_callValueGPU (values : list TOptionValue) : Host unit :=
  fun w => (mkWorld (trace w) values, Done tt).

(** Lines 330-377.  [cutStartThread] starts one [solverThread] per plan and
    [cutWaitForThreads] joins them all, so the program lets the calls of
    different threads interleave.  The threads are run here one after the
    other in index order: one of the schedules that the program allows (the
    plans write disjoint ranges of the result array).  What is stated of a
    threaded run further on is its result and which calls it makes, not how
    the calls of different threads interleave.  The statistics printed
    after the join (lines 340-353) build a default queue per device to name
    it and read the timers; they are not among the recorded calls. *)
Definition threaded_pass (GPU_N OPT_N : Z) (optionSolver : list TOptionPlan)
  (optionData : list TOptionData) (acc : Accumulators) : Host Accumulators :=
  let! _ := host_upto GPU_N
              (fun gpuIndex _ =>
                 let! p := lift (at_index optionSolver gpuIndex) in
                 solverThread p) tt in
  compare_pass OPT_N optionData acc.

(** Lines 379-420.  The statistics printed after [multiSolver] (lines
    382-396) build a default queue per device to name it and read timer 0;
    they are not among the recorded calls. *)
Definition streamed_pass (GPU_N OPT_N : Z) (optionSolver : list TOptionPlan)
  (optionData : list TOptionData) (acc : Accumulators) : Host Accumulators :=
  let! _ := multiSolver optionSolver GPU_N in
  compare_pass OPT_N optionData acc.

(** The value of [OPT_N] computed at lines 249-254. *)
Definition problem_size (cfg : Config) (GPU_N : Z) : Z :=
  let nOptions := 8 * 1024 in
  let nOptions := adjustProblemSize P GPU_N nOptions in
  let scale := if strongScaling cfg then 1 else GPU_N in
  let OPT_N := int_mul nOptions scale in
  OPT_N.

(** Lines 244-328: sizes, timers, input data and plans.  The arrays
    [hTimer], [callValueBS] and [threadID] (lines 258, 270 and 274) have the
    lengths of [optionSolver] and [optionData] and are refused exactly when
    those are, with no call made in between; they hold nothing that the
    model reads. *)
Definition setup (cfg : Config) (GPU_N : Z)
  : Host (Z * list TOptionData * list TOptionPlan) :=
  let OPT_N := problem_size cfg GPU_N in
  let PATH_N := 262144 in
  let! _ := host_upto GPU_N
              (fun i _ => let! _ := log (CreateTimer i) in log (ResetTimer i)) tt in
  let! (optionData, values) := lift (generate_input OPT_N) in
  let! _ := set_callValueGPU values in
  let! optionSolver := lift (build_plans P GPU_N OPT_N PATH_N garbage_plan) in
  hret (OPT_N, optionData, optionSolver).

(** Lines 442-459: the timers are touched once more, the summary is printed
    and the process exits with its status. *)
Definition shutdown (GPU_N : Z) (acc : Accumulators) : Host Report :=
  let! _ := host_upto GPU_N (fun i _ => sdkStartTimer i) tt in
  hret (summary acc).

(** [acc0] is what the accumulators hold before their first assignment. *)
Definition main (cfg : Config) (GPU_N : Z) (acc0 : Accumulators) : Host Report :=
  let! (OPT_N, optionData, optionSolver) := setup cfg GPU_N in
  let! acc :=
    if use_threads cfg || bqatest cfg
    then threaded_pass GPU_N OPT_N optionSolver optionData acc0
    else hret acc0 in
  let! acc :=
    if negb (use_threads cfg) || bqatest cfg
    then streamed_pass GPU_N OPT_N optionSolver optionData acc
    else hret acc in
  shutdown GPU_N acc.

(** ** The dual-pass run as the specification words it

    Both strategies run; only the streamed pass is followed by an
    aggregation, which starts from zero and alone feeds the summary. *)
Definition qatest_reference (cfg : Config) (GPU_N : Z) : Host Report :=
  let! (OPT_N, optionData, optionSolver) := setup cfg GPU_N in
  let! _ := host_upto GPU_N
              (fun gpuIndex _ =>
                 let! p := lift (at_index optionSolver gpuIndex) in
                 solverThread p) tt in
  let! _ := multiSolver optionSolver GPU_N in
  let! acc := compare_pass OPT_N optionData
                (mkAcc (double_of_int 0) (double_of_int 0) (double_of_int 0)) in
  shutdown GPU_N acc.

End Collaborators.

(** ** Vocabulary of the statements *)

(** The range of the shared arrays that a plan views. *)
Definition owns (p : TOptionPlan) (k : Z) : Prop :=
  Plan.callValue p <= k < Plan.callValue p + Plan.optionCount p.

Fixpoint total_options (plans : list TOptionPlan) : Z :=
  match plans with
  | [] => 0
  | p :: rest => Plan.optionCount p + total_options rest
  end.

(** Plans laid out one after the other from offset [b], both views at the
    same offset. *)
Fixpoint contiguous_from (b : Z) (plans : list TOptionPlan) : Prop :=
  match plans with
  | [] => True
  | p :: rest =>
      Plan.callValue p = b /\ Plan.optionData p = b /\ 0 <= Plan.optionCount p /\
      contiguous_from (b + Plan.optionCount p) rest
  end.

(** The number of options of plan [i], and the offset of its range. *)
Definition share (GPU_N OPT_N i : Z) : Z :=
  Z.quot OPT_N GPU_N + (if i <? Z.rem OPT_N GPU_N then 1 else 0).

Definition base (GPU_N OPT_N i : Z) : Z :=
  i * Z.quot OPT_N GPU_N + Z.min i (Z.rem OPT_N GPU_N).

Definition planned (P : Platform) (GPU_N OPT_N PATH_N i : Z) : TOptionPlan :=
  Plan.mk i (share GPU_N OPT_N i) (base GPU_N OPT_N i) (base GPU_N OPT_N i) PATH_N
    (adjustGridSize P i (share GPU_N OPT_N i)).

(** The calls of the device driver made on one stream. *)
Definition driver_call_on (stream : Z) (c : call) : bool :=
  match c with
  | Init _ s | Simulate _ s | Close _ s => s =? stream
  | _ => false
  end.

Definition is_simulate (c : call) : bool :=
  match c with
  | Simulate _ _ => true
  | _ => false
  end.

Definition is_close (c : call) : bool :=
  match c with
  | Close _ _ => true
  | _ => false
  end.

(** A value that is a number: a zero or a finite nonzero value. *)
Definition is_number (x : spec_float) : bool :=
  match x with
  | S754_zero _ | S754_finite _ _ _ => true
  | _ => false
  end.

(** The error of one option, as the comparison loop computes it: the
    distance of the expected value from the reference price. *)
Definition price_error (bs : spec_float) (v : TOptionValue) : spec_float :=
  SFabs (double_of_float (float_sub bs (Option.Expected v))).

(** The accumulators after the comparison loop: from zero, the body of the
    loop applied for [i = 0, 1, ...], in this order, to the reference price
    of [optionData[i]] and to [callValueGPU[i]]. *)
Definition accumulated (BlackScholesCall : TOptionData -> spec_float)
  (optionData : list TOptionData) (values : list TOptionValue) : Accumulators :=
  fold_left (fun acc '(d, v) => compare_option (BlackScholesCall d) v acc)
    (zip optionData values)
    (mkAcc (double_of_int 0) (double_of_int 0) (double_of_int 0)).

(** What a pass hands on: the two sums, and the reserve sum divided by
    [OPT_N]. *)
Definition averaged (OPT_N : Z) (acc : Accumulators) : Accumulators :=
  mkAcc (sumDelta acc) (sumRef acc)
    (double_div (sumReserve acc) (double_of_int OPT_N)).

(** The reserve terms of a pass: [Confidence / delta] of the options whose
    error is greater than 1e-6, in index order. *)
Definition reserve_terms (BlackScholesCall : TOptionData -> spec_float)
  (optionData : list TOptionData) (values : list TOptionValue) : list spec_float :=
  map (fun '(d, v) =>
         double_div (double_of_float (Option.Confidence v))
           (price_error (BlackScholesCall d) v))
    (List.filter (fun '(d, v) => fp_gt (price_error (BlackScholesCall d) v) lit_1em6)
       (zip optionData values)).

(** The calls that a loop over the plans makes: [f i p] for the plan [p] at
    index [i], in plan order. *)
Fixpoint per_plan (f : Z -> TOptionPlan -> list call) (i : Z)
  (plans : list TOptionPlan) : list call :=
  match plans with
  | [] => []
  | p :: rest => f i p ++ per_plan f (i + 1) rest
  end.

(** The calls of one [solverThread] in which nothing raises. *)
Definition threaded_calls (plan : TOptionPlan) : list call :=
  let d := Plan.device plan in
  [StartTimer d; OpenQueue d d; Init plan d; Simulate plan d;
   QueueWaitAndThrow d; StopTimer d; Close plan d; QueueWait d].

(** The six loops of [multiSolver], as the calls they make. *)
Definition streamed_opens (plans : list TOptionPlan) : list call :=
  per_plan (fun i p => [OpenQueue i (Plan.device p)]) 0 plans.
Definition streamed_inits (plans : list TOptionPlan) : list call :=
  per_plan (fun i p => [Init p i]) 0 plans.
Definition streamed_init_waits (plans : list TOptionPlan) : list call :=
  per_plan (fun i _ => [QueueWaitAndThrow i]) 0 plans.
Definition streamed_issues (plans : list TOptionPlan) : list call :=
  per_plan (fun i p => [Simulate p i; SubmitBarrier i]) 0 plans.
Definition streamed_marker_waits (plans : list TOptionPlan) : list call :=
  per_plan (fun i _ => [EventWaitAndThrow i]) 0 plans.
Definition streamed_closes (plans : list TOptionPlan) : list call :=
  per_plan (fun i p => [Close p i]) 0 plans.

(** The calls of one [multiSolver] in which nothing raises. *)
Definition streamed_calls (plans : list TOptionPlan) : list call :=
  streamed_opens plans ++ streamed_inits plans ++ streamed_init_waits plans ++
  streamed_issues plans ++ streamed_marker_waits plans ++
  [StopTimer 0] ++ streamed_closes plans.

(** [c] returns, having made exactly the calls [evs] and kept the size of
    the result array. *)
Definition appends {A : Type} (c : Host A) (evs : list call) : Prop :=
  forall w, exists a values,
    c w = (mkWorld (trace w ++ evs) values, Done a) /\
    length values = length (callValueGPU w).

(** [c] keeps the size of the result array, however it ends. *)
Definition keeps_size {A : Type} (c : Host A) : Prop :=
  forall w, length (callValueGPU (fst (c w))) = length (callValueGPU w).

(** [c] makes no call of the kind [kind], however it ends. *)
Definition makes_no {A : Type} (kind : call -> bool) (c : Host A) : Prop :=
  forall w, exists calls,
    trace (fst (c w)) = trace w ++ calls /\ List.filter kind calls = [].

(** [c] does not end with an exception of the kind [raised]. *)
Definition raises_no {A : Type} (raised : call -> bool) (c : Host A) : Prop :=
  forall w w' e, c w = (w', Uncaught e) -> raised e = false.

(** When [c] ends with an exception of the kind [raised], it has made no
    call of the kind [kind]. *)
Definition raise_spares {A : Type} (raised kind : call -> bool) (c : Host A) : Prop :=
  forall w w' e,
    c w = (w', Uncaught e) -> raised e = true ->
    exists calls, trace w' = trace w ++ calls /\ List.filter kind calls = [].

(** [c] never returns to its caller. *)
Definition never_returns {A : Type} (c : Host A) : Prop :=
  forall w w' a, c w <> (w', Done a).

(** [c] ends without a fault of the host code. *)
Definition fault_free {A : Type} (c : Host A) : Prop :=
  forall w w' f, c w <> (w', Crashed f).

(** ** Concrete hosts used in examples *)

Definition uniform_platform (units : Z) : Platform :=
  {| max_compute_units := fun _ => units; gpu_selector := 0 |}.

(** Device 0, which the selector picks, has 64 compute units; every other
    device has 4. *)
Definition mixed_platform : Platform :=
  {| max_compute_units := fun d => if d =? 0 then 64 else 4; gpu_selector := 0 |}.

Definition never_raises : list call -> call -> bool := fun _ _ => false.

Definition simulate_raises : list call -> call -> bool :=
  fun _ c => is_simulate c.

(** Only the simulation issued on stream 1 raises. *)
Definition second_simulate_raises : list call -> call -> bool :=
  fun _ c => match c with
             | Simulate _ stream => stream =? 1
             | _ => false
             end.

Definition zero_plan : nat -> TOptionPlan := fun _ => Plan.mk 0 0 0 0 0 0.
Definition unset_value : TOptionValue := Option.mkValue lit_minus1f lit_minus1f.
Definition zero_data : TOptionData :=
  Option.mkData (float_of_int 0) (float_of_int 0) (float_of_int 0)
    (float_of_int 0) (float_of_int 0).
Definition nan_accumulators : Accumulators := mkAcc S754_nan S754_nan S754_nan.
Definition empty_world : World := mkWorld [] [].

(** The end-to-end scenario: two devices of 8 compute units, hence 4 options
    each under weak scaling; device 0 reports 4.0 and device 1 reports 6.0,
    both with confidence 0.5; the reference prices are 4.0 for the options
    of device 0 and 6.0 for those of device 1. *)
Definition scenario_kernel : list call -> TOptionPlan -> Z -> TOptionValue :=
  fun _ plan _ =>
    if Plan.device plan =? 0
    then Option.mkValue (float_of_int 4) (binary_normalize 24 128 1 (-1) false)
    else Option.mkValue (float_of_int 6) (binary_normalize 24 128 1 (-1) false).

Definition scenario_rand : Z -> Z := fun k => if k <? 12 then 0 else 2147483647.

Definition scenario_reference (d : TOptionData) : spec_float :=
  if SFeqb (Option.S d) (float_of_int 5) then float_of_int 4 else float_of_int 6.

Definition scenario_main (cfg : Config) : World * outcome Report :=
  main (uniform_platform 8) never_raises scenario_kernel scenario_reference
    scenario_rand 2147483647 zero_plan (fun _ => zero_data) (fun _ => unset_value)
    cfg 2 nan_accumulators empty_world.

(** ** Further vocabulary: the rest of [main] *)

(** The option that the input loop writes into cell [i] (lines 296-300):
    three draws of [rand] in the order S, X, T, and the two constants. *)
Definition generated_option (rand : Z -> Z) (RAND_MAX : Z) (i : Z) : TOptionData :=
  Option.mkData
    (randFloat rand RAND_MAX (3 * i) (float_of_int 5) (float_of_int 50))
    (randFloat rand RAND_MAX (3 * i + 1) (float_of_int 10) (float_of_int 25))
    (randFloat rand RAND_MAX (3 * i + 2) (float_of_int 1) (float_of_int 5))
    lit_006f lit_010f.

(** The ceiling that [adjustGridSize] applies. *)
Definition grid_ceiling (P : Platform) : Z :=
  to_int (uint_mul (selected_compute_units P) 40).

(** The calls of the three timer loops of [main] and of its thread loop. *)
Definition timer_setup_calls (plans : list TOptionPlan) : list call :=
  per_plan (fun i _ => [CreateTimer i; ResetTimer i]) 0 plans.
Definition thread_calls (plans : list TOptionPlan) : list call :=
  per_plan (fun _ p => threaded_calls p) 0 plans.
Definition shutdown_calls (plans : list TOptionPlan) : list call :=
  per_plan (fun i _ => [StartTimer i]) 0 plans.

(** All the calls of a run of [main] in which nothing raises. *)
Definition main_calls (cfg : Config) (plans : list TOptionPlan) : list call :=
  timer_setup_calls plans ++
  (if use_threads cfg || bqatest cfg then thread_calls plans else []) ++
  (if negb (use_threads cfg) || bqatest cfg then streamed_calls plans else []) ++
  shutdown_calls plans.

Definition is_start_timer (c : call) : bool :=
  match c with
  | StartTimer _ => true
  | _ => false
  end.

Definition is_timer_call (c : call) : bool :=
  match c with
  | CreateTimer _ | ResetTimer _ | StartTimer _ | StopTimer _ => true
  | _ => false
  end.

(** Values that are not below zero, and values that are not above zero; a
    NaN and both zeros are in both. *)
Definition not_negative (x : spec_float) : bool :=
  match x with
  | S754_zero _ | S754_nan => true
  | S754_infinity s | S754_finite s _ _ => negb s
  end.

Definition not_positive (x : spec_float) : bool :=
  match x with
  | S754_zero _ | S754_nan => true
  | S754_infinity s | S754_finite s _ _ => s
  end.

(** A value with sign [s], or a NaN. *)
Definition signed_or_nan (s : bool) (x : spec_float) : Prop :=
  match x with
  | S754_nan => True
  | S754_zero s' | S754_infinity s' | S754_finite s' _ _ => s' = s
  end.

(* ================================================================== *)
(** * Part II: properties                                               *)
(* ================================================================== *)

(** ** Machine integers *)

Lemma to_int_range (z : Z) : INT_MIN <= to_int z <= INT_MAX.
Proof.
  unfold to_int, INT_MIN, INT_MAX.
  pose proof (Z.mod_pos_bound (z + 2 ^ 31) (2 ^ 32) ltac:(lia)). lia.
Qed.

Lemma to_int_small (z : Z) : INT_MIN <= z <= INT_MAX -> to_int z = z.
Proof.
  unfold to_int, INT_MIN, INT_MAX. intros Hz.
  rewrite Z.mod_small by lia. lia.
Qed.

Lemma to_uint_small (z : Z) : 0 <= z < 2 ^ 32 -> to_uint z = z.
Proof. intros Hz. unfold to_uint. now apply Z.mod_small. Qed.

Lemma int_div_nonneg (a b : Z) :
  0 <= a <= INT_MAX -> 1 <= b -> int_div a b = Ok (a / b).
Proof.
  intros Ha Hb. unfold int_div.
  destruct (Z.eqb_spec b 0) as [->|_]; [lia|].
  rewrite Z.quot_div_nonneg by lia.
  rewrite to_int_small; [reflexivity|].
  pose proof (Z.div_pos a b ltac:(lia) ltac:(lia)).
  pose proof (Z.div_le_upper_bound a b a ltac:(lia) ltac:(nia)).
  unfold INT_MIN, INT_MAX in *. lia.
Qed.

Lemma int_rem_nonneg (a b : Z) :
  0 <= a <= INT_MAX -> 1 <= b -> int_rem a b = Ok (a mod b).
Proof.
  intros Ha Hb. unfold int_rem.
  destruct (Z.eqb_spec b 0) as [->|_]; [lia|].
  rewrite Z.rem_mod_nonneg by lia.
  rewrite to_int_small; [reflexivity|].
  pose proof (Z.mod_pos_bound a b ltac:(lia)).
  pose proof (Z.mod_le a b ltac:(lia) ltac:(lia)).
  unfold INT_MIN, INT_MAX in *. lia.
Qed.

(** ** Arrays and loops *)

Lemma new_array_ok {A : Type} (n : Z) (g : nat -> A) :
  0 <= n ->
  exists a, new_array n g = Ok a /\ length a = Z.to_nat n.
Proof.
  intros Hn. unfold new_array. destruct (Z.ltb_spec n 0); [lia|].
  eexists. split; [reflexivity|]. now rewrite length_map, length_seq.
Qed.

Lemma new_array_negative {A : Type} (n : Z) (g : nat -> A) :
  n < 0 -> new_array n g = Fault BadArrayNewLength.
Proof. intros Hn. unfold new_array. destruct (Z.ltb_spec n 0); [reflexivity|lia]. Qed.

Lemma at_index_ok {A : Type} (a : list A) (i : Z) (x : A) :
  0 <= i -> a !! Z.to_nat i = Some x -> at_index a i = Ok x.
Proof.
  intros Hi Hx. unfold at_index.
  destruct (Z.ltb_spec i 0); [lia|]. now rewrite Hx.
Qed.

Lemma at_index_lt {A : Type} (a : list A) (i : Z) :
  0 <= i < Z.of_nat (length a) -> exists x, at_index a i = Ok x /\ a !! Z.to_nat i = Some x.
Proof.
  intros Hi.
  destruct (lookup_lt_is_Some_2 a (Z.to_nat i) ltac:(lia)) as [x Hx].
  exists x. split; [apply at_index_ok; [lia|exact Hx]|exact Hx].
Qed.

Lemma update_ok {A : Type} (a : list A) (i : Z) (f : A -> A) (x : A) :
  0 <= i -> a !! Z.to_nat i = Some x ->
  update a i f = Ok (<[Z.to_nat i := f x]> a).
Proof.
  intros Hi Hx. unfold update. now rewrite (at_index_ok a i x Hi Hx).
Qed.

(** The rule for a counted loop: an invariant that each iteration restores
    holds at the end, and the loop does not fault. *)
Lemma for_loop_inv {S : Type} (Inv : Z -> S -> Prop) (body : Z -> S -> result S)
  (n : nat) (i : Z) (s : S) :
  Inv i s ->
  (forall j s, i <= j < i + Z.of_nat n -> Inv j s ->
               exists s', body j s = Ok s' /\ Inv (j + 1) s') ->
  exists s', for_loop n i body s = Ok s' /\ Inv (i + Z.of_nat n) s'.
Proof.
  revert i s. induction n as [|n IH]; intros i s Hinv Hbody.
  - exists s. split; [reflexivity|]. now replace (i + Z.of_nat 0) with i by lia.
  - destruct (Hbody i s ltac:(lia) Hinv) as (s1 & Hs1 & Hinv1).
    destruct (IH (i + 1) s1 Hinv1) as (s2 & Hs2 & Hinv2).
    { intros j s' Hj. apply Hbody. lia. }
    exists s2. split.
    + cbn [for_loop]. rewrite Hs1. exact Hs2.
    + now replace (i + Z.of_nat (Datatypes.S n)) with (i + 1 + Z.of_nat n) by lia.
Qed.

Lemma for_upto_inv {S : Type} (Inv : Z -> S -> Prop) (body : Z -> S -> result S)
  (hi : Z) (s : S) :
  0 <= hi ->
  Inv 0 s ->
  (forall j s, 0 <= j < hi -> Inv j s ->
               exists s', body j s = Ok s' /\ Inv (j + 1) s') ->
  exists s', for_upto hi body s = Ok s' /\ Inv hi s'.
Proof.
  intros Hhi Hinv Hbody. unfold for_upto.
  destruct (for_loop_inv Inv body (Z.to_nat hi) 0 s Hinv) as (s' & Hs' & Hfin).
  { intros j s0 Hj. apply Hbody. lia. }
  exists s'. split; [exact Hs'|]. now replace hi with (0 + Z.of_nat (Z.to_nat hi)) by lia.
Qed.

Lemma iterate_inv {S : Type} (Inv : Z -> S -> Prop) (body : Z -> S -> S)
  (n : nat) (i : Z) (s : S) :
  Inv i s ->
  (forall j s, i <= j < i + Z.of_nat n -> Inv j s -> Inv (j + 1) (body j s)) ->
  Inv (i + Z.of_nat n) (iterate n i body s).
Proof.
  revert i s. induction n as [|n IH]; intros i s Hinv Hbody.
  - cbn. now replace (i + Z.of_nat 0) with i by lia.
  - cbn [iterate].
    replace (i + Z.of_nat (Datatypes.S n)) with (i + 1 + Z.of_nat n) by lia.
    apply IH; [apply Hbody; [lia|exact Hinv]|].
    intros j s' Hj. apply Hbody. lia.
Qed.

Lemma update_inserted {A : Type} (a : list A) (i : Z) (f : A -> A) (x : A) :
  0 <= i < Z.of_nat (length a) ->
  update (<[Z.to_nat i := x]> a) i f = Ok (<[Z.to_nat i := f x]> a).
Proof.
  intros Hi.
  rewrite (update_ok _ i f x); [|lia|apply list_lookup_insert_eq; lia].
  now rewrite list_insert_insert_eq.
Qed.

Lemma at_index_inserted {A : Type} (a : list A) (i : Z) (x : A) :
  0 <= i < Z.of_nat (length a) ->
  at_index (<[Z.to_nat i := x]> a) i = Ok x.
Proof.
  intros Hi. apply at_index_ok; [lia|]. apply list_lookup_insert_eq. lia.
Qed.

(** ** Plan building *)

Section PlanBuilding.

Variable P : Platform.
Variables GPU_N OPT_N PATH_N : Z.
Variable garbage : nat -> TOptionPlan.
Hypothesis devices : 1 <= GPU_N <= INT_MAX.
Hypothesis options : 0 <= OPT_N <= INT_MAX.

Local Abbreviation q := (Z.quot OPT_N GPU_N).
Local Abbreviation r := (Z.rem OPT_N GPU_N).

Lemma quot_rem_facts : OPT_N = GPU_N * q + r /\ 0 <= r < GPU_N /\ 0 <= q.
Proof.
  split; [apply Z.quot_rem'|]. split.
  - apply Z.rem_bound_pos; lia.
  - apply Z.quot_pos; lia.
Qed.

Lemma share_bounds (i : Z) : 0 <= share GPU_N OPT_N i <= OPT_N + 1.
Proof.
  destruct quot_rem_facts as (Heq & Hr & Hq). unfold share.
  destruct (Z.ltb_spec i r); nia.
Qed.

Lemma base_step (i : Z) :
  0 <= i -> base GPU_N OPT_N (i + 1) = base GPU_N OPT_N i + share GPU_N OPT_N i.
Proof.
  intros Hi. unfold base, share.
  destruct (Z.ltb_spec i r); lia.
Qed.

Lemma base_bounds (i : Z) : 0 <= i <= GPU_N -> 0 <= base GPU_N OPT_N i <= OPT_N.
Proof.
  intros Hi. destruct quot_rem_facts as (Heq & Hr & Hq). unfold base.
  pose proof (Z.le_min_l i r). pose proof (Z.le_min_r i r).
  assert (0 <= Z.min i r) by (apply Z.min_glb; lia).
  split; nia.
Qed.

Lemma base_full : base GPU_N OPT_N GPU_N = OPT_N.
Proof.
  destruct quot_rem_facts as (Heq & Hr & Hq). unfold base.
  rewrite Z.min_r by lia. lia.
Qed.

Lemma assign_base_counts_spec (s : list TOptionPlan) :
  length s = Z.to_nat GPU_N ->
  exists s', assign_base_counts GPU_N OPT_N s = Ok s' /\
    length s' = Z.to_nat GPU_N /\
    forall j p, s' !! j = Some p -> Plan.optionCount p = q.
Proof.
  intros Hlen. destruct quot_rem_facts as (Heq & Hr & Hq).
  destruct (for_upto_inv
    (fun k (s : list TOptionPlan) =>
       length s = Z.to_nat GPU_N /\
       forall j p, Z.of_nat j < k -> s !! j = Some p -> Plan.optionCount p = q)
    (fun i optionSolver =>
       let* q := int_div OPT_N GPU_N in
       update optionSolver i (Plan.set_optionCount q))
    GPU_N s) as (s' & Hs' & Hl & Hc).
  - lia.
  - split; [exact Hlen|]. intros j p Hj. lia.
  - intros j s0 Hj [Hl0 Hc0].
    rewrite int_div_nonneg by lia. cbn [rbind].
    destruct (at_index_lt s0 j ltac:(lia)) as (x & _ & Hx).
    rewrite (update_ok s0 j _ x ltac:(lia) Hx).
    eexists. split; [reflexivity|]. split; [now rewrite length_insert|].
    intros j' p Hj' Hp.
    destruct (Nat.eq_dec j' (Z.to_nat j)) as [->|Hne].
    + rewrite list_lookup_insert_eq in Hp by lia. inversion Hp; subst p. cbn.
      rewrite Z.quot_div_nonneg by lia. reflexivity.
    + rewrite list_lookup_insert_ne in Hp by congruence. apply (Hc0 j'); [lia|exact Hp].
  - exists s'. split; [exact Hs'|]. split; [exact Hl|].
    intros j p Hp. apply (Hc j); [|exact Hp].
    apply lookup_lt_Some in Hp. lia.
Qed.

Lemma distribute_remainder_spec (s : list TOptionPlan) :
  length s = Z.to_nat GPU_N ->
  (forall j p, s !! j = Some p -> Plan.optionCount p = q) ->
  exists s', distribute_remainder GPU_N OPT_N s = Ok s' /\
    length s' = Z.to_nat GPU_N /\
    forall j p, s' !! j = Some p ->
                Plan.optionCount p = share GPU_N OPT_N (Z.of_nat j).
Proof.
  intros Hlen Hcount. destruct quot_rem_facts as (Heq & Hr & Hq).
  unfold distribute_remainder.
  rewrite int_rem_nonneg by lia. cbn [rbind].
  rewrite <- Z.rem_mod_nonneg by lia.
  destruct (for_upto_inv
    (fun k (s : list TOptionPlan) =>
       length s = Z.to_nat GPU_N /\
       forall j p, s !! j = Some p ->
                   Plan.optionCount p = q + (if Z.of_nat j <? k then 1 else 0))
    (fun i optionSolver =>
       update optionSolver i
         (fun p => Plan.set_optionCount (int_add (Plan.optionCount p) 1) p))
    r s) as (s' & Hs' & Hl & Hc).
  - lia.
  - split; [exact Hlen|]. intros j p Hp.
    destruct (Z.ltb_spec (Z.of_nat j) 0); [lia|]. rewrite (Hcount j p Hp). lia.
  - intros j s0 Hj [Hl0 Hc0].
    destruct (at_index_lt s0 j ltac:(lia)) as (x & _ & Hx).
    rewrite (update_ok s0 j _ x ltac:(lia) Hx).
    eexists. split; [reflexivity|]. split; [now rewrite length_insert|].
    intros j' p Hp.
    destruct (Nat.eq_dec j' (Z.to_nat j)) as [->|Hne].
    + rewrite list_lookup_insert_eq in Hp by lia. inversion Hp; subst p. cbn.
      rewrite (Hc0 _ _ Hx).
      destruct (Z.ltb_spec (Z.of_nat (Z.to_nat j)) j); [lia|].
      destruct (Z.ltb_spec (Z.of_nat (Z.to_nat j)) (j + 1)); [|lia].
      unfold int_add. rewrite to_int_small; [lia|].
      unfold INT_MIN, INT_MAX in *. nia.
    + rewrite list_lookup_insert_ne in Hp by congruence.
      rewrite (Hc0 _ _ Hp).
      destruct (Z.ltb_spec (Z.of_nat j') j), (Z.ltb_spec (Z.of_nat j') (j + 1)); lia.
  - exists s'. split; [exact Hs'|]. split; [exact Hl|].
    intros j p Hp. rewrite (Hc j p Hp). reflexivity.
Qed.

Lemma assign_ranges_spec (s : list TOptionPlan) :
  length s = Z.to_nat GPU_N ->
  (forall j p, s !! j = Some p ->
               Plan.optionCount p = share GPU_N OPT_N (Z.of_nat j)) ->
  exists s', assign_ranges P GPU_N PATH_N s = Ok (s', OPT_N) /\
    length s' = Z.to_nat GPU_N /\
    forall j p, s' !! j = Some p -> p = planned P GPU_N OPT_N PATH_N (Z.of_nat j).
Proof.
  intros Hlen Hcount.
  destruct (for_upto_inv
    (fun k (st : list TOptionPlan * Z) =>
       length (fst st) = Z.to_nat GPU_N /\
       snd st = base GPU_N OPT_N k /\
       forall j p, fst st !! j = Some p ->
         if Z.of_nat j <? k
         then p = planned P GPU_N OPT_N PATH_N (Z.of_nat j)
         else Plan.optionCount p = share GPU_N OPT_N (Z.of_nat j))
    (fun i '(optionSolver, gpuBase) =>
       let* optionSolver := update optionSolver i (Plan.set_device i) in
       let* optionSolver := update optionSolver i (Plan.set_optionData gpuBase) in
       let* optionSolver := update optionSolver i (Plan.set_callValue gpuBase) in
       let* optionSolver := update optionSolver i (Plan.set_pathN PATH_N) in
       let* optionSolver :=
         update optionSolver i
           (fun p => Plan.set_gridSize
                       (adjustGridSize P (Plan.device p) (Plan.optionCount p)) p) in
       let* p := at_index optionSolver i in
       Ok (optionSolver, int_add gpuBase (Plan.optionCount p)))
    GPU_N (s, 0)) as ([s' b'] & Hs' & Hl & Hb & Hc).
  - lia.
  - cbn [fst snd]. split; [exact Hlen|]. split.
    { pose proof quot_rem_facts as Hf. unfold base. lia. }
    intros j p Hp. destruct (Z.ltb_spec (Z.of_nat j) 0); [lia|]. now apply Hcount.
  - intros j [s0 b0] Hj (Hl0 & Hb0 & Hc0). cbn [fst snd] in *.
    destruct (at_index_lt s0 j ltac:(lia)) as (x & _ & Hx).
    assert (Hcx : Plan.optionCount x = share GPU_N OPT_N j).
    { specialize (Hc0 _ _ Hx).
      destruct (Z.ltb_spec (Z.of_nat (Z.to_nat j)) j); [lia|].
      rewrite Hc0. f_equal. lia. }
    rewrite (update_ok s0 j _ x ltac:(lia) Hx). cbn [rbind].
    rewrite !update_inserted by lia. cbn [rbind].
    rewrite update_inserted by lia. cbn [rbind].
    rewrite update_inserted by lia. cbn [rbind].
    rewrite update_inserted by lia. cbn [rbind].
    rewrite at_index_inserted by lia. cbn [rbind].
    eexists. split; [reflexivity|]. cbn [fst snd].
    split; [now rewrite length_insert|]. split.
    + cbn. rewrite Hcx, base_step by lia. unfold int_add. rewrite Hb0.
      apply to_int_small.
      pose proof (base_bounds (j + 1) ltac:(lia)) as Hbb.
      rewrite base_step in Hbb by lia.
      unfold INT_MIN, INT_MAX in *. lia.
    + intros j' p Hp.
      destruct (Nat.eq_dec j' (Z.to_nat j)) as [->|Hne].
      * rewrite list_lookup_insert_eq in Hp by lia. injection Hp as <-.
        destruct (Z.ltb_spec (Z.of_nat (Z.to_nat j)) (j + 1)); [|lia].
        replace (Z.of_nat (Z.to_nat j)) with j by lia.
        clear Hx. destruct x as [d c od cv pn gs]. cbn in Hcx |- *.
        unfold planned. now rewrite Hcx, Hb0.
      * rewrite list_lookup_insert_ne in Hp by congruence.
        specialize (Hc0 _ _ Hp).
        destruct (Z.ltb_spec (Z.of_nat j') j), (Z.ltb_spec (Z.of_nat j') (j + 1));
          try lia; exact Hc0.
  - cbn [fst snd] in *. exists s'. split.
    + unfold assign_ranges. rewrite Hs'. rewrite Hb, base_full. reflexivity.
    + split; [exact Hl|]. intros j p Hp. specialize (Hc _ _ Hp).
      apply lookup_lt_Some in Hp.
      destruct (Z.ltb_spec (Z.of_nat j) GPU_N); [exact Hc|lia].
Qed.

(** The plans that [main] builds, in closed form. *)
Lemma build_plans_closed_form :
  build_plans P GPU_N OPT_N PATH_N garbage =
  Ok (map (planned P GPU_N OPT_N PATH_N) (seqZ 0 GPU_N)).
Proof.
  unfold build_plans.
  destruct (new_array_ok GPU_N garbage) as (s0 & Hs0 & Hl0); [lia|].
  rewrite Hs0. cbn [rbind].
  destruct (assign_base_counts_spec s0) as (s1 & Hs1 & Hl1 & Hc1); [exact Hl0|].
  rewrite Hs1. cbn [rbind].
  destruct (distribute_remainder_spec s1 Hl1 Hc1) as (s2 & Hs2 & Hl2 & Hc2).
  rewrite Hs2. cbn [rbind].
  destruct (assign_ranges_spec s2 Hl2 Hc2) as (s3 & Hs3 & Hl3 & Hc3).
  rewrite Hs3. cbn [rbind]. f_equal.
  apply list_eq. intros j.
  rewrite list_lookup_fmap.
  destruct (s3 !! j) as [p|] eqn:Hp.
  - pose proof (lookup_lt_Some _ _ _ Hp) as Hj.
    rewrite lookup_seqZ_lt by lia. cbn. f_equal.
    rewrite (Hc3 _ _ Hp). f_equal.
  - apply lookup_ge_None in Hp.
    rewrite lookup_seqZ_ge by lia. reflexivity.
Qed.

End PlanBuilding.

(** ** Contiguous plans partition what they cover *)

Lemma contiguous_within (plans : list TOptionPlan) (b : Z) :
  contiguous_from b plans ->
  forall i p, plans !! i = Some p ->
    b <= Plan.callValue p /\
    Plan.callValue p + Plan.optionCount p <= b + total_options plans.
Proof.
  revert b. induction plans as [|p0 rest IH]; intros b Hc i p Hp; [discriminate|].
  destruct Hc as (Hv & _ & Hn & Hrest).
  assert (Htot : 0 <= total_options rest).
  { clear -Hrest. revert Hrest. generalize (b + Plan.optionCount p0).
    induction rest as [|p1 rest IH]; intros b' Hc; [cbn; lia|].
    destruct Hc as (_ & _ & Hn1 & Hrest). cbn [total_options].
    specialize (IH _ Hrest). lia. }
  destruct i as [|i]; cbn in Hp.
  - injection Hp as <-. cbn [total_options]. lia.
  - destruct (IH _ Hrest i p Hp). cbn [total_options]. lia.
Qed.

Lemma contiguous_cover (plans : list TOptionPlan) (b : Z) :
  contiguous_from b plans ->
  forall k, b <= k < b + total_options plans <->
            exists i p, plans !! i = Some p /\ owns p k.
Proof.
  revert b. induction plans as [|p0 rest IH]; intros b Hc k.
  - cbn. split; [lia|]. intros (i & p & Hp & _). discriminate.
  - pose proof Hc as (Hv & _ & Hn & Hrest). cbn [total_options]. split.
    + intros Hk. destruct (Z.lt_ge_cases k (b + Plan.optionCount p0)) as [Hlt|Hge].
      * exists 0%nat, p0. split; [reflexivity|]. unfold owns. lia.
      * destruct (proj1 (IH _ Hrest k) ltac:(lia)) as (i & p & Hp & Ho).
        exists (Datatypes.S i), p. split; [exact Hp|exact Ho].
    + intros (i & p & Hp & Ho).
      destruct (contiguous_within _ _ Hc i p Hp) as [Hlo Hhi].
      cbn [total_options] in Hhi. unfold owns in Ho. lia.
Qed.

Lemma contiguous_disjoint (plans : list TOptionPlan) (b : Z) :
  contiguous_from b plans ->
  forall i j p p' k,
    plans !! i = Some p -> plans !! j = Some p' -> owns p k -> owns p' k -> i = j.
Proof.
  revert b. induction plans as [|p0 rest IH]; intros b Hc i j p p' k Hp Hp' Ho Ho';
    [discriminate|].
  destruct Hc as (Hv & _ & Hn & Hrest). unfold owns in *.
  destruct i as [|i], j as [|j]; cbn in Hp, Hp'.
  - reflexivity.
  - injection Hp as <-.
    destruct (contiguous_within _ _ Hrest j p' Hp'). lia.
  - injection Hp' as <-.
    destruct (contiguous_within _ _ Hrest i p Hp). lia.
  - f_equal. exact (IH _ Hrest i j p p' k Hp Hp' Ho Ho').
Qed.

Section PlannedLayout.

Variable P : Platform.
Variables GPU_N OPT_N PATH_N : Z.
Hypothesis devices : 1 <= GPU_N <= INT_MAX.
Hypothesis options : 0 <= OPT_N <= INT_MAX.

Lemma planned_contiguous (n : nat) (i : Z) :
  0 <= i ->
  contiguous_from (base GPU_N OPT_N i)
    (map (planned P GPU_N OPT_N PATH_N) (seqZ i (Z.of_nat n))).
Proof.
  revert i. induction n as [|n IH]; intros i Hi.
  - rewrite seqZ_nil by lia. exact I.
  - rewrite seqZ_cons by lia. cbn [map contiguous_from].
    pose proof (share_bounds GPU_N OPT_N devices options i).
    unfold planned at 1 2 3 4. cbn [Plan.callValue Plan.optionData Plan.optionCount].
    repeat split; try lia.
    rewrite <- (base_step GPU_N OPT_N) by lia.
    replace (Z.pred (Z.of_nat (Datatypes.S n))) with (Z.of_nat n) by lia.
    unfold Z.succ. apply IH. lia.
Qed.

Lemma planned_total (n : nat) (i : Z) :
  0 <= i ->
  total_options (map (planned P GPU_N OPT_N PATH_N) (seqZ i (Z.of_nat n))) =
  base GPU_N OPT_N (i + Z.of_nat n) - base GPU_N OPT_N i.
Proof.
  revert i. induction n as [|n IH]; intros i Hi.
  - rewrite seqZ_nil by lia. cbn [map total_options].
    replace (i + Z.of_nat 0) with i by lia. lia.
  - rewrite seqZ_cons by lia. cbn [map total_options].
    unfold planned at 1. cbn [Plan.optionCount].
    replace (Z.pred (Z.of_nat (Datatypes.S n))) with (Z.of_nat n) by lia.
    rewrite IH by lia. unfold Z.succ.
    rewrite (base_step GPU_N OPT_N) by lia.
    replace (i + Z.of_nat (Datatypes.S n)) with (i + 1 + Z.of_nat n) by lia.
    lia.
Qed.

Lemma planned_layout :
  contiguous_from 0 (map (planned P GPU_N OPT_N PATH_N) (seqZ 0 GPU_N)) /\
  total_options (map (planned P GPU_N OPT_N PATH_N) (seqZ 0 GPU_N)) = OPT_N.
Proof.
  assert (Hbase0 : base GPU_N OPT_N 0 = 0).
  { destruct (quot_rem_facts GPU_N OPT_N devices options) as (_ & Hr & _).
    unfold base. lia. }
  pose proof (planned_contiguous (Z.to_nat GPU_N) 0 ltac:(lia)) as Hc.
  pose proof (planned_total (Z.to_nat GPU_N) 0 ltac:(lia)) as Ht.
  rewrite Z2Nat.id in Hc, Ht by lia.
  rewrite Hbase0 in Hc, Ht. rewrite Z.add_0_l in Ht.
  rewrite (base_full GPU_N OPT_N devices options) in Ht.
  split; [exact Hc|lia].
Qed.

End PlannedLayout.

(** C1.  For every device count of at least one and every non-negative
    option count (both of type [int]), the plan-building loops of [main]
    end without fault with one plan per device; the plans' ranges are laid
    out one after the other from offset 0, every index of [0, OPT_N) lies in
    the range of some plan and no other index does, no index lies in the
    ranges of two plans, and the option counts add up to [OPT_N]. *)
Theorem partition_completeness
  (P : Platform) (GPU_N OPT_N PATH_N : Z) (garbage : nat -> TOptionPlan) :
  1 <= GPU_N <= INT_MAX ->
  0 <= OPT_N <= INT_MAX ->
  exists plans,
    build_plans P GPU_N OPT_N PATH_N garbage = Ok plans /\
    Z.of_nat (length plans) = GPU_N /\
    contiguous_from 0 plans /\
    (forall k, 0 <= k < OPT_N <-> exists i p, plans !! i = Some p /\ owns p k) /\
    (forall i j p p' k,
        plans !! i = Some p -> plans !! j = Some p' ->
        owns p k -> owns p' k -> i = j) /\
    total_options plans = OPT_N.
Proof.
  intros HG HO.
  exists (map (planned P GPU_N OPT_N PATH_N) (seqZ 0 GPU_N)).
  destruct (planned_layout P GPU_N OPT_N PATH_N HG HO) as [Hcont Htotal].
  split; [apply build_plans_closed_form; assumption|].
  split; [rewrite length_map, length_seqZ; lia|].
  split; [exact Hcont|].
  split.
  - intros k. rewrite <- (contiguous_cover _ 0 Hcont k), Htotal. lia.
  - split; [|exact Htotal].
    intros i j p p' k. apply (contiguous_disjoint _ 0 Hcont).
Qed.

Lemma partition_completeness_witness :
  exists plans,
    build_plans (uniform_platform 64) 3 10 262144 zero_plan = Ok plans /\
    Z.of_nat (length plans) = 3 /\
    contiguous_from 0 plans /\
    (forall k, 0 <= k < 10 <-> exists i p, plans !! i = Some p /\ owns p k) /\
    (forall i j p p' k,
        plans !! i = Some p -> plans !! j = Some p' ->
        owns p k -> owns p' k -> i = j) /\
    total_options plans = 10.
Proof.
  apply (partition_completeness (uniform_platform 64) 3 10 262144 zero_plan);
    unfold INT_MAX; lia.
Defined.

(** C9.  With 17 options and 4 devices the plans get 5, 4, 4 and 4 options
    in device order; in general plan [i] gets [OPT_N / GPU_N] options, and
    one more when [i < OPT_N mod GPU_N]. *)
Theorem remainder_determinism :
  (forall P PATH_N garbage,
      exists plans,
        build_plans P 4 17 PATH_N garbage = Ok plans /\
        map Plan.optionCount plans = [5; 4; 4; 4]) /\
  (forall P GPU_N OPT_N PATH_N garbage,
      1 <= GPU_N <= INT_MAX ->
      0 <= OPT_N <= INT_MAX ->
      exists plans,
        build_plans P GPU_N OPT_N PATH_N garbage = Ok plans /\
        Z.of_nat (length plans) = GPU_N /\
        forall i p, plans !! i = Some p ->
          Plan.device p = Z.of_nat i /\
          Plan.optionCount p =
            OPT_N / GPU_N + (if Z.of_nat i <? OPT_N mod GPU_N then 1 else 0)).
Proof.
  split.
  - intros P PATH_N garbage. eexists. split.
    + apply build_plans_closed_form; unfold INT_MAX; lia.
    + reflexivity.
  - intros P GPU_N OPT_N PATH_N garbage HG HO. eexists. split.
    + apply build_plans_closed_form; assumption.
    + split; [rewrite length_map, length_seqZ; lia|].
      intros i p Hp. rewrite list_lookup_fmap in Hp.
      destruct (seqZ 0 GPU_N !! i) as [j|] eqn:Hj; [|discriminate].
      apply lookup_seqZ in Hj. destruct Hj as [-> Hlt].
      injection Hp as <-. cbn [planned Plan.device Plan.optionCount].
      split; [lia|]. unfold share.
      rewrite Z.quot_div_nonneg, Z.rem_mod_nonneg by lia.
      replace (0 + Z.of_nat i) with (Z.of_nat i) by lia. reflexivity.
Qed.

Lemma remainder_determinism_witness :
  exists plans,
    build_plans (uniform_platform 64) 3 10 262144 zero_plan = Ok plans /\
    Z.of_nat (length plans) = 3 /\
    forall i p, plans !! i = Some p ->
      Plan.device p = Z.of_nat i /\
      Plan.optionCount p = 10 / 3 + (if Z.of_nat i <? 10 mod 3 then 1 else 0).
Proof.
  apply (proj2 remainder_determinism (uniform_platform 64) 3 10 262144 zero_plan);
    unfold INT_MAX; lia.
Defined.

(** ** The capability helpers *)

Lemma adjustGridSize_min (P : Platform) (GPUIndex defaultGridSize : Z) :
  adjustGridSize P GPUIndex defaultGridSize =
  Z.min defaultGridSize (to_int (uint_mul (selected_compute_units P) 40)).
Proof.
  unfold adjustGridSize.
  destruct (Z.gtb_spec defaultGridSize (to_int (uint_mul (selected_compute_units P) 40)));
    lia.
Qed.

Lemma adjustProblemSize_closed (P : Platform) (GPU_N default_nOptions : Z) :
  adjustProblemSize P GPU_N default_nOptions =
  if GPU_N <=? 0 then default_nOptions
  else if to_int (selected_compute_units P) <=? 32
       then Z.min default_nOptions (Z.quot (to_int (selected_compute_units P)) 2)
       else default_nOptions.
Proof.
  unfold adjustProblemSize, iterate_upto.
  set (cores := to_int (selected_compute_units P)).
  destruct (Z.leb_spec GPU_N 0) as [Hle|Hgt].
  - replace (Z.to_nat GPU_N) with 0%nat by lia. reflexivity.
  - pose proof (iterate_inv
      (fun k v =>
         v = if k <=? 0 then default_nOptions
             else if cores <=? 32 then Z.min default_nOptions (Z.quot cores 2)
                  else default_nOptions)
      (fun (_ : Z) nOptions =>
         if cores <=? 32
         then (if nOptions <? Z.quot cores 2 then nOptions else Z.quot cores 2)
         else nOptions)
      (Z.to_nat GPU_N) 0 default_nOptions) as Hinv.
    cbv beta in Hinv.
    destruct (Z.leb_spec (0 + Z.of_nat (Z.to_nat GPU_N)) 0); [lia|].
    apply Hinv; [reflexivity|].
    intros j v Hj ->.
    destruct (Z.leb_spec (j + 1) 0); [lia|].
    destruct (Z.leb_spec j 0), (Z.leb_spec cores 32); try reflexivity.
    + destruct (Z.ltb_spec default_nOptions (Z.quot cores 2)); lia.
    + destruct (Z.ltb_spec (Z.min default_nOptions (Z.quot cores 2)) (Z.quot cores 2)); lia.
Qed.

Lemma adjustProblemSize_le (P : Platform) (GPU_N default_nOptions : Z) :
  adjustProblemSize P GPU_N default_nOptions <= default_nOptions.
Proof.
  rewrite adjustProblemSize_closed.
  destruct (GPU_N <=? 0); [lia|].
  destruct (to_int (selected_compute_units P) <=? 32); lia.
Qed.

(** C7.  [adjustGridSize] does not read its device index: on a host whose
    selected device has 64 compute units and whose device 1 has 4, the grid
    size for device 1 stays at 1000, above the ceiling 4 * 40 of that
    device. *)
Theorem adjustGridSize_ignores_device :
  adjustGridSize mixed_platform 1 1000 = 1000 /\
  max_compute_units mixed_platform 1 * 40 = 160 /\
  Z.min 1000 (max_compute_units mixed_platform 1 * 40) = 160 /\
  (forall P d d' g, adjustGridSize P d g = adjustGridSize P d' g).
Proof. repeat split. Qed.

(** C8.  [adjustProblemSize] queries the selected device at every iteration
    and never the device of the loop index: on a host whose selected device
    has 64 compute units and whose device 1 has 4, the default of 8192
    options is returned unchanged, although device 1 is small and half its
    compute-unit count is 2.  On every host the result is the one of a host
    whose devices are all like the selected one. *)
Theorem adjustProblemSize_ignores_small_device :
  adjustProblemSize mixed_platform 2 8192 = 8192 /\
  max_compute_units mixed_platform 1 = 4 /\
  (forall P GPU_N d,
      adjustProblemSize P GPU_N d =
      adjustProblemSize (uniform_platform (max_compute_units P (gpu_selector P))) GPU_N d).
Proof.
  split; [reflexivity|]. split; [reflexivity|].
  intros P GPU_N d. rewrite !adjustProblemSize_closed. reflexivity.
Qed.

(** ** The host monad *)

Lemma appends_ret {A : Type} (a : A) : appends (hret a) [].
Proof.
  intros w. exists a, (callValueGPU w). split; [|reflexivity].
  unfold hret. rewrite app_nil_r. now destruct w.
Qed.

Lemma appends_bind {A B : Type} (c : Host A) (k : A -> Host B) (e1 e2 : list call) :
  appends c e1 -> (forall a, appends (k a) e2) -> appends (hbind c k) (e1 ++ e2).
Proof.
  intros Hc Hk w. destruct (Hc w) as (a & v1 & Hrun1 & Hlen1).
  destruct (Hk a (mkWorld (trace w ++ e1) v1)) as (b & v2 & Hrun2 & Hlen2).
  exists b, v2. unfold hbind. rewrite Hrun1, Hrun2. cbn [trace callValueGPU] in *.
  rewrite app_assoc. split; [reflexivity|congruence].
Qed.

Lemma appends_log (c : call) : appends (log c) [c].
Proof. intros w. exists tt, (callValueGPU w). split; reflexivity. Qed.

Lemma appends_lift_bind {A B : Type} (r : result A) (a : A) (k : A -> Host B)
  (evs : list call) :
  r = Ok a -> appends (k a) evs -> appends (hbind (lift r) k) evs.
Proof. intros -> Hk w. unfold hbind, lift. apply Hk. Qed.

Lemma hbind_run {A B : Type} (c : Host A) (k : A -> Host B) (w w' : World) (a : A) :
  c w = (w', Done a) -> hbind c k w = k a w'.
Proof. intros Hrun. unfold hbind. now rewrite Hrun. Qed.

Lemma hbind_crashed {A B : Type} (c : Host A) (k : A -> Host B) (w w' : World)
  (f : fault) :
  c w = (w', Crashed f) -> hbind c k w = (w', Crashed f).
Proof. intros Hrun. unfold hbind. now rewrite Hrun. Qed.

Lemma hbind_uncaught {A B : Type} (c : Host A) (k : A -> Host B) (w w' : World)
  (e : call) :
  c w = (w', Uncaught e) -> hbind c k w = (w', Uncaught e).
Proof. intros Hrun. unfold hbind. now rewrite Hrun. Qed.

Lemma hbind_done {A B : Type} (c : Host A) (k : A -> Host B) (w w' : World) (b : B) :
  hbind c k w = (w', Done b) ->
  exists a w1, c w = (w1, Done a) /\ k a w1 = (w', Done b).
Proof.
  unfold hbind. destruct (c w) as [w1 [a|f|e]]; intros H; try discriminate.
  now exists a, w1.
Qed.

Lemma length_store_results
  (kernel : list call -> TOptionPlan -> Z -> TOptionValue)
  (h : list call) (plan : TOptionPlan) (results : list TOptionValue) :
  length (store_results kernel h plan results) = length results.
Proof.
  unfold store_results, iterate_upto.
  apply (iterate_inv (fun _ (v : list TOptionValue) => length v = length results));
    [reflexivity|].
  intros j v _ Hv. now rewrite length_insert.
Qed.

Section Calls.

Variable raises : list call -> call -> bool.
Variable kernel : list call -> TOptionPlan -> Z -> TOptionValue.

Lemma appends_invoke (c : call) :
  (forall h, raises h c = false) -> appends (invoke raises c) [c].
Proof.
  intros quiet w. exists tt, (callValueGPU w). unfold invoke. rewrite quiet.
  split; reflexivity.
Qed.

Lemma appends_MonteCarloGPU (plan : TOptionPlan) (stream : Z) :
  (forall h, raises h (Simulate plan stream) = false) ->
  appends (MonteCarloGPU raises kernel plan stream) [Simulate plan stream].
Proof.
  intros quiet w. eexists tt, _. unfold MonteCarloGPU, invoke. rewrite quiet.
  cbn [trace callValueGPU]. split; [reflexivity|apply length_store_results].
Qed.

End Calls.

(** A loop over the plans whose body makes the calls [f i p] makes the calls
    [per_plan f] in all. *)
Lemma appends_per_plan (body : Z -> unit -> Host unit)
  (f : Z -> TOptionPlan -> list call) (suffix : list TOptionPlan) (i : Z) :
  (forall k p, suffix !! k = Some p ->
               appends (body (i + Z.of_nat k) tt) (f (i + Z.of_nat k) p)) ->
  appends (host_for (length suffix) i body tt) (per_plan f i suffix).
Proof.
  revert i. induction suffix as [|p rest IH]; intros i Hbody.
  - apply appends_ret.
  - cbn [length host_for per_plan]. apply appends_bind.
    + specialize (Hbody 0%nat p eq_refl).
      now replace (i + Z.of_nat 0) with i in Hbody by lia.
    + intros []. apply IH. intros k p' Hk.
      specialize (Hbody (Datatypes.S k) p' Hk).
      now replace (i + Z.of_nat (Datatypes.S k)) with (i + 1 + Z.of_nat k) in Hbody by lia.
Qed.

Lemma at_index_of_nat {A : Type} (a : list A) (k : nat) (x : A) :
  a !! k = Some x -> at_index a (0 + Z.of_nat k) = Ok x.
Proof. intros Hx. apply at_index_ok; [lia|]. now replace (Z.to_nat (0 + Z.of_nat k)) with k by lia. Qed.

(** ** The streamed strategy *)

Section Streamed.

Variable raises : list call -> call -> bool.
Variable kernel : list call -> TOptionPlan -> Z -> TOptionValue.

(** A loop of [multiSolver] that looks up the plan and makes the calls
    [f i p] on it. *)
Lemma appends_plan_loop (plans : list TOptionPlan)
  (action : TOptionPlan -> Z -> Host unit) (f : Z -> TOptionPlan -> list call) :
  (forall k p, plans !! k = Some p ->
               appends (action p (Z.of_nat k)) (f (Z.of_nat k) p)) ->
  appends
    (host_upto (Z.of_nat (length plans))
       (fun i _ => let! p := lift (at_index plans i) in action p i) tt)
    (per_plan f 0 plans).
Proof.
  intros Haction. unfold host_upto. rewrite Nat2Z.id.
  apply appends_per_plan. intros k p Hp.
  apply (appends_lift_bind _ p); [now apply at_index_of_nat|].
  replace (0 + Z.of_nat k) with (Z.of_nat k) by lia. now apply Haction.
Qed.

(** A loop of [multiSolver] that only uses the index. *)
Lemma appends_index_loop (plans : list TOptionPlan)
  (action : Z -> Host unit) (f : Z -> list call) :
  (forall k, (k < length plans)%nat ->
             appends (action (Z.of_nat k)) (f (Z.of_nat k))) ->
  appends (host_upto (Z.of_nat (length plans)) (fun i _ => action i) tt)
    (per_plan (fun i _ => f i) 0 plans).
Proof.
  intros Haction. unfold host_upto. rewrite Nat2Z.id.
  apply appends_per_plan. intros k p Hp.
  replace (0 + Z.of_nat k) with (Z.of_nat k) by lia.
  apply Haction. now apply lookup_lt_Some in Hp.
Qed.

Lemma multiSolver_quiet (plans : list TOptionPlan) :
  (forall h c, raises h c = false) ->
  appends (multiSolver raises kernel plans (Z.of_nat (length plans)))
    (streamed_calls plans).
Proof.
  intros quiet. unfold multiSolver, streamed_calls.
  apply appends_bind.
  { apply appends_plan_loop. intros k p _. now apply appends_invoke. }
  intros _. apply appends_bind.
  { apply appends_plan_loop. intros k p _. now apply appends_invoke. }
  intros _. apply appends_bind.
  { apply (appends_index_loop plans (fun i => invoke raises (QueueWaitAndThrow i))
             (fun i => [QueueWaitAndThrow i])).
    intros k _. now apply appends_invoke. }
  intros _. apply appends_bind.
  { apply (appends_plan_loop plans
             (fun p i => let! _ := MonteCarloGPU raises kernel p i in
                         invoke raises (SubmitBarrier i))
             (fun i p => [Simulate p i; SubmitBarrier i])).
    intros k p _.
    apply (appends_bind _ _ [Simulate p (Z.of_nat k)] [SubmitBarrier (Z.of_nat k)]).
    - now apply appends_MonteCarloGPU.
    - intros _. now apply appends_invoke. }
  intros _. apply appends_bind.
  { apply (appends_index_loop plans (fun i => invoke raises (EventWaitAndThrow i))
             (fun i => [EventWaitAndThrow i])).
    intros k _. now apply appends_invoke. }
  intros _. apply appends_bind.
  { apply appends_log. }
  intros _. apply appends_plan_loop. intros k p _. now apply appends_invoke.
Qed.

End Streamed.

Lemma filter_per_plan_nil (keep : call -> bool) (f : Z -> TOptionPlan -> list call)
  (plans : list TOptionPlan) (i : Z) :
  (forall k p, i <= k -> List.filter keep (f k p) = []) ->
  List.filter keep (per_plan f i plans) = [].
Proof.
  revert i. induction plans as [|p rest IH]; intros i Hf; [reflexivity|].
  cbn [per_plan]. rewrite List.filter_app, Hf by lia.
  apply IH. intros k p' Hk. apply Hf. lia.
Qed.

Lemma filter_per_plan_one (stream_filter : Z -> call -> bool)
  (f : Z -> TOptionPlan -> list call) (g : Z -> TOptionPlan -> list call)
  (plans : list TOptionPlan) (i : Z) (n : nat) (p : TOptionPlan) :
  (forall j k p, List.filter (stream_filter j) (f k p) = if k =? j then g k p else []) ->
  plans !! n = Some p ->
  List.filter (stream_filter (i + Z.of_nat n)) (per_plan f i plans) =
  g (i + Z.of_nat n) p.
Proof.
  intros Hf. revert i n. induction plans as [|p0 rest IH]; intros i n Hp; [discriminate|].
  cbn [per_plan]. rewrite List.filter_app, Hf.
  destruct n as [|n]; cbn in Hp.
  - injection Hp as ->. replace (i + Z.of_nat 0) with i by lia.
    rewrite Z.eqb_refl, filter_per_plan_nil; [apply app_nil_r|].
    intros k p' Hk. rewrite Hf. destruct (Z.eqb_spec k i); [lia|reflexivity].
  - destruct (Z.eqb_spec i (i + Z.of_nat (Datatypes.S n))); [lia|].
    replace (i + Z.of_nat (Datatypes.S n)) with (i + 1 + Z.of_nat n) by lia.
    now apply IH.
Qed.

Lemma in_per_plan (f : Z -> TOptionPlan -> list call) (plans : list TOptionPlan)
  (i : Z) (n : nat) (p : TOptionPlan) (c : call) :
  plans !! n = Some p -> In c (f (i + Z.of_nat n) p) -> In c (per_plan f i plans).
Proof.
  revert i n. induction plans as [|p0 rest IH]; intros i n Hp Hc; [discriminate|].
  cbn [per_plan]. apply in_or_app. destruct n as [|n]; cbn in Hp.
  - injection Hp as ->. left. now replace (i + Z.of_nat 0) with i in Hc by lia.
  - right. apply (IH (i + 1) n Hp).
    now replace (i + Z.of_nat (Datatypes.S n)) with (i + 1 + Z.of_nat n) in Hc by lia.
Qed.

(** C5.  When no call raises, [multiSolver] makes its calls in this order:
    the queues are opened; init is issued for every plan in plan order; the
    stream of every plan is waited for, one wait per stream; only then is the
    simulation issued for every plan in plan order, each issue followed at
    once by the submission of a barrier whose event is recorded; the event
    of every plan is waited for; and only then the timer is stopped, the
    plans are closed and the function returns.  No simulation is issued
    before the last of the per-stream waits. *)
Theorem streamed_issue_order
  (raises : list call -> call -> bool)
  (kernel : list call -> TOptionPlan -> Z -> TOptionValue)
  (plans : list TOptionPlan) :
  (forall h c, raises h c = false) ->
  (forall w, exists values,
      multiSolver raises kernel plans (Z.of_nat (length plans)) w =
      (mkWorld
         (trace w ++
          per_plan (fun i p => [OpenQueue i (Plan.device p)]) 0 plans ++
          per_plan (fun i p => [Init p i]) 0 plans ++
          per_plan (fun i _ => [QueueWaitAndThrow i]) 0 plans ++
          per_plan (fun i p => [Simulate p i; SubmitBarrier i]) 0 plans ++
          per_plan (fun i _ => [EventWaitAndThrow i]) 0 plans ++
          [StopTimer 0] ++
          per_plan (fun i p => [Close p i]) 0 plans)
         values,
       Done tt)) /\
  List.filter is_simulate
    (streamed_opens plans ++ streamed_inits plans ++ streamed_init_waits plans) = [] /\
  (forall i p, plans !! i = Some p ->
     In (Init p (Z.of_nat i)) (streamed_inits plans) /\
     In (QueueWaitAndThrow (Z.of_nat i)) (streamed_init_waits plans) /\
     In (Simulate p (Z.of_nat i)) (streamed_issues plans) /\
     In (SubmitBarrier (Z.of_nat i)) (streamed_issues plans) /\
     In (EventWaitAndThrow (Z.of_nat i)) (streamed_marker_waits plans)).
Proof.
  intros quiet. split; [|split].
  - intros w. destruct (multiSolver_quiet raises kernel plans quiet w)
      as ([] & values & Hrun & _).
    exists values. exact Hrun.
  - rewrite !List.filter_app.
    unfold streamed_opens, streamed_inits, streamed_init_waits.
    rewrite !filter_per_plan_nil; reflexivity.
  - intros i p Hp.
    unfold streamed_inits, streamed_init_waits, streamed_issues, streamed_marker_waits.
    repeat split; apply (in_per_plan _ plans 0 i p _ Hp);
      replace (0 + Z.of_nat i) with (Z.of_nat i) by lia; cbn; auto.
Qed.

Lemma streamed_issue_order_witness :
  (exists values,
      multiSolver never_raises scenario_kernel
        [Plan.mk 0 4 0 0 262144 4; Plan.mk 1 4 4 4 262144 4] 2 empty_world =
      (mkWorld
         [OpenQueue 0 0; OpenQueue 1 1;
          Init (Plan.mk 0 4 0 0 262144 4) 0; Init (Plan.mk 1 4 4 4 262144 4) 1;
          QueueWaitAndThrow 0; QueueWaitAndThrow 1;
          Simulate (Plan.mk 0 4 0 0 262144 4) 0; SubmitBarrier 0;
          Simulate (Plan.mk 1 4 4 4 262144 4) 1; SubmitBarrier 1;
          EventWaitAndThrow 0; EventWaitAndThrow 1;
          StopTimer 0;
          Close (Plan.mk 0 4 0 0 262144 4) 0; Close (Plan.mk 1 4 4 4 262144 4) 1]
         values,
       Done tt)) /\
  (In (Init (Plan.mk 1 4 4 4 262144 4) 1)
      (streamed_inits [Plan.mk 0 4 0 0 262144 4; Plan.mk 1 4 4 4 262144 4]) /\
   In (QueueWaitAndThrow 1)
      (streamed_init_waits [Plan.mk 0 4 0 0 262144 4; Plan.mk 1 4 4 4 262144 4]) /\
   In (Simulate (Plan.mk 1 4 4 4 262144 4) 1)
      (streamed_issues [Plan.mk 0 4 0 0 262144 4; Plan.mk 1 4 4 4 262144 4]) /\
   In (SubmitBarrier 1)
      (streamed_issues [Plan.mk 0 4 0 0 262144 4; Plan.mk 1 4 4 4 262144 4]) /\
   In (EventWaitAndThrow 1)
      (streamed_marker_waits [Plan.mk 0 4 0 0 262144 4; Plan.mk 1 4 4 4 262144 4])).
Proof.
  split.
  - exact (proj1 (streamed_issue_order never_raises scenario_kernel
                    [Plan.mk 0 4 0 0 262144 4; Plan.mk 1 4 4 4 262144 4]
                    (fun _ _ => eq_refl)) empty_world).
  - exact (proj2 (proj2 (streamed_issue_order never_raises scenario_kernel
                           [Plan.mk 0 4 0 0 262144 4; Plan.mk 1 4 4 4 262144 4]
                           (fun _ _ => eq_refl)))
             1%nat (Plan.mk 1 4 4 4 262144 4) eq_refl).
Defined.

(** ** The device driver *)

Section Driver.

Variable raises : list call -> call -> bool.
Variable kernel : list call -> TOptionPlan -> Z -> TOptionValue.

Lemma solverThread_quiet (plan : TOptionPlan) :
  (forall h c, raises h c = false) ->
  appends (solverThread raises kernel plan) (threaded_calls plan).
Proof.
  intros quiet. unfold solverThread, threaded_calls.
  apply (appends_bind _ _ [_] _); [apply appends_log|intros _].
  apply (appends_bind _ _ [_] _); [now apply appends_invoke|intros _].
  apply (appends_bind _ _ [_] _); [now apply appends_invoke|intros _].
  apply (appends_bind _ _ [_] _); [now apply appends_MonteCarloGPU|intros _].
  apply (appends_bind _ _ [_] _); [now apply appends_invoke|intros _].
  apply (appends_bind _ _ [_] _); [apply appends_log|intros _].
  apply (appends_bind _ _ [_] _); [now apply appends_invoke|intros _].
  now apply appends_invoke.
Qed.

(** When only simulations raise and that of the plan does, the thread ends
    at its simulation. *)
Lemma solverThread_simulate_raises (plan : TOptionPlan) (w : World) :
  (forall h e, is_simulate e = false -> raises h e = false) ->
  (forall h, raises h (Simulate plan (Plan.device plan)) = true) ->
  solverThread raises kernel plan w =
  (mkWorld (trace w ++ [StartTimer (Plan.device plan);
                        OpenQueue (Plan.device plan) (Plan.device plan);
                        Init plan (Plan.device plan);
                        Simulate plan (Plan.device plan)])
     (callValueGPU w),
   Uncaught (Simulate plan (Plan.device plan))).
Proof.
  intros Honly Hsim.
  unfold solverThread, hbind, sdkStartTimer, log, initMonteCarloGPU, MonteCarloGPU, invoke.
  cbn [trace callValueGPU].
  rewrite (Honly _ (OpenQueue _ _)) by reflexivity. cbn [trace callValueGPU].
  rewrite (Honly _ (Init _ _)) by reflexivity. cbn [trace callValueGPU].
  rewrite Hsim. now rewrite <- !app_assoc.
Qed.

End Driver.

Lemma streamed_driver_calls (plans : list TOptionPlan) (i : nat) (p : TOptionPlan) :
  plans !! i = Some p ->
  List.filter (driver_call_on (Z.of_nat i)) (streamed_calls plans) =
  [Init p (Z.of_nat i); Simulate p (Z.of_nat i); Close p (Z.of_nat i)].
Proof.
  intros Hp. unfold streamed_calls. rewrite !List.filter_app.
  unfold streamed_opens, streamed_init_waits, streamed_marker_waits.
  rewrite !filter_per_plan_nil by reflexivity.
  unfold streamed_inits, streamed_issues, streamed_closes.
  change (Z.of_nat i) with (0 + Z.of_nat i).
  rewrite (filter_per_plan_one driver_call_on _ (fun k q => [Init q k]) plans 0 i p);
    [|intros j k q; cbn; now destruct (k =? j)|exact Hp].
  rewrite (filter_per_plan_one driver_call_on _ (fun k q => [Simulate q k]) plans 0 i p);
    [|intros j k q; cbn; now destruct (k =? j)|exact Hp].
  rewrite (filter_per_plan_one driver_call_on _ (fun k q => [Close q k]) plans 0 i p);
    [|intros j k q; cbn; now destruct (k =? j)|exact Hp].
  reflexivity.
Qed.

(** ** How a driver ends when a call raises *)

Lemma makes_no_ret {A : Type} (kind : call -> bool) (a : A) : makes_no kind (hret a).
Proof. intros w. exists []. split; [now rewrite app_nil_r|reflexivity]. Qed.

Lemma makes_no_bind {A B : Type} (kind : call -> bool) (c : Host A) (k : A -> Host B) :
  makes_no kind c -> (forall a, makes_no kind (k a)) -> makes_no kind (hbind c k).
Proof.
  intros Hc Hk w. destruct (Hc w) as (e1 & Ht1 & Hf1). unfold hbind.
  destruct (c w) as [w1 [a|f|e]]; cbn [fst] in *; try (now exists e1).
  destruct (Hk a w1) as (e2 & Ht2 & Hf2).
  exists (e1 ++ e2). split.
  - now rewrite Ht2, Ht1, app_assoc.
  - now rewrite List.filter_app, Hf1, Hf2.
Qed.

Lemma makes_no_lift {A : Type} (kind : call -> bool) (r : result A) :
  makes_no kind (lift r).
Proof.
  intros w. exists []. unfold lift. destruct r; cbn [fst]; now rewrite app_nil_r.
Qed.

Lemma makes_no_log (kind : call -> bool) (c : call) :
  kind c = false -> makes_no kind (log c).
Proof. intros Hc w. exists [c]. cbn. now rewrite Hc. Qed.

Lemma makes_no_for {S : Type} (kind : call -> bool) (body : Z -> S -> Host S)
  (n : nat) (i : Z) (s : S) :
  (forall j s, makes_no kind (body j s)) -> makes_no kind (host_for n i body s).
Proof.
  intros Hbody. revert i s. induction n as [|n IH]; intros i s.
  - apply makes_no_ret.
  - cbn [host_for]. apply makes_no_bind; [apply Hbody|]. intros s'. apply IH.
Qed.

Lemma raises_no_ret {A : Type} (raised : call -> bool) (a : A) : raises_no raised (hret a).
Proof. intros w w' e H. discriminate. Qed.

Lemma raises_no_bind {A B : Type} (raised : call -> bool) (c : Host A) (k : A -> Host B) :
  raises_no raised c -> (forall a, raises_no raised (k a)) -> raises_no raised (hbind c k).
Proof.
  intros Hc Hk w w' e. unfold hbind.
  destruct (c w) as [w1 [a|f|e1]] eqn:Hrun; intros H.
  - now apply (Hk a w1 w').
  - discriminate.
  - injection H as <- <-. now apply (Hc w w1).
Qed.

Lemma raises_no_lift {A : Type} (raised : call -> bool) (r : result A) :
  raises_no raised (lift r).
Proof. intros w w' e. unfold lift. destruct r; discriminate. Qed.

Lemma raises_no_log (raised : call -> bool) (c : call) : raises_no raised (log c).
Proof. intros w w' e H. discriminate. Qed.

Lemma raises_no_for {S : Type} (raised : call -> bool) (body : Z -> S -> Host S)
  (n : nat) (i : Z) (s : S) :
  (forall j s, raises_no raised (body j s)) -> raises_no raised (host_for n i body s).
Proof.
  intros Hbody. revert i s. induction n as [|n IH]; intros i s.
  - apply raises_no_ret.
  - cbn [host_for]. apply raises_no_bind; [apply Hbody|]. intros s'. apply IH.
Qed.

(** What comes after a part that makes no call of a kind decides whether a
    raise spares that kind. *)
Lemma raise_spares_bind {A B : Type} (raised kind : call -> bool)
  (c : Host A) (k : A -> Host B) :
  makes_no kind c -> (forall a, raise_spares raised kind (k a)) ->
  raise_spares raised kind (hbind c k).
Proof.
  intros Hc Hk w w' e. destruct (Hc w) as (e1 & Ht1 & Hf1). unfold hbind.
  destruct (c w) as [w1 [a|f|e0]]; cbn [fst] in *; intros Hrun Hraised.
  - destruct (Hk a w1 w' e Hrun Hraised) as (e2 & Ht2 & Hf2).
    exists (e1 ++ e2). split.
    + now rewrite Ht2, Ht1, app_assoc.
    + now rewrite List.filter_app, Hf1, Hf2.
  - discriminate.
  - injection Hrun as <- <-. now exists e1.
Qed.

Lemma raise_spares_none {A : Type} (raised kind : call -> bool) (c : Host A) :
  raises_no raised c -> raise_spares raised kind c.
Proof.
  intros Hc w w' e Hrun Hraised. rewrite (Hc w w' e Hrun) in Hraised. discriminate.
Qed.

(** Nothing that follows a part that never returns is run. *)
Lemma raise_spares_stuck {A B : Type} (raised kind : call -> bool)
  (c : Host A) (k : A -> Host B) :
  makes_no kind c -> never_returns c -> raise_spares raised kind (hbind c k).
Proof.
  intros Hc Hstuck w w' e. destruct (Hc w) as (e1 & Ht1 & Hf1). unfold hbind.
  destruct (c w) as [w1 [a|f|e0]] eqn:Hrun; cbn [fst] in *; intros H _.
  - exfalso. exact (Hstuck w w1 a Hrun).
  - discriminate.
  - injection H as <- <-. now exists e1.
Qed.

Lemma never_returns_bind_l {A B : Type} (c : Host A) (k : A -> Host B) :
  never_returns c -> never_returns (hbind c k).
Proof.
  intros Hc w w' b. unfold hbind.
  destruct (c w) as [w1 [a|f|e]] eqn:Hrun; try discriminate.
  exfalso. exact (Hc w w1 a Hrun).
Qed.

Lemma never_returns_bind_r {A B : Type} (c : Host A) (k : A -> Host B) :
  (forall a, never_returns (k a)) -> never_returns (hbind c k).
Proof.
  intros Hk w w' b. unfold hbind.
  destruct (c w) as [w1 [a|f|e]]; try discriminate. apply Hk.
Qed.

(** A loop with an iteration that never returns never returns. *)
Lemma never_returns_for {S : Type} (body : Z -> S -> Host S) (n : nat) (i j : Z) (s : S) :
  i <= j < i + Z.of_nat n ->
  (forall s, never_returns (body j s)) ->
  never_returns (host_for n i body s).
Proof.
  intros Hj Hbody. revert i s Hj. induction n as [|n IH]; intros i s Hj; [lia|].
  cbn [host_for]. destruct (Z.eq_dec i j) as [->|Hne].
  - apply never_returns_bind_l. apply Hbody.
  - apply never_returns_bind_r. intros s'. apply IH. lia.
Qed.

Lemma fault_free_ret {A : Type} (a : A) : fault_free (hret a).
Proof. intros w w' f H. discriminate. Qed.

Lemma fault_free_bind {A B : Type} (c : Host A) (k : A -> Host B) :
  fault_free c -> (forall a, fault_free (k a)) -> fault_free (hbind c k).
Proof.
  intros Hc Hk w w' f. unfold hbind.
  destruct (c w) as [w1 [a|f1|e1]] eqn:Hrun; intros H.
  - now apply (Hk a w1 w' f).
  - now apply (Hc w w1 f1).
  - discriminate.
Qed.

Lemma fault_free_log (c : call) : fault_free (log c).
Proof. intros w w' f H. discriminate. Qed.

Lemma fault_free_per_plan (body : Z -> unit -> Host unit)
  (suffix : list TOptionPlan) (i : Z) :
  (forall k p, suffix !! k = Some p -> fault_free (body (i + Z.of_nat k) tt)) ->
  fault_free (host_for (length suffix) i body tt).
Proof.
  revert i. induction suffix as [|p rest IH]; intros i Hbody.
  - apply fault_free_ret.
  - cbn [length host_for]. apply fault_free_bind.
    + specialize (Hbody 0%nat p eq_refl).
      now replace (i + Z.of_nat 0) with i in Hbody by lia.
    + intros []. apply IH. intros k p' Hk.
      specialize (Hbody (Datatypes.S k) p' Hk).
      now replace (i + Z.of_nat (Datatypes.S k)) with (i + 1 + Z.of_nat k) in Hbody by lia.
Qed.

(** A loop over exactly the plans of the array never reads outside it. *)
Lemma fault_free_plan_loop (plans : list TOptionPlan)
  (action : TOptionPlan -> Z -> Host unit) :
  (forall p i, fault_free (action p i)) ->
  fault_free
    (host_upto (Z.of_nat (length plans))
       (fun i _ => let! p := lift (at_index plans i) in action p i) tt).
Proof.
  intros Haction. unfold host_upto. rewrite Nat2Z.id.
  apply fault_free_per_plan. intros k p Hp w w' f.
  rewrite (hbind_run _ _ w w p); [apply Haction|].
  unfold lift. now rewrite (at_index_of_nat plans k p Hp).
Qed.

Lemma fault_free_index_loop (action : Z -> Host unit) (n : nat) (i : Z) :
  (forall j, fault_free (action j)) ->
  fault_free (host_for n i (fun j _ => action j) tt).
Proof.
  intros Haction. revert i. induction n as [|n IH]; intros i.
  - apply fault_free_ret.
  - cbn [host_for]. apply fault_free_bind; [apply Haction|]. intros []. apply IH.
Qed.

Section Raising.

Variable raises : list call -> call -> bool.
Variable kernel : list call -> TOptionPlan -> Z -> TOptionValue.

Lemma makes_no_invoke (kind : call -> bool) (c : call) :
  kind c = false -> makes_no kind (invoke raises c).
Proof.
  intros Hc w. exists [c]. unfold invoke.
  destruct (raises (trace w) c); cbn; now rewrite Hc.
Qed.

Lemma makes_no_MonteCarloGPU (kind : call -> bool) (plan : TOptionPlan) (stream : Z) :
  kind (Simulate plan stream) = false ->
  makes_no kind (MonteCarloGPU raises kernel plan stream).
Proof.
  intros Hc w. exists [Simulate plan stream]. unfold MonteCarloGPU, invoke.
  destruct (raises (trace w) (Simulate plan stream)); cbn; now rewrite Hc.
Qed.

Lemma raises_no_invoke (raised : call -> bool) (c : call) :
  raised c = false -> raises_no raised (invoke raises c).
Proof.
  intros Hc w w' e. unfold invoke.
  destruct (raises (trace w) c); intros H; [|discriminate].
  now injection H as <- <-.
Qed.

Lemma fault_free_invoke (c : call) : fault_free (invoke raises c).
Proof. intros w w' f. unfold invoke. destruct (raises (trace w) c); discriminate. Qed.

Lemma fault_free_MonteCarloGPU (plan : TOptionPlan) (stream : Z) :
  fault_free (MonteCarloGPU raises kernel plan stream).
Proof.
  intros w w' f. unfold MonteCarloGPU, invoke.
  destruct (raises (trace w) (Simulate plan stream)); discriminate.
Qed.

Lemma fault_free_solverThread (plan : TOptionPlan) :
  fault_free (solverThread raises kernel plan).
Proof.
  unfold solverThread, sdkStartTimer, sdkStopTimer, initMonteCarloGPU, closeMonteCarloGPU.
  repeat (apply fault_free_bind; [|intros _]);
    auto using fault_free_log, fault_free_invoke, fault_free_MonteCarloGPU.
Qed.

Lemma fault_free_multiSolver (plans : list TOptionPlan) :
  fault_free (multiSolver raises kernel plans (Z.of_nat (length plans))).
Proof.
  unfold multiSolver, sdkStopTimer.
  apply fault_free_bind.
  { apply fault_free_plan_loop. intros p i. apply fault_free_invoke. }
  intros _. apply fault_free_bind.
  { apply fault_free_plan_loop. intros p i. apply fault_free_invoke. }
  intros _. apply fault_free_bind.
  { apply (fault_free_index_loop (fun i => invoke raises (QueueWaitAndThrow i))).
    intros j. apply fault_free_invoke. }
  intros _. apply fault_free_bind.
  { apply (fault_free_plan_loop plans
             (fun p i => let! _ := MonteCarloGPU raises kernel p i in
                         invoke raises (SubmitBarrier i))).
    intros p i. apply fault_free_bind; [apply fault_free_MonteCarloGPU|].
    intros _. apply fault_free_invoke. }
  intros _. apply fault_free_bind.
  { apply (fault_free_index_loop (fun i => invoke raises (EventWaitAndThrow i))).
    intros j. apply fault_free_invoke. }
  intros _. apply fault_free_bind; [apply fault_free_log|].
  intros _. apply fault_free_plan_loop. intros p i. apply fault_free_invoke.
Qed.

(** In a thread, teardown comes after the simulation and nothing after the
    simulation raises a simulation's exception. *)
Lemma solverThread_raise_spares (plan : TOptionPlan) :
  raise_spares is_simulate is_close (solverThread raises kernel plan).
Proof.
  unfold solverThread, sdkStartTimer, sdkStopTimer, initMonteCarloGPU, closeMonteCarloGPU.
  apply raise_spares_bind; [now apply makes_no_log|intros _].
  apply raise_spares_bind; [now apply makes_no_invoke|intros _].
  apply raise_spares_bind; [now apply makes_no_invoke|intros _].
  apply raise_spares_bind; [now apply makes_no_MonteCarloGPU|intros _].
  apply raise_spares_none.
  apply raises_no_bind; [now apply raises_no_invoke|intros _].
  apply raises_no_bind; [apply raises_no_log|intros _].
  apply raises_no_bind; [now apply raises_no_invoke|intros _].
  now apply raises_no_invoke.
Qed.

(** In [multiSolver], the teardown loop comes after every simulation. *)
Lemma multiSolver_raise_spares (plans : list TOptionPlan) (nPlans : Z) :
  raise_spares is_simulate is_close (multiSolver raises kernel plans nPlans).
Proof.
  unfold multiSolver, host_upto, sdkStopTimer, initMonteCarloGPU, closeMonteCarloGPU.
  apply raise_spares_bind.
  { apply makes_no_for. intros j _. apply makes_no_bind; [apply makes_no_lift|].
    intros p. now apply makes_no_invoke. }
  intros _. apply raise_spares_bind.
  { apply makes_no_for. intros j _. apply makes_no_bind; [apply makes_no_lift|].
    intros p. now apply makes_no_invoke. }
  intros _. apply raise_spares_bind.
  { apply makes_no_for. intros j _. now apply makes_no_invoke. }
  intros _. apply raise_spares_bind.
  { apply makes_no_for. intros j _. apply makes_no_bind; [apply makes_no_lift|].
    intros p. apply makes_no_bind; [now apply makes_no_MonteCarloGPU|].
    intros _. now apply makes_no_invoke. }
  intros _. apply raise_spares_none.
  apply raises_no_bind.
  { apply raises_no_for. intros j _. now apply raises_no_invoke. }
  intros _. apply raises_no_bind; [apply raises_no_log|intros _].
  apply raises_no_for. intros j _. apply raises_no_bind; [apply raises_no_lift|].
  intros p. now apply raises_no_invoke.
Qed.

Lemma MonteCarloGPU_never_returns (plan : TOptionPlan) (stream : Z) :
  (forall h, raises h (Simulate plan stream) = true) ->
  never_returns (MonteCarloGPU raises kernel plan stream).
Proof. intros Hr w w' a. unfold MonteCarloGPU, invoke. rewrite Hr. discriminate. Qed.

(** A thread whose simulation raises whenever it is called ends with an
    uncaught exception, before any teardown. *)
Lemma solverThread_stuck (plan : TOptionPlan) (w : World) :
  (forall h, raises h (Simulate plan (Plan.device plan)) = true) ->
  exists w' c calls,
    solverThread raises kernel plan w = (w', Uncaught c) /\
    trace w' = trace w ++ calls /\
    List.filter is_close calls = [].
Proof.
  intros Hsim.
  assert (Hstuck : never_returns (solverThread raises kernel plan)).
  { unfold solverThread. do 3 (apply never_returns_bind_r; intros _).
    apply never_returns_bind_l. now apply MonteCarloGPU_never_returns. }
  assert (Hspare : raise_spares (fun _ => true) is_close (solverThread raises kernel plan)).
  { unfold solverThread, sdkStartTimer, initMonteCarloGPU.
    apply raise_spares_bind; [now apply makes_no_log|intros _].
    apply raise_spares_bind; [now apply makes_no_invoke|intros _].
    apply raise_spares_bind; [now apply makes_no_invoke|intros _].
    apply raise_spares_stuck; [now apply makes_no_MonteCarloGPU|].
    now apply MonteCarloGPU_never_returns. }
  destruct (solverThread raises kernel plan w) as [w' [[]|f|c]] eqn:Hrun.
  - exfalso. exact (Hstuck w w' tt Hrun).
  - exfalso. exact (fault_free_solverThread plan w w' f Hrun).
  - destruct (Hspare w w' c Hrun eq_refl) as (calls & Ht & Hf).
    now exists w', c, calls.
Qed.

(** The loop of [multiSolver] that issues the simulations does not return
    when the simulation of one of the plans raises whenever it is called. *)
Lemma issue_loop_never_returns (plans : list TOptionPlan) (k : nat) (p : TOptionPlan) :
  plans !! k = Some p ->
  (forall h, raises h (Simulate p (Z.of_nat k)) = true) ->
  never_returns
    (host_upto (Z.of_nat (length plans))
       (fun i _ =>
          let! p := lift (at_index plans i) in
          let! _ := MonteCarloGPU raises kernel p i in
          invoke raises (SubmitBarrier i)) tt).
Proof.
  intros Hp Hsim. unfold host_upto. rewrite Nat2Z.id.
  apply (never_returns_for _ _ 0 (Z.of_nat k)).
  - apply lookup_lt_Some in Hp. lia.
  - intros [] w w' a.
    rewrite (hbind_run _ _ w w p).
    + apply never_returns_bind_l. now apply MonteCarloGPU_never_returns.
    + unfold lift. now rewrite (at_index_ok plans (Z.of_nat k) p ltac:(lia)
                                  ltac:(now rewrite Nat2Z.id)).
Qed.

(** [multiSolver] on plans of which one has a simulation that raises
    whenever it is called ends with an uncaught exception, before any
    teardown. *)
Lemma multiSolver_stuck (plans : list TOptionPlan) (k : nat) (p : TOptionPlan)
  (w : World) :
  plans !! k = Some p ->
  (forall h, raises h (Simulate p (Z.of_nat k)) = true) ->
  exists w' c calls,
    multiSolver raises kernel plans (Z.of_nat (length plans)) w = (w', Uncaught c) /\
    trace w' = trace w ++ calls /\
    List.filter is_close calls = [].
Proof.
  intros Hp Hsim.
  pose proof (issue_loop_never_returns plans k p Hp Hsim) as Hloop.
  assert (Hstuck : never_returns (multiSolver raises kernel plans (Z.of_nat (length plans)))).
  { unfold multiSolver. do 3 (apply never_returns_bind_r; intros _).
    now apply never_returns_bind_l. }
  assert (Hspare : raise_spares (fun _ => true) is_close
                     (multiSolver raises kernel plans (Z.of_nat (length plans)))).
  { unfold multiSolver, initMonteCarloGPU.
    apply raise_spares_bind.
    { apply makes_no_for. intros j _. apply makes_no_bind; [apply makes_no_lift|].
      intros q. now apply makes_no_invoke. }
    intros _. apply raise_spares_bind.
    { apply makes_no_for. intros j _. apply makes_no_bind; [apply makes_no_lift|].
      intros q. now apply makes_no_invoke. }
    intros _. apply raise_spares_bind.
    { apply makes_no_for. intros j _. now apply makes_no_invoke. }
    intros _. apply raise_spares_stuck; [|exact Hloop].
    apply makes_no_for. intros j _. apply makes_no_bind; [apply makes_no_lift|].
    intros q. apply makes_no_bind; [now apply makes_no_MonteCarloGPU|].
    intros _. now apply makes_no_invoke. }
  destruct (multiSolver raises kernel plans (Z.of_nat (length plans)) w)
    as [w' [[]|f|c]] eqn:Hrun.
  - exfalso. exact (Hstuck w w' tt Hrun).
  - exfalso. exact (fault_free_multiSolver plans w w' f Hrun).
  - destruct (Hspare w w' c Hrun eq_refl) as (calls & Ht & Hf).
    now exists w', c, calls.
Qed.

(** When only simulations raise, the loop that issues them ends at the first
    simulation that does. *)
Lemma issue_loop_first_raise (plans suffix : list TOptionPlan) (i : Z) (k : nat)
  (p : TOptionPlan) (w : World) :
  (forall h e, is_simulate e = false -> raises h e = false) ->
  0 <= i ->
  (forall m q, suffix !! m = Some q -> plans !! (Z.to_nat i + m)%nat = Some q) ->
  suffix !! k = Some p ->
  (forall h, raises h (Simulate p (i + Z.of_nat k)) = true) ->
  exists j q w',
    (j <= k)%nat /\ suffix !! j = Some q /\
    host_for (length suffix) i
      (fun i _ =>
         let! p := lift (at_index plans i) in
         let! _ := MonteCarloGPU raises kernel p i in
         invoke raises (SubmitBarrier i)) tt w =
    (w', Uncaught (Simulate q (i + Z.of_nat j))).
Proof.
  intros Honly. revert i k w.
  induction suffix as [|q0 rest IH]; intros i k w Hi Hin Hp Hsim; [discriminate|].
  cbn [length host_for].
  assert (Hq0 : at_index plans i = Ok q0).
  { apply at_index_ok; [lia|]. specialize (Hin 0%nat q0 eq_refl).
    now rewrite Nat.add_0_r in Hin. }
  destruct (raises (trace w) (Simulate q0 i)) eqn:Hraise.
  - exists 0%nat, q0. eexists. split; [lia|]. split; [reflexivity|].
    replace (i + Z.of_nat 0) with i by lia.
    unfold hbind, lift, MonteCarloGPU, invoke. rewrite Hq0, Hraise. reflexivity.
  - destruct k as [|k].
    { exfalso. cbn in Hp. injection Hp as ->.
      replace (i + Z.of_nat 0) with i in Hsim by lia.
      rewrite Hsim in Hraise. discriminate. }
    cbn in Hp.
    destruct (IH (i + 1) k
                (mkWorld ((trace w ++ [Simulate q0 i]) ++ [SubmitBarrier i])
                   (store_results kernel (trace w) q0 (callValueGPU w))))
      as (j & q & w' & Hj & Hq & Hrun).
    + lia.
    + intros m q Hm. specialize (Hin (Datatypes.S m) q Hm).
      now replace (Z.to_nat (i + 1) + m)%nat with (Z.to_nat i + Datatypes.S m)%nat by lia.
    + exact Hp.
    + intros h. replace (i + 1 + Z.of_nat k) with (i + Z.of_nat (Datatypes.S k)) by lia.
      apply Hsim.
    + exists (Datatypes.S j), q, w'. split; [lia|]. split; [exact Hq|].
      replace (i + Z.of_nat (Datatypes.S j)) with (i + 1 + Z.of_nat j) by lia.
      rewrite <- Hrun.
      unfold hbind at 1. unfold hbind at 1. unfold lift at 1. rewrite Hq0.
      unfold hbind at 1. unfold MonteCarloGPU at 1. unfold invoke at 1 2.
      rewrite Hraise. cbn [trace callValueGPU].
      rewrite (Honly _ (SubmitBarrier i)) by reflexivity. reflexivity.
Qed.

(** When only simulations raise, [multiSolver] ends with the exception of
    the first simulation that does. *)
Lemma multiSolver_first_raise (plans : list TOptionPlan) (k : nat) (p : TOptionPlan)
  (w : World) :
  (forall h e, is_simulate e = false -> raises h e = false) ->
  plans !! k = Some p ->
  (forall h, raises h (Simulate p (Z.of_nat k)) = true) ->
  exists j q w',
    (j <= k)%nat /\ plans !! j = Some q /\
    multiSolver raises kernel plans (Z.of_nat (length plans)) w =
    (w', Uncaught (Simulate q (Z.of_nat j))).
Proof.
  intros Honly Hp Hsim.
  assert (Hq : forall c, is_simulate c = false -> appends (invoke raises c) [c]).
  { intros c Hc. apply appends_invoke. intros h. now apply Honly. }
  unfold multiSolver.
  destruct (appends_plan_loop plans (fun q i => invoke raises (OpenQueue i (Plan.device q)))
              (fun i q => [OpenQueue i (Plan.device q)])
              ltac:(intros m q _; now apply Hq) w) as ([] & v1 & Hrun1 & _).
  rewrite (hbind_run _ _ _ _ _ Hrun1).
  destruct (appends_plan_loop plans (fun q i => initMonteCarloGPU raises q i)
              (fun i q => [Init q i])
              ltac:(intros m q _; now apply Hq)
              (mkWorld (trace w ++ per_plan (fun i q => [OpenQueue i (Plan.device q)]) 0 plans) v1))
    as ([] & v2 & Hrun2 & _).
  rewrite (hbind_run _ _ _ _ _ Hrun2).
  destruct (appends_index_loop plans (fun i => invoke raises (QueueWaitAndThrow i))
              (fun i => [QueueWaitAndThrow i])
              ltac:(intros m _; now apply Hq)
              (mkWorld
                 (trace (mkWorld (trace w ++ per_plan (fun i q => [OpenQueue i (Plan.device q)]) 0 plans) v1)
                  ++ per_plan (fun i q => [Init q i]) 0 plans) v2))
    as ([] & v3 & Hrun3 & _).
  rewrite (hbind_run _ _ _ _ _ Hrun3).
  unfold host_upto. rewrite Nat2Z.id.
  destruct (issue_loop_first_raise plans plans 0 k p
              (mkWorld
                 (trace (mkWorld
                           (trace (mkWorld (trace w ++ per_plan (fun i q => [OpenQueue i (Plan.device q)]) 0 plans) v1)
                            ++ per_plan (fun i q => [Init q i]) 0 plans) v2)
                  ++ per_plan (fun i _ => [QueueWaitAndThrow i]) 0 plans) v3)
              Honly ltac:(lia) ltac:(intros m q Hm; exact Hm) Hp
              ltac:(intros h; replace (0 + Z.of_nat k) with (Z.of_nat k) by lia; apply Hsim))
    as (j & q & w' & Hj & Hpj & Hrun4).
  exists j, q, w'. split; [exact Hj|]. split; [exact Hpj|].
  replace (0 + Z.of_nat j) with (Z.of_nat j) in Hrun4 by lia.
  now rewrite (hbind_uncaught _ _ _ _ _ Hrun4).
Qed.

End Raising.

(** C6, as the code has it.  When no call raises, the threaded driver and
    the streamed driver each invoke init, simulate and teardown for a plan
    in that order, once each.  The source has no exception handler.  Under
    any behaviour of the collaborators, a driver that ends with the
    exception of a simulation has invoked no teardown: not for the plan in
    [solverThread], not for any plan in [multiSolver].  And when the
    simulation of the plan, or in [multiSolver] of any one of the plans,
    raises whenever it is called, the driver does end with an uncaught
    exception and without any teardown; if only simulations raise, the
    exception is that of the plan's simulation in [solverThread], and in
    [multiSolver] that of the first plan whose simulation raises. *)
Theorem driver_sequence
  (raises : list call -> call -> bool)
  (kernel : list call -> TOptionPlan -> Z -> TOptionValue) :
  ((forall h c, raises h c = false) ->
   (forall plan w, exists values,
       solverThread raises kernel plan w =
         (mkWorld (trace w ++ threaded_calls plan) values, Done tt) /\
       List.filter (driver_call_on (Plan.device plan)) (threaded_calls plan) =
         [Init plan (Plan.device plan); Simulate plan (Plan.device plan);
          Close plan (Plan.device plan)]) /\
   (forall plans w, exists values,
       multiSolver raises kernel plans (Z.of_nat (length plans)) w =
         (mkWorld (trace w ++ streamed_calls plans) values, Done tt) /\
       forall i p, plans !! i = Some p ->
         List.filter (driver_call_on (Z.of_nat i)) (streamed_calls plans) =
           [Init p (Z.of_nat i); Simulate p (Z.of_nat i); Close p (Z.of_nat i)])) /\
  (forall plan w w' c,
      solverThread raises kernel plan w = (w', Uncaught c) ->
      is_simulate c = true ->
      exists calls, trace w' = trace w ++ calls /\ List.filter is_close calls = []) /\
  (forall plans nPlans w w' c,
      multiSolver raises kernel plans nPlans w = (w', Uncaught c) ->
      is_simulate c = true ->
      exists calls, trace w' = trace w ++ calls /\ List.filter is_close calls = []) /\
  (forall plan w,
      (forall h, raises h (Simulate plan (Plan.device plan)) = true) ->
      exists w' c calls,
        solverThread raises kernel plan w = (w', Uncaught c) /\
        trace w' = trace w ++ calls /\
        List.filter is_close calls = [] /\
        ((forall h e, is_simulate e = false -> raises h e = false) ->
         c = Simulate plan (Plan.device plan))) /\
  (forall plans k p w,
      plans !! k = Some p ->
      (forall h, raises h (Simulate p (Z.of_nat k)) = true) ->
      exists w' c calls,
        multiSolver raises kernel plans (Z.of_nat (length plans)) w = (w', Uncaught c) /\
        trace w' = trace w ++ calls /\
        List.filter is_close calls = [] /\
        ((forall h e, is_simulate e = false -> raises h e = false) ->
         exists j q, (j <= k)%nat /\ plans !! j = Some q /\
                     c = Simulate q (Z.of_nat j))).
Proof.
  split; [|split; [|split; [|split]]].
  - intros quiet. split.
    + intros plan w.
      destruct (solverThread_quiet raises kernel plan quiet w) as ([] & values & Hrun & _).
      exists values. split; [exact Hrun|].
      unfold threaded_calls. cbn. now rewrite Z.eqb_refl.
    + intros plans w.
      destruct (multiSolver_quiet raises kernel plans quiet w) as ([] & values & Hrun & _).
      exists values. split; [exact Hrun|]. apply streamed_driver_calls.
  - intros plan w w' c Hrun Hc.
    exact (solverThread_raise_spares raises kernel plan w w' c Hrun Hc).
  - intros plans nPlans w w' c Hrun Hc.
    exact (multiSolver_raise_spares raises kernel plans nPlans w w' c Hrun Hc).
  - intros plan w Hsim.
    destruct (solverThread_stuck raises kernel plan w Hsim) as (w' & c & calls & Hrun & Ht & Hf).
    exists w', c, calls. split; [exact Hrun|]. split; [exact Ht|]. split; [exact Hf|].
    intros Honly.
    rewrite (solverThread_simulate_raises raises kernel plan w Honly Hsim) in Hrun.
    now injection Hrun as _ <-.
  - intros plans k p w Hp Hsim.
    destruct (multiSolver_stuck raises kernel plans k p w Hp Hsim)
      as (w' & c & calls & Hrun & Ht & Hf).
    exists w', c, calls. split; [exact Hrun|]. split; [exact Ht|]. split; [exact Hf|].
    intros Honly.
    destruct (multiSolver_first_raise raises kernel plans k p w Honly Hp Hsim)
      as (j & q & w1 & Hj & Hq & Hrun1).
    exists j, q. split; [exact Hj|]. split; [exact Hq|].
    rewrite Hrun1 in Hrun. now injection Hrun as _ <-.
Qed.

Lemma driver_sequence_witness :
  (exists values,
      solverThread never_raises scenario_kernel (Plan.mk 0 4 0 0 262144 4) empty_world =
      (mkWorld (threaded_calls (Plan.mk 0 4 0 0 262144 4)) values, Done tt)) /\
  (List.filter (driver_call_on 1)
     (streamed_calls [Plan.mk 0 4 0 0 262144 4; Plan.mk 1 4 4 4 262144 4]) =
   [Init (Plan.mk 1 4 4 4 262144 4) 1; Simulate (Plan.mk 1 4 4 4 262144 4) 1;
    Close (Plan.mk 1 4 4 4 262144 4) 1]) /\
  (exists calls,
      trace (fst (solverThread simulate_raises scenario_kernel
                    (Plan.mk 0 4 0 0 262144 4) empty_world)) = calls /\
      List.filter is_close calls = []) /\
  (exists calls,
      trace (fst (multiSolver second_simulate_raises scenario_kernel
                    [Plan.mk 0 4 0 0 262144 4; Plan.mk 1 4 4 4 262144 4] 2
                    empty_world)) = calls /\
      List.filter is_close calls = []) /\
  (exists w' calls,
      solverThread simulate_raises scenario_kernel (Plan.mk 0 4 0 0 262144 4) empty_world =
        (w', Uncaught (Simulate (Plan.mk 0 4 0 0 262144 4) 0)) /\
      trace w' = calls /\ List.filter is_close calls = []) /\
  (exists w' calls,
      multiSolver second_simulate_raises scenario_kernel
        [Plan.mk 0 4 0 0 262144 4; Plan.mk 1 4 4 4 262144 4] 2 empty_world =
        (w', Uncaught (Simulate (Plan.mk 1 4 4 4 262144 4) 1)) /\
      trace w' = calls /\ List.filter is_close calls = []).
Proof.
  split; [|split; [|split; [|split; [|split]]]].
  - destruct (proj1 (proj1 (driver_sequence never_raises scenario_kernel)
                       (fun _ _ => eq_refl))
                (Plan.mk 0 4 0 0 262144 4) empty_world) as (values & Hrun & _).
    exists values. exact Hrun.
  - destruct (proj2 (proj1 (driver_sequence never_raises scenario_kernel)
                       (fun _ _ => eq_refl))
                [Plan.mk 0 4 0 0 262144 4; Plan.mk 1 4 4 4 262144 4] empty_world)
      as (values & _ & Hcalls).
    exact (Hcalls 1%nat (Plan.mk 1 4 4 4 262144 4) eq_refl).
  - destruct (proj1 (proj2 (driver_sequence simulate_raises scenario_kernel))
                (Plan.mk 0 4 0 0 262144 4) empty_world _ _ eq_refl eq_refl)
      as (calls & Ht & Hf).
    exists calls. split; [exact Ht|exact Hf].
  - destruct (proj1 (proj2 (proj2 (driver_sequence second_simulate_raises scenario_kernel)))
                [Plan.mk 0 4 0 0 262144 4; Plan.mk 1 4 4 4 262144 4] 2 empty_world
                _ _ eq_refl eq_refl)
      as (calls & Ht & Hf).
    exists calls. split; [exact Ht|exact Hf].
  - destruct (proj1 (proj2 (proj2 (proj2 (driver_sequence simulate_raises scenario_kernel))))
                (Plan.mk 0 4 0 0 262144 4) empty_world (fun _ => eq_refl))
      as (w' & c & calls & Hrun & Ht & Hf & Hc).
    exists w', calls. split; [|split; [exact Ht|exact Hf]].
    rewrite Hrun. f_equal. f_equal. apply Hc.
    intros h e He. unfold simulate_raises. exact He.
  - destruct (proj2 (proj2 (proj2 (proj2 (driver_sequence second_simulate_raises
                                            scenario_kernel))))
                [Plan.mk 0 4 0 0 262144 4; Plan.mk 1 4 4 4 262144 4] 1%nat
                (Plan.mk 1 4 4 4 262144 4) empty_world eq_refl (fun _ => eq_refl))
      as (w' & c & calls & Hrun & Ht & Hf & Hc).
    exists w', calls. split; [|split; [exact Ht|exact Hf]].
    destruct (Hc ltac:(intros h e He; destruct e; try reflexivity; discriminate))
      as (j & q & Hj & Hq & ->).
    destruct j as [|[|j]]; [| |lia]; cbn in Hq; injection Hq as <-.
    + vm_compute in Hrun. discriminate.
    + exact Hrun.
Defined.

(** The claim of C6 as the specification states it fails: with a simulation
    that raises, [solverThread] does not reach the teardown. *)
Lemma teardown_not_guaranteed :
  ~ (forall raises kernel plan w,
        In (Close plan (Plan.device plan))
           (trace (fst (solverThread raises kernel plan w)))).
Proof.
  intros H.
  specialize (H simulate_raises scenario_kernel (Plan.mk 0 4 0 0 262144 4) empty_world).
  cbn in H. intuition discriminate.
Qed.

(** ** The size of the result array *)

Lemma keeps_size_ret {A : Type} (a : A) : keeps_size (hret a).
Proof. intros w. reflexivity. Qed.

Lemma keeps_size_bind {A B : Type} (c : Host A) (k : A -> Host B) :
  keeps_size c -> (forall a, keeps_size (k a)) -> keeps_size (hbind c k).
Proof.
  intros Hc Hk w. unfold hbind. specialize (Hc w).
  destruct (c w) as [w1 [a|f|e]]; cbn [fst] in *; try exact Hc.
  rewrite (Hk a w1). exact Hc.
Qed.

Lemma keeps_size_lift {A : Type} (r : result A) : keeps_size (lift r).
Proof. intros w. unfold lift. now destruct r. Qed.

Lemma keeps_size_log (c : call) : keeps_size (log c).
Proof. intros w. reflexivity. Qed.

Lemma keeps_size_for {S : Type} (body : Z -> S -> Host S) (n : nat) (i : Z) (s : S) :
  (forall j s, keeps_size (body j s)) -> keeps_size (host_for n i body s).
Proof.
  intros Hbody. revert i s. induction n as [|n IH]; intros i s.
  - apply keeps_size_ret.
  - cbn [host_for]. apply keeps_size_bind; [apply Hbody|]. intros s'. apply IH.
Qed.

Section Sizes.

Variable raises : list call -> call -> bool.
Variable kernel : list call -> TOptionPlan -> Z -> TOptionValue.

Lemma keeps_size_invoke (c : call) : keeps_size (invoke raises c).
Proof. intros w. unfold invoke. now destruct (raises (trace w) c). Qed.

Lemma keeps_size_MonteCarloGPU (plan : TOptionPlan) (stream : Z) :
  keeps_size (MonteCarloGPU raises kernel plan stream).
Proof.
  intros w. unfold MonteCarloGPU, invoke.
  destruct (raises (trace w) (Simulate plan stream)); cbn [fst callValueGPU];
    [reflexivity|apply length_store_results].
Qed.

Lemma keeps_size_solverThread (plan : TOptionPlan) :
  keeps_size (solverThread raises kernel plan).
Proof.
  unfold solverThread, sdkStartTimer, sdkStopTimer, initMonteCarloGPU, closeMonteCarloGPU.
  repeat (apply keeps_size_bind; [|intros _]);
    auto using keeps_size_log, keeps_size_invoke, keeps_size_MonteCarloGPU.
Qed.

Lemma keeps_size_threads (plans : list TOptionPlan) (GPU_N : Z) :
  keeps_size
    (host_upto GPU_N
       (fun gpuIndex _ =>
          let! p := lift (at_index plans gpuIndex) in
          solverThread raises kernel p) tt).
Proof.
  apply keeps_size_for. intros j _.
  apply keeps_size_bind; [apply keeps_size_lift|].
  intros p. apply keeps_size_solverThread.
Qed.

End Sizes.

(** ** Loops that leave the world alone *)

Lemma host_for_inv {S : Type} (Inv : Z -> S -> Prop) (body : Z -> S -> Host S)
  (n : nat) (i : Z) (s : S) (w : World) :
  Inv i s ->
  (forall j s, i <= j < i + Z.of_nat n -> Inv j s ->
               exists s', body j s w = (w, Done s') /\ Inv (j + 1) s') ->
  exists s', host_for n i body s w = (w, Done s') /\ Inv (i + Z.of_nat n) s'.
Proof.
  revert i s. induction n as [|n IH]; intros i s Hinv Hbody.
  - exists s. split; [reflexivity|]. now replace (i + Z.of_nat 0) with i by lia.
  - destruct (Hbody i s ltac:(lia) Hinv) as (s1 & Hs1 & Hinv1).
    destruct (IH (i + 1) s1 Hinv1) as (s2 & Hs2 & Hinv2).
    { intros j s' Hj. apply Hbody. lia. }
    exists s2. split.
    + cbn [host_for]. unfold hbind. rewrite Hs1. exact Hs2.
    + now replace (i + Z.of_nat (Datatypes.S n)) with (i + 1 + Z.of_nat n) by lia.
Qed.

(** ** The comparison pass *)

Section Comparison.

Variable BlackScholesCall : TOptionData -> spec_float.

(** The pass ends without fault on arrays of [OPT_N] cells, leaves the world
    as it is, and every accumulator property that holds of zero and that the
    body of the loop keeps holds of what the loop leaves. *)
Lemma compare_pass_inv (Inv : Accumulators -> Prop)
  (OPT_N : Z) (optionData : list TOptionData) (acc0 : Accumulators) (w : World) :
  length optionData = Z.to_nat OPT_N ->
  length (callValueGPU w) = Z.to_nat OPT_N ->
  Inv (mkAcc (double_of_int 0) (double_of_int 0) (double_of_int 0)) ->
  (forall i d v acc,
      optionData !! i = Some d -> callValueGPU w !! i = Some v -> Inv acc ->
      Inv (compare_option (BlackScholesCall d) v acc)) ->
  exists acc,
    compare_pass BlackScholesCall OPT_N optionData acc0 w =
      (w, Done (mkAcc (sumDelta acc) (sumRef acc)
                  (double_div (sumReserve acc) (double_of_int OPT_N)))) /\
    Inv acc.
Proof.
  intros Hd Hv Hzero Hstep. unfold compare_pass, host_upto. cbv zeta.
  destruct (host_for_inv (fun _ acc => Inv acc)
    (fun i acc =>
       let! d := lift (at_index optionData i) in
       let! v := read_callValueGPU i in
       hret (compare_option (BlackScholesCall d) v acc))
    (Z.to_nat OPT_N) 0
    (mkAcc (double_of_int 0) (double_of_int 0) (double_of_int 0)) w Hzero)
    as (acc & Hrun & Hinv).
  { intros j acc Hj Hacc.
    destruct (at_index_lt optionData j ltac:(lia)) as (d & Hd1 & Hd2).
    destruct (at_index_lt (callValueGPU w) j ltac:(lia)) as (v & Hv1 & Hv2).
    exists (compare_option (BlackScholesCall d) v acc). split.
    - unfold hbind, lift, read_callValueGPU, hret. rewrite Hd1. cbn.
      unfold lift. now rewrite Hv1.
    - now apply (Hstep (Z.to_nat j) d v). }
  exists acc. split; [|exact Hinv]. now rewrite (hbind_run _ _ _ _ _ Hrun).
Qed.

Lemma compare_pass_ok (OPT_N : Z) (optionData : list TOptionData)
  (acc0 : Accumulators) (w : World) :
  length optionData = Z.to_nat OPT_N ->
  length (callValueGPU w) = Z.to_nat OPT_N ->
  exists acc, compare_pass BlackScholesCall OPT_N optionData acc0 w = (w, Done acc).
Proof.
  intros Hd Hv.
  destruct (compare_pass_inv (fun _ => True) OPT_N optionData acc0 w Hd Hv I)
    as (acc & Hrun & _); [trivial|].
  eexists. exact Hrun.
Qed.

(** The pass in closed form: on arrays of [OPT_N] cells it reads every pair
    of cells once, in index order, and leaves the world as it is. *)
Lemma compare_pass_closed_form (OPT_N : Z) (optionData : list TOptionData)
  (acc0 : Accumulators) (w : World) :
  length optionData = Z.to_nat OPT_N ->
  length (callValueGPU w) = Z.to_nat OPT_N ->
  compare_pass BlackScholesCall OPT_N optionData acc0 w =
  (w, Done (averaged OPT_N (accumulated BlackScholesCall optionData (callValueGPU w)))).
Proof.
  intros Hd Hv. unfold compare_pass, host_upto. cbv zeta.
  set (step := fun (acc : Accumulators) '(d, v) =>
                 compare_option (BlackScholesCall d) v acc).
  set (zero := mkAcc (double_of_int 0) (double_of_int 0) (double_of_int 0)).
  destruct (host_for_inv
    (fun k acc => acc = fold_left step (take (Z.to_nat k) (zip optionData (callValueGPU w))) zero)
    (fun i acc =>
       let! d := lift (at_index optionData i) in
       let! v := read_callValueGPU i in
       hret (compare_option (BlackScholesCall d) v acc))
    (Z.to_nat OPT_N) 0 zero w eq_refl)
    as (acc & Hrun & Hacc).
  { intros j acc Hj ->.
    destruct (at_index_lt optionData j ltac:(lia)) as (d & Hd1 & Hd2).
    destruct (at_index_lt (callValueGPU w) j ltac:(lia)) as (v & Hv1 & Hv2).
    exists (compare_option (BlackScholesCall d) v
              (fold_left step (take (Z.to_nat j) (zip optionData (callValueGPU w))) zero)).
    split.
    - unfold hbind, lift, read_callValueGPU, hret. rewrite Hd1. cbn.
      unfold lift. now rewrite Hv1.
    - replace (Z.to_nat (j + 1)) with (Datatypes.S (Z.to_nat j)) by lia.
      rewrite (take_S_r _ _ (d, v)).
      + now rewrite fold_left_app.
      + rewrite lookup_zip_with, Hd2, Hv2. reflexivity. }
  rewrite (hbind_run _ _ _ _ _ Hrun). unfold hret, averaged, accumulated.
  fold step zero. rewrite Hacc. rewrite take_ge; [reflexivity|].
  rewrite length_zip_with. lia.
Qed.

Lemma fold_compare_option_terms (l : list (TOptionData * TOptionValue))
  (acc : Accumulators) :
  sumDelta (fold_left (fun acc '(d, v) => compare_option (BlackScholesCall d) v acc) l acc) =
    fold_left double_add
      (map (fun '(d, v) => price_error (BlackScholesCall d) v) l) (sumDelta acc) /\
  sumRef (fold_left (fun acc '(d, v) => compare_option (BlackScholesCall d) v acc) l acc) =
    fold_left double_add
      (map (fun '(d, _) => SFabs (double_of_float (BlackScholesCall d))) l) (sumRef acc) /\
  sumReserve (fold_left (fun acc '(d, v) => compare_option (BlackScholesCall d) v acc) l acc) =
    fold_left double_add
      (map (fun '(d, v) =>
              double_div (double_of_float (Option.Confidence v))
                (price_error (BlackScholesCall d) v))
         (List.filter (fun '(d, v) => fp_gt (price_error (BlackScholesCall d) v) lit_1em6) l))
      (sumReserve acc).
Proof.
  revert acc. induction l as [|[d v] l IH]; intros acc; [repeat split|].
  cbn [fold_left map List.filter].
  destruct (IH (compare_option (BlackScholesCall d) v acc)) as (H1 & H2 & H3).
  rewrite H1, H2, H3. unfold compare_option, price_error.
  cbn [sumDelta sumRef sumReserve].
  split; [reflexivity|]. split; [reflexivity|].
  now destruct (fp_gt (SFabs (double_of_float
                                (float_sub (BlackScholesCall d) (Option.Expected v))))
                  lit_1em6).
Qed.

(** The sums of a pass are the sums of their terms over the options, and a
    reserve term is there exactly for the options whose error is greater
    than 1e-6. *)
Lemma accumulated_terms (optionData : list TOptionData) (values : list TOptionValue) :
  sumDelta (accumulated BlackScholesCall optionData values) =
    fold_left double_add
      (map (fun '(d, v) => price_error (BlackScholesCall d) v) (zip optionData values))
      (double_of_int 0) /\
  sumRef (accumulated BlackScholesCall optionData values) =
    fold_left double_add
      (map (fun '(d, _) => SFabs (double_of_float (BlackScholesCall d)))
         (zip optionData values))
      (double_of_int 0) /\
  sumReserve (accumulated BlackScholesCall optionData values) =
    fold_left double_add (reserve_terms BlackScholesCall optionData values)
      (double_of_int 0).
Proof. apply fold_compare_option_terms. Qed.

(** The accumulators on entry are overwritten before they are read. *)
Lemma compare_pass_resets (OPT_N : Z) (optionData : list TOptionData)
  (acc acc' : Accumulators) :
  compare_pass BlackScholesCall OPT_N optionData acc =
  compare_pass BlackScholesCall OPT_N optionData acc'.
Proof. reflexivity. Qed.

End Comparison.

(** ** main *)

Lemma unit_loop_done (f : Z -> Host unit) (n : nat) (i : Z) (w : World) :
  (forall j w, exists w', f j w = (w', Done tt) /\ callValueGPU w' = callValueGPU w) ->
  exists w', host_for n i (fun j _ => f j) tt w = (w', Done tt) /\
             callValueGPU w' = callValueGPU w /\
             (n = 0%nat -> w' = w).
Proof.
  intros Hf. revert i w. induction n as [|n IH]; intros i w.
  - exists w. repeat split.
  - destruct (Hf i w) as (w1 & Hrun1 & Hv1).
    destruct (IH (i + 1) w1) as (w2 & Hrun2 & Hv2 & _).
    exists w2. split; [|split; [congruence|discriminate]].
    cbn [host_for]. now rewrite (hbind_run _ _ _ _ _ Hrun1).
Qed.

Section Main.

Variable P : Platform.
Variable raises : list call -> call -> bool.
Variable kernel : list call -> TOptionPlan -> Z -> TOptionValue.
Variable BlackScholesCall : TOptionData -> spec_float.
Variable rand : Z -> Z.
Variable RAND_MAX : Z.
Variable garbage_plan : nat -> TOptionPlan.
Variable garbage_data : nat -> TOptionData.
Variable garbage_value : nat -> TOptionValue.

Lemma generate_input_ok (OPT_N : Z) :
  0 <= OPT_N ->
  exists optionData values,
    generate_input rand RAND_MAX garbage_data garbage_value OPT_N = Ok (optionData, values) /\
    length optionData = Z.to_nat OPT_N /\
    length values = Z.to_nat OPT_N.
Proof.
  intros HN. unfold generate_input, for_upto.
  destruct (new_array_ok OPT_N garbage_data HN) as (d0 & Hd0 & Hld).
  destruct (new_array_ok OPT_N garbage_value HN) as (v0 & Hv0 & Hlv).
  rewrite Hd0, Hv0. cbn [rbind].
  destruct (for_loop_inv
    (fun _ (st : list TOptionData * list TOptionValue) =>
       length (fst st) = Z.to_nat OPT_N /\ length (snd st) = Z.to_nat OPT_N)
    (fun i '(optionData, callValueGPU) =>
       let* optionData :=
         update optionData i
           (fun _ => Option.mkData
                       (randFloat rand RAND_MAX (3 * i) (float_of_int 5) (float_of_int 50))
                       (randFloat rand RAND_MAX (3 * i + 1) (float_of_int 10) (float_of_int 25))
                       (randFloat rand RAND_MAX (3 * i + 2) (float_of_int 1) (float_of_int 5))
                       lit_006f lit_010f) in
       let* callValueGPU :=
         update callValueGPU i (fun _ => Option.mkValue lit_minus1f lit_minus1f) in
       Ok (optionData, callValueGPU))
    (Z.to_nat OPT_N) 0 (d0, v0))
    as ([optionData values] & Hrun & Hd & Hv).
  - cbn [fst snd]. now split.
  - intros j [d v] Hj [Hd Hv]. cbn [fst snd] in *.
    destruct (at_index_lt d j ltac:(lia)) as (x & _ & Hx).
    destruct (at_index_lt v j ltac:(lia)) as (y & _ & Hy).
    rewrite (update_ok d j _ x ltac:(lia) Hx). cbn [rbind].
    rewrite (update_ok v j _ y ltac:(lia) Hy). cbn [rbind].
    eexists. split; [reflexivity|]. cbn [fst snd]. now rewrite !length_insert.
  - exists optionData, values. cbn [fst snd] in *. now rewrite Hrun.
Qed.

Lemma generate_input_negative (OPT_N : Z) :
  OPT_N < 0 ->
  generate_input rand RAND_MAX garbage_data garbage_value OPT_N = Fault BadArrayNewLength.
Proof. intros HN. unfold generate_input. now rewrite new_array_negative. Qed.

Lemma problem_size_without_devices (cfg : Config) : 0 <= problem_size P cfg 0.
Proof.
  unfold problem_size, adjustProblemSize, iterate_upto. cbn [Z.to_nat iterate].
  destruct (strongScaling cfg); vm_compute; discriminate.
Qed.

(** What [setup] does when the problem size is not negative: it ends with
    the fault of the plan-building code if that has one, and otherwise hands
    on the plans and arrays of [OPT_N] cells.  Without devices it makes no
    call. *)
Lemma setup_run (cfg : Config) (GPU_N : Z) (w : World) :
  0 <= problem_size P cfg GPU_N ->
  exists t optionData values,
    length optionData = Z.to_nat (problem_size P cfg GPU_N) /\
    length values = Z.to_nat (problem_size P cfg GPU_N) /\
    (GPU_N <= 0 -> t = trace w) /\
    setup P rand RAND_MAX garbage_plan garbage_data garbage_value cfg GPU_N w =
      match build_plans P GPU_N (problem_size P cfg GPU_N) 262144 garbage_plan with
      | Ok optionSolver =>
          (mkWorld t values, Done (problem_size P cfg GPU_N, optionData, optionSolver))
      | Fault f => (mkWorld t values, Crashed f)
      end.
Proof.
  intros HO.
  destruct (unit_loop_done
    (fun i => let! _ := log (CreateTimer i) in log (ResetTimer i))
    (Z.to_nat GPU_N) 0 w) as (w1 & Hrun1 & _ & Hsame).
  { intros j w0. eexists. split; reflexivity. }
  destruct (generate_input_ok (problem_size P cfg GPU_N) HO)
    as (optionData & values & Hgen & Hd & Hv).
  exists (trace w1), optionData, values.
  split; [exact Hd|]. split; [exact Hv|]. split.
  { intros Hle. rewrite Hsame; [reflexivity|lia]. }
  unfold setup, host_upto. cbv zeta.
  rewrite (hbind_run _ _ _ _ _ Hrun1). rewrite Hgen.
  unfold hbind, lift, set_callValueGPU, hret. cbn [trace callValueGPU].
  now destruct (build_plans P GPU_N (problem_size P cfg GPU_N) 262144 garbage_plan).
Qed.

(** A negative problem size is refused by the allocation of the input
    arrays. *)
Lemma setup_refused (cfg : Config) (GPU_N : Z) (w : World) :
  problem_size P cfg GPU_N < 0 ->
  exists w',
    setup P rand RAND_MAX garbage_plan garbage_data garbage_value cfg GPU_N w =
    (w', Crashed BadArrayNewLength).
Proof.
  intros HO.
  destruct (unit_loop_done
    (fun i => let! _ := log (CreateTimer i) in log (ResetTimer i))
    (Z.to_nat GPU_N) 0 w) as (w1 & Hrun1 & _ & _).
  { intros j w0. eexists. split; reflexivity. }
  exists w1. unfold setup, host_upto. cbv zeta.
  rewrite (hbind_run _ _ _ _ _ Hrun1). now rewrite (generate_input_negative _ HO).
Qed.

Lemma main_without_devices (cfg : Config) (acc0 : Accumulators) (w : World) :
  exists values,
    main P raises kernel BlackScholesCall rand RAND_MAX
      garbage_plan garbage_data garbage_value cfg 0 acc0 w =
    (mkWorld (trace w) values, Crashed DivisionByZero).
Proof.
  destruct (setup_run cfg 0 w (problem_size_without_devices cfg))
    as (t & optionData & values & _ & _ & Ht & Hrun).
  exists values. unfold main.
  assert (Hb : build_plans P 0 (problem_size P cfg 0) 262144 garbage_plan =
               Fault DivisionByZero) by reflexivity.
  rewrite Hb in Hrun. rewrite (hbind_crashed _ _ _ _ _ Hrun).
  now rewrite (Ht ltac:(lia)).
Qed.

Lemma shutdown_done (GPU_N : Z) (acc : Accumulators) (w : World) :
  exists w', shutdown GPU_N acc w = (w', Done (summary acc)) /\
             callValueGPU w' = callValueGPU w.
Proof.
  destruct (unit_loop_done sdkStartTimer (Z.to_nat GPU_N) 0 w) as (w1 & Hrun & Hv & _).
  { intros j w0. eexists. split; reflexivity. }
  exists w1. split; [|exact Hv]. unfold shutdown, host_upto.
  now rewrite (hbind_run _ _ _ _ _ Hrun).
Qed.

Lemma threaded_pass_done (GPU_N OPT_N : Z) (plans : list TOptionPlan)
  (optionData : list TOptionData) (acc0 : Accumulators) (w : World) :
  (forall h c, raises h c = false) ->
  GPU_N = Z.of_nat (length plans) ->
  length optionData = Z.to_nat OPT_N ->
  length (callValueGPU w) = Z.to_nat OPT_N ->
  exists w' acc,
    threaded_pass raises kernel BlackScholesCall GPU_N OPT_N
      plans optionData acc0 w = (w', Done acc) /\
    length (callValueGPU w') = Z.to_nat OPT_N.
Proof.
  intros quiet -> Hd Hv. unfold threaded_pass.
  destruct (appends_plan_loop plans (fun p _ => solverThread raises kernel p)
              (fun _ p => threaded_calls p)
              ltac:(intros k p _; now apply solverThread_quiet) w)
    as ([] & values & Hrun & Hlen).
  rewrite (hbind_run _ _ _ _ _ Hrun).
  destruct (compare_pass_ok BlackScholesCall OPT_N optionData acc0
              (mkWorld (trace w ++ per_plan (fun _ p => threaded_calls p) 0 plans) values)
              Hd ltac:(cbn [callValueGPU]; congruence)) as (acc & Hcmp).
  eexists _, acc. split; [exact Hcmp|]. cbn [callValueGPU]. congruence.
Qed.

Lemma streamed_pass_done (GPU_N OPT_N : Z) (plans : list TOptionPlan)
  (optionData : list TOptionData) (acc0 : Accumulators) (w : World) :
  (forall h c, raises h c = false) ->
  GPU_N = Z.of_nat (length plans) ->
  length optionData = Z.to_nat OPT_N ->
  length (callValueGPU w) = Z.to_nat OPT_N ->
  exists w' acc,
    streamed_pass raises kernel BlackScholesCall GPU_N OPT_N
      plans optionData acc0 w = (w', Done acc) /\
    length (callValueGPU w') = Z.to_nat OPT_N.
Proof.
  intros quiet -> Hd Hv. unfold streamed_pass.
  destruct (multiSolver_quiet raises kernel plans quiet w) as ([] & values & Hrun & Hlen).
  rewrite (hbind_run _ _ _ _ _ Hrun).
  destruct (compare_pass_ok BlackScholesCall OPT_N optionData acc0
              (mkWorld (trace w ++ streamed_calls plans) values)
              Hd ltac:(cbn [callValueGPU]; congruence)) as (acc & Hcmp).
  eexists _, acc. split; [exact Hcmp|]. cbn [callValueGPU]. congruence.
Qed.

(** With at least one device, a non-negative problem size and collaborators
    that do not raise, [main] runs to its summary. *)
Lemma main_completes (cfg : Config) (GPU_N : Z) (acc0 : Accumulators) (w : World) :
  (forall h c, raises h c = false) ->
  1 <= GPU_N <= INT_MAX ->
  0 <= problem_size P cfg GPU_N ->
  exists w' acc,
    main P raises kernel BlackScholesCall rand RAND_MAX
      garbage_plan garbage_data garbage_value cfg GPU_N acc0 w =
    (w', Done (summary acc)).
Proof.
  intros quiet HG HO.
  assert (HO' : 0 <= problem_size P cfg GPU_N <= INT_MAX).
  { split; [exact HO|]. unfold problem_size, int_mul. apply to_int_range. }
  destruct (setup_run cfg GPU_N w HO) as (t & optionData & values & Hd & Hv & _ & Hrun).
  rewrite (build_plans_closed_form P GPU_N _ 262144 garbage_plan HG HO') in Hrun.
  set (plans := map (planned P GPU_N (problem_size P cfg GPU_N) 262144) (seqZ 0 GPU_N)) in *.
  assert (Hn : GPU_N = Z.of_nat (length plans)).
  { subst plans. rewrite length_map, length_seqZ. lia. }
  unfold main. rewrite (hbind_run _ _ _ _ _ Hrun). cbv beta iota.
  assert (Hpass1 : exists w1 acc1,
    (if use_threads cfg || bqatest cfg
     then threaded_pass raises kernel BlackScholesCall GPU_N
            (problem_size P cfg GPU_N) plans optionData acc0
     else hret acc0) (mkWorld t values) = (w1, Done acc1) /\
    length (callValueGPU w1) = Z.to_nat (problem_size P cfg GPU_N)).
  { destruct (use_threads cfg || bqatest cfg).
    - now apply threaded_pass_done.
    - exists (mkWorld t values), acc0. split; [reflexivity|exact Hv]. }
  destruct Hpass1 as (w1 & acc1 & Hrun1 & Hv1).
  rewrite (hbind_run _ _ _ _ _ Hrun1).
  assert (Hpass2 : exists w2 acc2,
    (if negb (use_threads cfg) || bqatest cfg
     then streamed_pass raises kernel BlackScholesCall GPU_N
            (problem_size P cfg GPU_N) plans optionData acc1
     else hret acc1) w1 = (w2, Done acc2)).
  { destruct (negb (use_threads cfg) || bqatest cfg).
    - destruct (streamed_pass_done GPU_N (problem_size P cfg GPU_N) plans optionData
                  acc1 w1 quiet Hn Hd Hv1) as (w2 & acc2 & Hrun2 & _).
      now exists w2, acc2.
    - now exists w1, acc1. }
  destruct Hpass2 as (w2 & acc2 & Hrun2).
  rewrite (hbind_run _ _ _ _ _ Hrun2).
  destruct (shutdown_done GPU_N acc2 w2) as (w3 & Hrun3 & _).
  now exists w3, acc2.
Qed.

(** Whatever [main] reports is the summary of the accumulators that the
    last comparison pass left. *)
Lemma main_reports_summary (cfg : Config) (GPU_N : Z) (acc0 : Accumulators)
  (w w' : World) (r : Report) :
  main P raises kernel BlackScholesCall rand RAND_MAX
    garbage_plan garbage_data garbage_value cfg GPU_N acc0 w = (w', Done r) ->
  exists acc, r = summary acc.
Proof.
  unfold main. intros Hrun.
  apply hbind_done in Hrun. destruct Hrun as ([[OPT_N optionData] plans] & w1 & _ & Hrun).
  apply hbind_done in Hrun. destruct Hrun as (acc1 & w2 & _ & Hrun).
  apply hbind_done in Hrun. destruct Hrun as (acc2 & w3 & _ & Hrun).
  destruct (shutdown_done GPU_N acc2 w3) as (w4 & Hrun4 & _).
  exists acc2. congruence.
Qed.

(** In the dual-pass mode the first aggregation is dead: [main] behaves as
    the run that aggregates once, after the streamed pass. *)
Lemma main_qatest (cfg : Config) (GPU_N : Z) (acc0 : Accumulators) (w : World) :
  bqatest cfg = true ->
  main P raises kernel BlackScholesCall rand RAND_MAX
    garbage_plan garbage_data garbage_value cfg GPU_N acc0 w =
  qatest_reference P raises kernel BlackScholesCall rand RAND_MAX
    garbage_plan garbage_data garbage_value cfg GPU_N w.
Proof.
  intros Hq. unfold main, qatest_reference. rewrite Hq, !orb_true_r.
  destruct (Z.lt_ge_cases (problem_size P cfg GPU_N) 0) as [Hneg|HO].
  { destruct (setup_refused cfg GPU_N w Hneg) as (w' & Hrun).
    now rewrite !(hbind_crashed _ _ _ _ _ Hrun). }
  destruct (setup_run cfg GPU_N w HO) as (t & optionData & values & Hd & Hv & _ & Hrun).
  destruct (build_plans P GPU_N (problem_size P cfg GPU_N) 262144 garbage_plan)
    as [plans|f].
  - rewrite !(hbind_run _ _ _ _ _ Hrun). unfold threaded_pass, streamed_pass.
    pose proof (keeps_size_threads raises kernel plans GPU_N (mkWorld t values)) as Hkeep.
    destruct (host_upto GPU_N
                (fun gpuIndex _ =>
                   let! p := lift (at_index plans gpuIndex) in
                   solverThread raises kernel p) tt (mkWorld t values))
      as [w1 [[]|f|e]] eqn:Hthreads; cbn [fst callValueGPU] in Hkeep.
    + destruct (compare_pass_ok BlackScholesCall (problem_size P cfg GPU_N)
                  optionData acc0 w1 Hd ltac:(congruence)) as (acc1 & Hcmp).
      assert (Hfirst :
        (let! _ := host_upto GPU_N
                     (fun gpuIndex _ =>
                        let! p := lift (at_index plans gpuIndex) in
                        solverThread raises kernel p) tt in
         compare_pass BlackScholesCall (problem_size P cfg GPU_N) optionData acc0)
          (mkWorld t values) = (w1, Done acc1)).
      { now rewrite (hbind_run _ _ _ _ _ Hthreads). }
      rewrite (hbind_run _ _ _ _ _ Hfirst).
      rewrite (hbind_run _ _ _ _ _ Hthreads).
      unfold hbind.
      destruct (multiSolver raises kernel plans GPU_N w1) as [w2 [[]|f|e]]; reflexivity.
    + rewrite (hbind_crashed _ _ _ _ _ (hbind_crashed _ _ _ _ _ Hthreads)).
      now rewrite (hbind_crashed _ _ _ _ _ Hthreads).
    + rewrite (hbind_uncaught _ _ _ _ _ (hbind_uncaught _ _ _ _ _ Hthreads)).
      now rewrite (hbind_uncaught _ _ _ _ _ Hthreads).
  - now rewrite !(hbind_crashed _ _ _ _ _ Hrun).
Qed.

End Main.

(** ** Floating point facts *)

Lemma digits2_pos_lower (p : positive) :
  2 ^ (Z.pos (digits2_pos p) - 1) <= Z.pos p.
Proof.
  induction p as [p IH|p IH|]; cbn [digits2_pos].
  - rewrite Pos2Z.inj_succ. replace (Z.succ (Z.pos (digits2_pos p)) - 1)
      with (Z.succ (Z.pos (digits2_pos p) - 1)) by lia.
    rewrite Z.pow_succ_r by lia. lia.
  - rewrite Pos2Z.inj_succ. replace (Z.succ (Z.pos (digits2_pos p)) - 1)
      with (Z.succ (Z.pos (digits2_pos p) - 1)) by lia.
    rewrite Z.pow_succ_r by lia. lia.
  - cbn. lia.
Qed.

Lemma digits2_pos_bound (p : positive) (n : Z) :
  0 <= n -> Z.pos p < 2 ^ n -> Z.pos (digits2_pos p) <= n.
Proof.
  intros Hn Hp. destruct (Z.le_gt_cases (Z.pos (digits2_pos p)) n) as [Hle|Hgt]; [exact Hle|].
  pose proof (digits2_pos_lower p) as Hlow.
  pose proof (Z.pow_le_mono_r 2 n (Z.pos (digits2_pos p) - 1) ltac:(lia) ltac:(lia)).
  lia.
Qed.

Lemma digits2_pos_shift (p k : positive) :
  digits2_pos (Pos.iter xO p k) = (digits2_pos p + k)%positive.
Proof.
  induction k as [|k IH] using Pos.peano_ind.
  - cbn. lia.
  - rewrite Pos.iter_succ. cbn [digits2_pos]. rewrite IH. lia.
Qed.

(** A 53-bit mantissa with an exponent in range is already a [double]. *)
Lemma binary_round_aux_exact (mz : positive) (ez : Z) :
  Z.pos (digits2_pos mz) = 53 -> -1074 <= ez <= 971 ->
  binary_round_aux 53 1024 false (Z.pos mz) ez loc_Exact = S754_finite false mz ez.
Proof.
  intros Hd He.
  assert (Hshr : shr_fexp 53 1024 (Z.pos mz) ez loc_Exact =
                 (Build_shr_record (Z.pos mz) false false, ez)).
  { unfold shr_fexp, fexp, emin, Zdigits2. rewrite Hd.
    replace (Z.max (53 + ez - 53) (3 - 1024 - 53) - ez) with 0 by lia.
    reflexivity. }
  unfold binary_round_aux. rewrite Hshr.
  cbn [shr_m loc_of_shr_record round_nearest_even]. rewrite Hshr. cbn [shr_m].
  destruct (Z.leb_spec ez (1024 - 53)); [reflexivity|lia].
Qed.

(** A positive integer below [2^53] converts to a positive finite
    [double]. *)
Lemma double_of_int_pos (n : Z) :
  0 < n < 2 ^ 53 -> exists m e, double_of_int n = S754_finite false m e.
Proof.
  intros Hn. destruct n as [|p|p]; try lia.
  pose proof (digits2_pos_bound p 53 ltac:(lia) ltac:(lia)) as Hd.
  unfold double_of_int, binary_normalize, binary_round.
  unfold fexp, emin.
  replace (Z.max (Z.pos (digits2_pos p) + 0 - 53) (3 - 1024 - 53))
    with (Z.pos (digits2_pos p) - 53) by lia.
  unfold shl_align.
  destruct (Z.pos (digits2_pos p) - 53 - 0) as [|k|k] eqn:Hk; try lia.
  - eexists _, _. apply binary_round_aux_exact; lia.
  - eexists _, _. apply binary_round_aux_exact; [|lia].
    rewrite digits2_pos_shift. lia.
Qed.

Lemma float_sub_self (x : spec_float) :
  is_number x = true -> float_sub x x = S754_zero false.
Proof.
  destruct x as [s|s| |s m e]; try discriminate; intros _.
  - now destruct s.
  - unfold float_sub, SFsub. now rewrite Z.sub_diag.
Qed.

(** An option whose expected value is its reference price adds nothing to
    the error and nothing to the reserve. *)
Lemma compare_option_exact (bs : spec_float) (v : TOptionValue) (acc : Accumulators) :
  is_number bs = true ->
  Option.Expected v = bs ->
  sumDelta acc = S754_zero false ->
  sumReserve acc = S754_zero false ->
  sumDelta (compare_option bs v acc) = S754_zero false /\
  sumReserve (compare_option bs v acc) = S754_zero false.
Proof.
  intros Hnum Hexp Hdelta Hres. unfold compare_option.
  rewrite Hexp, (float_sub_self bs Hnum), Hdelta, Hres. split; reflexivity.
Qed.

Lemma zero_reserve_fails (y : spec_float) :
  fp_gt (double_div (S754_zero false) y) (double_of_float lit_1f) = false.
Proof. now destruct y as [s|s| |s m e]. Qed.

(** The literals denote the values they should. *)
Example literal_values :
  lit_1em6 = S754_finite false 4722366482869645 (-72) /\
  double_of_float lit_1f = S754_finite false 4503599627370496 (-52) /\
  lit_minus1f = S754_finite true 8388608 (-23) /\
  lit_006f = S754_finite false 16106127 (-28) /\
  lit_010f = S754_finite false 13421773 (-27) /\
  double_of_int 0 = S754_zero false.
Proof. repeat split. Qed.

(** C2.  Without devices the plan-building loops evaluate [OPT_N % GPU_N]
    with a zero divisor: the first loop does not run, and the bound of the
    second is a division by zero.  [main] makes no call before it, and no
    "no devices" condition is raised anywhere. *)
Theorem no_devices_divides_by_zero :
  (forall OPT_N, int_rem OPT_N 0 = Fault DivisionByZero) /\
  (forall P OPT_N PATH_N garbage,
      build_plans P 0 OPT_N PATH_N garbage = Fault DivisionByZero) /\
  (forall P raises kernel BlackScholesCall rand RAND_MAX
          garbage_plan garbage_data garbage_value cfg acc0 w,
      exists values,
        main P raises kernel BlackScholesCall rand RAND_MAX
          garbage_plan garbage_data garbage_value cfg 0 acc0 w =
        (mkWorld (trace w) values, Crashed DivisionByZero)).
Proof.
  split; [reflexivity|]. split; [reflexivity|].
  intros. apply main_without_devices.
Qed.

(** C3.  The summary takes its exit status from the average reserve alone:
    [EXIT_SUCCESS] with "Test passed" when the reserve is greater than 1.0,
    [EXIT_FAILURE] with "Test failed!" otherwise (a NaN included).  The
    shutdown that computes it always returns; whenever [main] reaches its
    end, its exit status is the one the reported average reserve decides;
    and [main] does reach its end when there is a device and no collaborator
    raises. *)
Theorem exit_status_by_average_reserve :
  (forall acc,
      average_reserve (summary acc) = sumReserve acc /\
      (fp_gt (sumReserve acc) (double_of_float lit_1f) = true ->
       exit_status (summary acc) = EXIT_SUCCESS /\
       verdict (summary acc) = ("Test passed" ++ newline)%string) /\
      (fp_gt (sumReserve acc) (double_of_float lit_1f) = false ->
       exit_status (summary acc) = EXIT_FAILURE /\
       verdict (summary acc) = ("Test failed!" ++ newline)%string)) /\
  (forall GPU_N acc w, exists w', shutdown GPU_N acc w = (w', Done (summary acc))) /\
  (forall P raises kernel BlackScholesCall rand RAND_MAX
          garbage_plan garbage_data garbage_value cfg GPU_N acc0 w w' r,
      main P raises kernel BlackScholesCall rand RAND_MAX
        garbage_plan garbage_data garbage_value cfg GPU_N acc0 w = (w', Done r) ->
      (exit_status r = EXIT_SUCCESS <->
       fp_gt (average_reserve r) (double_of_float lit_1f) = true) /\
      (exit_status r = EXIT_FAILURE <->
       fp_gt (average_reserve r) (double_of_float lit_1f) = false)) /\
  (forall P raises kernel BlackScholesCall rand RAND_MAX
          garbage_plan garbage_data garbage_value cfg GPU_N acc0 w,
      (forall h c, raises h c = false) ->
      1 <= GPU_N <= INT_MAX ->
      0 <= problem_size P cfg GPU_N ->
      exists w' r,
        main P raises kernel BlackScholesCall rand RAND_MAX
          garbage_plan garbage_data garbage_value cfg GPU_N acc0 w = (w', Done r)).
Proof.
  split; [|split; [|split]].
  - intros acc. unfold summary. cbn [average_reserve exit_status verdict].
    split; [reflexivity|]. split; intros ->; split; reflexivity.
  - intros GPU_N acc w. destruct (shutdown_done GPU_N acc w) as (w' & Hrun & _).
    now exists w'.
  - intros P raises kernel BlackScholesCall rand RAND_MAX
      garbage_plan garbage_data garbage_value cfg GPU_N acc0 w w' r Hrun.
    destruct (main_reports_summary _ _ _ _ _ _ _ _ _ _ _ _ _ _ _ Hrun) as (acc & ->).
    unfold summary. cbn [average_reserve exit_status].
    destruct (fp_gt (sumReserve acc) (double_of_float lit_1f));
      unfold EXIT_SUCCESS, EXIT_FAILURE; split; split; congruence.
  - intros P raises kernel BlackScholesCall rand RAND_MAX
      garbage_plan garbage_data garbage_value cfg GPU_N acc0 w quiet HG HO.
    destruct (main_completes P raises kernel BlackScholesCall rand RAND_MAX
                garbage_plan garbage_data garbage_value cfg GPU_N acc0 w quiet HG HO)
      as (w' & acc & Hrun).
    now exists w', (summary acc).
Qed.

Lemma exit_status_by_average_reserve_witness :
  (exit_status (summary (mkAcc (double_of_int 0) (double_of_int 1) (double_of_int 2))) =
     EXIT_SUCCESS /\
   verdict (summary (mkAcc (double_of_int 0) (double_of_int 1) (double_of_int 2))) =
     ("Test passed" ++ newline)%string) /\
  (exit_status (summary (mkAcc (double_of_int 0) (double_of_int 1) (double_of_int 1))) =
     EXIT_FAILURE /\
   verdict (summary (mkAcc (double_of_int 0) (double_of_int 1) (double_of_int 1))) =
     ("Test failed!" ++ newline)%string) /\
  (exit_status (mkReport (S754_zero false) (S754_zero false)
                  ("Test failed!" ++ newline)%string 1) = EXIT_FAILURE <->
   fp_gt (average_reserve (mkReport (S754_zero false) (S754_zero false)
                             ("Test failed!" ++ newline)%string 1))
     (double_of_float lit_1f) = false) /\
  (exists w' r, scenario_main (mkConfig false false false) = (w', Done r)).
Proof.
  split; [|split; [|split]].
  - apply (proj1 (proj2 (proj1 exit_status_by_average_reserve
             (mkAcc (double_of_int 0) (double_of_int 1) (double_of_int 2))))).
    reflexivity.
  - apply (proj2 (proj2 (proj1 exit_status_by_average_reserve
             (mkAcc (double_of_int 0) (double_of_int 1) (double_of_int 1))))).
    reflexivity.
  - apply (proj1 (proj2 (proj2 exit_status_by_average_reserve))
             (uniform_platform 8) never_raises scenario_kernel scenario_reference
             scenario_rand 2147483647 zero_plan (fun _ => zero_data)
             (fun _ => unset_value) (mkConfig false false false) 2 nan_accumulators
             empty_world (fst (scenario_main (mkConfig false false false)))).
    vm_compute. reflexivity.
  - apply (proj2 (proj2 (proj2 exit_status_by_average_reserve))).
    + reflexivity.
    + unfold INT_MAX. lia.
    + vm_compute. discriminate.
Defined.

(** C4.  In the comparison loop the error and the reference are always
    accumulated, and the reserve term [Confidence / delta] exactly when
    [delta > 1e-6].  The pass applies this body to every pair
    [callValueBS[i]], [callValueGPU[i]], once each and in index order,
    starting from zero, and then divides the reserve sum by [OPT_N]; so the
    reserve sum is the sum of [Confidence / delta] over exactly the options
    whose [delta] is greater than 1e-6.  Hence a pass over options whose
    expected values all equal their reference prices leaves [sumDelta] and
    [sumReserve] at zero, the average reserve is zero, and the run is judged
    failed.  The scenario with 2 devices and 8 options, expected values and
    references 4.0 and 6.0 and confidence 0.5, ends this way under every
    strategy. *)
Theorem reserve_guard_and_exact_match :
  (forall bs v acc,
      let delta := SFabs (double_of_float (float_sub bs (Option.Expected v))) in
      sumDelta (compare_option bs v acc) = double_add (sumDelta acc) delta /\
      sumRef (compare_option bs v acc) =
        double_add (sumRef acc) (SFabs (double_of_float bs)) /\
      (fp_gt delta lit_1em6 = true ->
       sumReserve (compare_option bs v acc) =
         double_add (sumReserve acc)
           (double_div (double_of_float (Option.Confidence v)) delta)) /\
      (fp_gt delta lit_1em6 = false ->
       sumReserve (compare_option bs v acc) = sumReserve acc)) /\
  (forall BlackScholesCall OPT_N optionData acc0 w,
      length optionData = Z.to_nat OPT_N ->
      length (callValueGPU w) = Z.to_nat OPT_N ->
      compare_pass BlackScholesCall OPT_N optionData acc0 w =
        (w, Done (averaged OPT_N
                    (accumulated BlackScholesCall optionData (callValueGPU w)))) /\
      accumulated BlackScholesCall optionData (callValueGPU w) =
        fold_left (fun acc '(d, v) => compare_option (BlackScholesCall d) v acc)
          (zip optionData (callValueGPU w))
          (mkAcc (double_of_int 0) (double_of_int 0) (double_of_int 0))) /\
  (forall BlackScholesCall optionData values,
      sumDelta (accumulated BlackScholesCall optionData values) =
        fold_left double_add
          (map (fun '(d, v) => price_error (BlackScholesCall d) v)
             (zip optionData values))
          (double_of_int 0) /\
      sumReserve (accumulated BlackScholesCall optionData values) =
        fold_left double_add (reserve_terms BlackScholesCall optionData values)
          (double_of_int 0) /\
      reserve_terms BlackScholesCall optionData values =
        map (fun '(d, v) =>
               double_div (double_of_float (Option.Confidence v))
                 (price_error (BlackScholesCall d) v))
          (List.filter
             (fun '(d, v) => fp_gt (price_error (BlackScholesCall d) v) lit_1em6)
             (zip optionData values))) /\
  (forall BlackScholesCall OPT_N optionData acc0 w,
      0 < OPT_N <= INT_MAX ->
      length optionData = Z.to_nat OPT_N ->
      length (callValueGPU w) = Z.to_nat OPT_N ->
      (forall i d v,
          optionData !! i = Some d -> callValueGPU w !! i = Some v ->
          is_number (BlackScholesCall d) = true /\
          Option.Expected v = BlackScholesCall d) ->
      exists acc,
        compare_pass BlackScholesCall OPT_N optionData acc0 w = (w, Done acc) /\
        sumDelta acc = S754_zero false /\
        sumReserve acc = S754_zero false /\
        average_reserve (summary acc) = S754_zero false /\
        exit_status (summary acc) = EXIT_FAILURE /\
        verdict (summary acc) = ("Test failed!" ++ newline)%string) /\
  (forall threads qatest,
      map Option.Expected
        (callValueGPU (fst (scenario_main (mkConfig threads qatest false)))) =
        [float_of_int 4; float_of_int 4; float_of_int 4; float_of_int 4;
         float_of_int 6; float_of_int 6; float_of_int 6; float_of_int 6] /\
      snd (scenario_main (mkConfig threads qatest false)) =
        Done (mkReport (S754_zero false) (S754_zero false)
                ("Test failed!" ++ newline)%string EXIT_FAILURE)).
Proof.
  split; [|split; [|split; [|split]]].
  - intros bs v acc delta. unfold compare_option. fold delta.
    cbn [sumDelta sumRef sumReserve].
    split; [reflexivity|]. split; [reflexivity|].
    split; intros ->; reflexivity.
  - intros BlackScholesCall OPT_N optionData acc0 w Hd Hv.
    split; [now apply compare_pass_closed_form|reflexivity].
  - intros BlackScholesCall optionData values.
    destruct (accumulated_terms BlackScholesCall optionData values) as (H1 & _ & H3).
    split; [exact H1|]. split; [exact H3|reflexivity].
  - intros BlackScholesCall OPT_N optionData acc0 w HN Hd Hv Hexact.
    destruct (compare_pass_inv BlackScholesCall
      (fun acc => sumDelta acc = S754_zero false /\ sumReserve acc = S754_zero false)
      OPT_N optionData acc0 w Hd Hv) as (acc & Hrun & Hdelta & Hres).
    + split; reflexivity.
    + intros i d v acc Hdi Hvi [Hdelta Hres].
      destruct (Hexact i d v Hdi Hvi) as [Hnum Hexp].
      now apply compare_option_exact.
    + destruct (double_of_int_pos OPT_N) as (m & e & Hn).
      { unfold INT_MAX in HN. lia. }
      eexists. split; [exact Hrun|].
      unfold summary. cbn [sumDelta sumReserve average_reserve exit_status verdict].
      rewrite Hdelta, Hres, Hn. repeat split.
  - intros threads qatest. destruct threads, qatest; vm_compute; split; reflexivity.
Qed.

Lemma reserve_guard_and_exact_match_witness :
  (sumReserve
     (compare_option (float_of_int 4)
        (Option.mkValue (float_of_int 6) (float_of_int 1))
        (mkAcc (double_of_int 0) (double_of_int 0) (double_of_int 0))) =
   double_add (double_of_int 0)
     (double_div (double_of_float (float_of_int 1))
        (SFabs (double_of_float (float_sub (float_of_int 4) (float_of_int 6)))))) /\
  (sumReserve
     (compare_option (float_of_int 4)
        (Option.mkValue (float_of_int 4) (float_of_int 1))
        (mkAcc (double_of_int 0) (double_of_int 0) (double_of_int 0))) =
   double_of_int 0) /\
  (compare_pass (fun _ => float_of_int 4) 2 [zero_data; zero_data] nan_accumulators
     (mkWorld []
        [Option.mkValue (float_of_int 6) (float_of_int 1);
         Option.mkValue (float_of_int 4) (float_of_int 1)]) =
   (mkWorld []
      [Option.mkValue (float_of_int 6) (float_of_int 1);
       Option.mkValue (float_of_int 4) (float_of_int 1)],
    Done (mkAcc (double_of_int 2) (double_of_int 8)
            (double_div (double_of_int 1) (double_of_int 4))))) /\
  (exists acc,
      compare_pass (fun _ => float_of_int 4) 2 [zero_data; zero_data] nan_accumulators
        (mkWorld []
           [Option.mkValue (float_of_int 4) (float_of_int 1);
            Option.mkValue (float_of_int 4) (float_of_int 1)]) =
      (mkWorld []
         [Option.mkValue (float_of_int 4) (float_of_int 1);
          Option.mkValue (float_of_int 4) (float_of_int 1)], Done acc) /\
      sumDelta acc = S754_zero false /\
      sumReserve acc = S754_zero false /\
      average_reserve (summary acc) = S754_zero false /\
      exit_status (summary acc) = EXIT_FAILURE /\
      verdict (summary acc) = ("Test failed!" ++ newline)%string).
Proof.
  split; [|split; [|split]].
  - apply (proj1 (proj2 (proj2 (proj1 reserve_guard_and_exact_match
             (float_of_int 4) (Option.mkValue (float_of_int 6) (float_of_int 1))
             (mkAcc (double_of_int 0) (double_of_int 0) (double_of_int 0)))))).
    reflexivity.
  - apply (proj2 (proj2 (proj2 (proj1 reserve_guard_and_exact_match
             (float_of_int 4) (Option.mkValue (float_of_int 4) (float_of_int 1))
             (mkAcc (double_of_int 0) (double_of_int 0) (double_of_int 0)))))).
    reflexivity.
  - rewrite (proj1 (proj1 (proj2 reserve_guard_and_exact_match)
                      (fun _ => float_of_int 4) 2
                      [zero_data; zero_data] nan_accumulators
                      (mkWorld []
                         [Option.mkValue (float_of_int 6) (float_of_int 1);
                          Option.mkValue (float_of_int 4) (float_of_int 1)])
                      eq_refl eq_refl)).
    reflexivity.
  - apply (proj1 (proj2 (proj2 (proj2 reserve_guard_and_exact_match)))
             (fun _ => float_of_int 4) 2).
    + unfold INT_MAX. lia.
    + reflexivity.
    + reflexivity.
    + intros i d v Hd Hv.
      destruct i as [|[|i]]; cbn in Hv; try discriminate;
        injection Hv as <-; split; reflexivity.
Defined.

(** C10.  In the dual-pass mode [main] behaves, on every world, as the run
    that lets both strategies work and aggregates once, from zero, after the
    streamed pass: the accumulators that the first aggregation left are
    overwritten before they are read, so neither they nor the values the
    accumulators held at the start reach the report or the exit status. *)
Theorem qatest_reports_streamed_pass
  (P : Platform) (raises : list call -> call -> bool)
  (kernel : list call -> TOptionPlan -> Z -> TOptionValue)
  (BlackScholesCall : TOptionData -> spec_float) (rand : Z -> Z) (RAND_MAX : Z)
  (garbage_plan : nat -> TOptionPlan) (garbage_data : nat -> TOptionData)
  (garbage_value : nat -> TOptionValue) (cfg : Config) (GPU_N : Z) :
  bqatest cfg = true ->
  (forall acc0 w,
      main P raises kernel BlackScholesCall rand RAND_MAX
        garbage_plan garbage_data garbage_value cfg GPU_N acc0 w =
      qatest_reference P raises kernel BlackScholesCall rand RAND_MAX
        garbage_plan garbage_data garbage_value cfg GPU_N w) /\
  (forall OPT_N optionSolver optionData acc acc' w,
      streamed_pass raises kernel BlackScholesCall GPU_N OPT_N optionSolver
        optionData acc w =
      streamed_pass raises kernel BlackScholesCall GPU_N OPT_N optionSolver
        optionData acc' w).
Proof.
  intros Hq. split.
  - intros acc0 w. now apply main_qatest.
  - reflexivity.
Qed.

Lemma qatest_reports_streamed_pass_witness :
  scenario_main (mkConfig true true false) =
  qatest_reference (uniform_platform 8) never_raises scenario_kernel scenario_reference
    scenario_rand 2147483647 zero_plan (fun _ => zero_data) (fun _ => unset_value)
    (mkConfig true true false) 2 empty_world.
Proof.
  exact (proj1 (qatest_reports_streamed_pass (uniform_platform 8) never_raises
                  scenario_kernel scenario_reference scenario_rand 2147483647
                  zero_plan (fun _ => zero_data) (fun _ => unset_value)
                  (mkConfig true true false) 2 eq_refl)
           nan_accumulators empty_world).
Defined.

(* ================================================================== *)
(** * Part III: further properties of the code                          *)
(* ================================================================== *)

(** ** The capability helpers *)

(** X1.  [adjustProblemSize] never returns more than the default.  Without
    devices it returns the default; with at least one device the number of
    devices no longer matters: the default is kept when the selected device
    has more than 32 compute units, and is clamped to half the compute-unit
    count otherwise. *)
Theorem adjustProblemSize_behaviour (P : Platform) (GPU_N default_nOptions : Z) :
  adjustProblemSize P GPU_N default_nOptions <= default_nOptions /\
  (GPU_N <= 0 -> adjustProblemSize P GPU_N default_nOptions = default_nOptions) /\
  (1 <= GPU_N ->
   adjustProblemSize P GPU_N default_nOptions = adjustProblemSize P 1 default_nOptions) /\
  (1 <= GPU_N -> 32 < to_int (selected_compute_units P) ->
   adjustProblemSize P GPU_N default_nOptions = default_nOptions) /\
  (1 <= GPU_N -> to_int (selected_compute_units P) <= 32 ->
   adjustProblemSize P GPU_N default_nOptions =
   Z.min default_nOptions (Z.quot (to_int (selected_compute_units P)) 2)).
Proof.
  split; [apply adjustProblemSize_le|].
  rewrite !adjustProblemSize_closed.
  change (1 <=? 0) with false. cbv iota.
  destruct (Z.leb_spec GPU_N 0), (Z.leb_spec (to_int (selected_compute_units P)) 32);
    repeat split; intros; try reflexivity; lia.
Qed.

Lemma adjustProblemSize_behaviour_witness :
  adjustProblemSize (uniform_platform 8) 0 8192 = 8192 /\
  adjustProblemSize (uniform_platform 8) 3 8192 = adjustProblemSize (uniform_platform 8) 1 8192 /\
  adjustProblemSize (uniform_platform 64) 3 8192 = 8192 /\
  adjustProblemSize (uniform_platform 8) 3 8192 = Z.min 8192 (Z.quot 8 2).
Proof.
  pose proof (adjustProblemSize_behaviour (uniform_platform 8) 0 8192) as (_ & H0 & _).
  pose proof (adjustProblemSize_behaviour (uniform_platform 8) 3 8192) as (_ & _ & H1 & _ & H3).
  pose proof (adjustProblemSize_behaviour (uniform_platform 64) 3 8192) as (_ & _ & _ & H2 & _).
  split; [apply H0; lia|]. split; [apply H1; lia|].
  split; [apply H2; [lia|vm_compute; reflexivity]|].
  apply H3; [lia|vm_compute; discriminate].
Defined.

(** X2.  [adjustGridSize] returns the smaller of the default and the
    ceiling, so it never exceeds either, keeps a default that is within the
    ceiling, and applying it twice changes nothing.  The ceiling is 40 times
    the compute-unit count of the selected device as long as that product is
    below [2^31]; from there to [2^32] the conversion to [int] makes the
    ceiling negative. *)
Theorem adjustGridSize_ceiling (P : Platform) (GPUIndex GPUIndex' defaultGridSize : Z) :
  adjustGridSize P GPUIndex defaultGridSize = Z.min defaultGridSize (grid_ceiling P) /\
  adjustGridSize P GPUIndex defaultGridSize <= defaultGridSize /\
  adjustGridSize P GPUIndex defaultGridSize <= grid_ceiling P /\
  (defaultGridSize <= grid_ceiling P ->
   adjustGridSize P GPUIndex defaultGridSize = defaultGridSize) /\
  adjustGridSize P GPUIndex' (adjustGridSize P GPUIndex defaultGridSize) =
    adjustGridSize P GPUIndex defaultGridSize /\
  (0 <= max_compute_units P (gpu_selector P) ->
   max_compute_units P (gpu_selector P) * 40 < 2 ^ 31 ->
   grid_ceiling P = max_compute_units P (gpu_selector P) * 40) /\
  (2 ^ 31 <= max_compute_units P (gpu_selector P) * 40 < 2 ^ 32 ->
   grid_ceiling P = max_compute_units P (gpu_selector P) * 40 - 2 ^ 32).
Proof.
  rewrite !adjustGridSize_min. fold (grid_ceiling P).
  split; [reflexivity|]. split; [lia|]. split; [lia|]. split; [lia|]. split; [lia|].
  unfold grid_ceiling, uint_mul, selected_compute_units.
  split.
  - intros H0 H1. rewrite (to_uint_small (max_compute_units P (gpu_selector P))) by lia.
    rewrite to_uint_small by lia. apply to_int_small. unfold INT_MIN, INT_MAX. lia.
  - intros H. rewrite (to_uint_small (max_compute_units P (gpu_selector P))) by lia.
    rewrite to_uint_small by lia. unfold to_int.
    replace (max_compute_units P (gpu_selector P) * 40 + 2 ^ 31)
      with (max_compute_units P (gpu_selector P) * 40 - 2 ^ 31 + 1 * 2 ^ 32) by lia.
    rewrite Z.mod_add by lia. rewrite Z.mod_small by lia. lia.
Qed.

Lemma adjustGridSize_ceiling_witness :
  adjustGridSize (uniform_platform 8) 0 100 = 100 /\
  grid_ceiling (uniform_platform 8) = 8 * 40 /\
  grid_ceiling (uniform_platform 60000000) = 60000000 * 40 - 2 ^ 32.
Proof.
  pose proof (adjustGridSize_ceiling (uniform_platform 8) 0 0 100)
    as (_ & _ & _ & H1 & _ & H2 & _).
  pose proof (adjustGridSize_ceiling (uniform_platform 60000000) 0 0 100)
    as (_ & _ & _ & _ & _ & _ & H3).
  split; [apply H1; vm_compute; discriminate|].
  split; [apply H2; cbn; lia|].
  apply H3; cbn; lia.
Defined.

(** ** Plan building *)

Lemma lookup_planned (P : Platform) (GPU_N OPT_N PATH_N : Z) (i : nat) (p : TOptionPlan) :
  map (planned P GPU_N OPT_N PATH_N) (seqZ 0 GPU_N) !! i = Some p ->
  p = planned P GPU_N OPT_N PATH_N (Z.of_nat i) /\ Z.of_nat i < GPU_N.
Proof.
  intros Hp. rewrite list_lookup_fmap in Hp.
  destruct (seqZ 0 GPU_N !! i) as [j|] eqn:Hj; [|discriminate].
  apply lookup_seqZ in Hj. destruct Hj as [-> Hlt].
  injection Hp as <-. split; [f_equal; lia|exact Hlt].
Qed.

(** X3.  The plans are balanced and fully initialised: plan [i] is for
    device [i] with the path count of the run, both its views start at the
    same offset, its option count is not negative, its grid size is at most
    its option count, and of two plans the earlier one has as many options
    as the later one or one more. *)
Theorem plans_balanced
  (P : Platform) (GPU_N OPT_N PATH_N : Z) (garbage : nat -> TOptionPlan) :
  1 <= GPU_N <= INT_MAX ->
  0 <= OPT_N <= INT_MAX ->
  exists plans,
    build_plans P GPU_N OPT_N PATH_N garbage = Ok plans /\
    (forall i p, plans !! i = Some p ->
       Plan.device p = Z.of_nat i /\
       Plan.pathN p = PATH_N /\
       Plan.optionData p = Plan.callValue p /\
       0 <= Plan.optionCount p /\
       Plan.gridSize p = Z.min (Plan.optionCount p) (grid_ceiling P)) /\
    (forall i j p p', plans !! i = Some p -> plans !! j = Some p' -> (i <= j)%nat ->
       Plan.optionCount p' <= Plan.optionCount p <= Plan.optionCount p' + 1).
Proof.
  intros HG HO. eexists. split; [now apply build_plans_closed_form|].
  destruct (quot_rem_facts GPU_N OPT_N HG HO) as (_ & Hr & Hq).
  split.
  - intros i p Hp. apply lookup_planned in Hp. destruct Hp as [-> Hlt].
    cbn [planned Plan.device Plan.pathN Plan.optionData Plan.callValue
         Plan.optionCount Plan.gridSize].
    repeat split; [apply (share_bounds GPU_N OPT_N HG HO)|apply adjustGridSize_min].
  - intros i j p p' Hp Hp' Hij.
    apply lookup_planned in Hp. apply lookup_planned in Hp'.
    destruct Hp as [-> _], Hp' as [-> _].
    cbn [planned Plan.optionCount]. unfold share.
    destruct (Z.ltb_spec (Z.of_nat i) (Z.rem OPT_N GPU_N)),
             (Z.ltb_spec (Z.of_nat j) (Z.rem OPT_N GPU_N)); lia.
Qed.

Lemma plans_balanced_witness :
  exists plans,
    build_plans (uniform_platform 64) 3 10 262144 zero_plan = Ok plans /\
    (forall i p, plans !! i = Some p ->
       Plan.device p = Z.of_nat i /\
       Plan.pathN p = 262144 /\
       Plan.optionData p = Plan.callValue p /\
       0 <= Plan.optionCount p /\
       Plan.gridSize p = Z.min (Plan.optionCount p) (grid_ceiling (uniform_platform 64))) /\
    (forall i j p p', plans !! i = Some p -> plans !! j = Some p' -> (i <= j)%nat ->
       Plan.optionCount p' <= Plan.optionCount p <= Plan.optionCount p' + 1).
Proof.
  apply (plans_balanced (uniform_platform 64) 3 10 262144 zero_plan); unfold INT_MAX; lia.
Defined.

(** X4.  With fewer options than devices, the first [OPT_N] plans get one
    option each and every later plan is empty: no options, a view that
    starts at the end of the arrays, and a grid size of at most zero. *)
Theorem fewer_options_than_devices
  (P : Platform) (GPU_N OPT_N PATH_N : Z) (garbage : nat -> TOptionPlan) :
  1 <= GPU_N <= INT_MAX ->
  0 <= OPT_N < GPU_N ->
  exists plans,
    build_plans P GPU_N OPT_N PATH_N garbage = Ok plans /\
    Z.of_nat (length plans) = GPU_N /\
    forall i p, plans !! i = Some p ->
      (Z.of_nat i < OPT_N ->
       Plan.optionCount p = 1 /\ Plan.callValue p = Z.of_nat i) /\
      (OPT_N <= Z.of_nat i ->
       Plan.optionCount p = 0 /\ Plan.callValue p = OPT_N /\ Plan.gridSize p <= 0).
Proof.
  intros HG HO. eexists. split; [apply build_plans_closed_form; lia|].
  split; [rewrite length_map, length_seqZ; lia|].
  intros i p Hp. apply lookup_planned in Hp. destruct Hp as [-> Hlt].
  cbn [planned Plan.optionCount Plan.callValue Plan.gridSize].
  unfold share, base. rewrite Z.quot_small, Z.rem_small by lia.
  split; intros Hi.
  - destruct (Z.ltb_spec (Z.of_nat i) OPT_N); lia.
  - destruct (Z.ltb_spec (Z.of_nat i) OPT_N); [lia|].
    rewrite adjustGridSize_min. lia.
Qed.

Lemma fewer_options_than_devices_witness :
  exists plans,
    build_plans (uniform_platform 64) 4 2 262144 zero_plan = Ok plans /\
    Z.of_nat (length plans) = 4 /\
    forall i p, plans !! i = Some p ->
      (Z.of_nat i < 2 ->
       Plan.optionCount p = 1 /\ Plan.callValue p = Z.of_nat i) /\
      (2 <= Z.of_nat i ->
       Plan.optionCount p = 0 /\ Plan.callValue p = 2 /\ Plan.gridSize p <= 0).
Proof.
  apply (fewer_options_than_devices (uniform_platform 64) 4 2 262144 zero_plan);
    unfold INT_MAX; lia.
Defined.

(** X5.  Plan building reads nothing of the storage it was given: the plans
    do not depend on what the freshly allocated array held. *)
Theorem plans_ignore_uninitialised_storage
  (P : Platform) (GPU_N OPT_N PATH_N : Z) (garbage garbage' : nat -> TOptionPlan) :
  GPU_N <= INT_MAX ->
  0 <= OPT_N <= INT_MAX ->
  build_plans P GPU_N OPT_N PATH_N garbage = build_plans P GPU_N OPT_N PATH_N garbage'.
Proof.
  intros HG HO. destruct (Z.le_gt_cases GPU_N 0) as [Hle|Hgt].
  - unfold build_plans, new_array.
    replace (Z.to_nat GPU_N) with 0%nat by lia. reflexivity.
  - rewrite !build_plans_closed_form by lia. reflexivity.
Qed.

Lemma plans_ignore_uninitialised_storage_witness :
  build_plans (uniform_platform 64) 3 10 262144 zero_plan =
  build_plans (uniform_platform 64) 3 10 262144 (fun n => Plan.mk 7 7 7 7 7 (Z.of_nat n)).
Proof.
  apply plans_ignore_uninitialised_storage; unfold INT_MAX; lia.
Defined.

(** ** Problem size and the input arrays *)

Lemma adjustProblemSize_int (P : Platform) (GPU_N : Z) :
  INT_MIN <= adjustProblemSize P GPU_N (8 * 1024) <= 8 * 1024.
Proof.
  split; [|apply adjustProblemSize_le].
  rewrite adjustProblemSize_closed.
  pose proof (to_int_range (selected_compute_units P)) as Hc.
  unfold INT_MIN, INT_MAX in *.
  destruct (GPU_N <=? 0); [lia|].
  destruct (Z.leb_spec (to_int (selected_compute_units P)) 32); [|lia].
  assert (- 2 ^ 31 <= Z.quot (to_int (selected_compute_units P)) 2).
  { destruct (Z.le_gt_cases 0 (to_int (selected_compute_units P))) as [Hpos|Hneg].
    - pose proof (Z.quot_pos _ 2 Hpos ltac:(lia)). lia.
    - pose proof (Z.quot_opp_l (- to_int (selected_compute_units P)) 2 ltac:(lia)) as Ho.
      rewrite Z.opp_involutive in Ho.
      pose proof (Z.quot_le_upper_bound (- to_int (selected_compute_units P)) 2 (2 ^ 31)
                    ltac:(lia) ltac:(lia)).
      lia. }
  lia.
Qed.

(** X6.  Under strong scaling the problem size is what [adjustProblemSize]
    returns.  Under weak scaling it is that number times the device count
    (as long as the product is an [int]), and then the remainder loop has
    nothing to distribute: every plan gets exactly that number of options,
    plan [i] starting at [i] times that number. *)
Theorem scaling_modes
  (P : Platform) (cfg : Config) (GPU_N PATH_N : Z) (garbage : nat -> TOptionPlan) :
  (strongScaling cfg = true ->
   problem_size P cfg GPU_N = adjustProblemSize P GPU_N (8 * 1024)) /\
  (strongScaling cfg = false ->
   1 <= GPU_N <= INT_MAX ->
   0 <= adjustProblemSize P GPU_N (8 * 1024) ->
   adjustProblemSize P GPU_N (8 * 1024) * GPU_N <= INT_MAX ->
   problem_size P cfg GPU_N = adjustProblemSize P GPU_N (8 * 1024) * GPU_N /\
   exists plans,
     build_plans P GPU_N (problem_size P cfg GPU_N) PATH_N garbage = Ok plans /\
     forall i p, plans !! i = Some p ->
       Plan.optionCount p = adjustProblemSize P GPU_N (8 * 1024) /\
       Plan.callValue p = Z.of_nat i * adjustProblemSize P GPU_N (8 * 1024)).
Proof.
  pose proof (adjustProblemSize_int P GPU_N) as Hn.
  unfold problem_size, int_mul. split.
  - intros ->. rewrite Z.mul_1_r. apply to_int_small. unfold INT_MAX in *. lia.
  - intros -> HG H0 Hmul.
    set (n := adjustProblemSize P GPU_N (8 * 1024)) in *.
    assert (Hsize : to_int (n * GPU_N) = n * GPU_N).
    { apply to_int_small. unfold INT_MIN, INT_MAX in *. nia. }
    rewrite Hsize. split; [reflexivity|].
    eexists. split; [apply build_plans_closed_form; [exact HG|nia]|].
    intros i p Hp. apply lookup_planned in Hp. destruct Hp as [-> Hlt].
    cbn [planned Plan.optionCount Plan.callValue]. unfold share, base.
    rewrite Z.quot_mul, Z.rem_mul by lia.
    destruct (Z.ltb_spec (Z.of_nat i) 0); lia.
Qed.

Lemma scaling_modes_witness :
  (problem_size (uniform_platform 8) (mkConfig false false true) 2 = 4) /\
  (problem_size (uniform_platform 8) (mkConfig false false false) 2 = 4 * 2 /\
   exists plans,
     build_plans (uniform_platform 8) 2
       (problem_size (uniform_platform 8) (mkConfig false false false) 2)
       262144 zero_plan = Ok plans /\
     forall i p, plans !! i = Some p ->
       Plan.optionCount p = 4 /\ Plan.callValue p = Z.of_nat i * 4).
Proof.
  split.
  - exact (proj1 (scaling_modes (uniform_platform 8) (mkConfig false false true) 2
                    262144 zero_plan) eq_refl).
  - apply (proj2 (scaling_modes (uniform_platform 8) (mkConfig false false false) 2
                    262144 zero_plan) eq_refl).
    + unfold INT_MAX. lia.
    + vm_compute. discriminate.
    + vm_compute. discriminate.
Defined.

Section InputArrays.

Variable rand : Z -> Z.
Variable RAND_MAX : Z.
Variable garbage_data : nat -> TOptionData.
Variable garbage_value : nat -> TOptionValue.

Lemma generate_input_closed_form (OPT_N : Z) :
  0 <= OPT_N ->
  generate_input rand RAND_MAX garbage_data garbage_value OPT_N =
  Ok (map (generated_option rand RAND_MAX) (seqZ 0 OPT_N),
      replicate (Z.to_nat OPT_N) (Option.mkValue lit_minus1f lit_minus1f)).
Proof.
  intros HN. unfold generate_input, for_upto.
  destruct (new_array_ok OPT_N garbage_data HN) as (d0 & Hd0 & Hld).
  destruct (new_array_ok OPT_N garbage_value HN) as (v0 & Hv0 & Hlv).
  rewrite Hd0, Hv0. cbn [rbind].
  destruct (for_loop_inv
    (fun k (st : list TOptionData * list TOptionValue) =>
       length (fst st) = Z.to_nat OPT_N /\ length (snd st) = Z.to_nat OPT_N /\
       forall j, Z.of_nat j < k ->
         fst st !! j = Some (generated_option rand RAND_MAX (Z.of_nat j)) /\
         snd st !! j = Some (Option.mkValue lit_minus1f lit_minus1f))
    (fun i '(optionData, callValueGPU) =>
       let* optionData :=
         update optionData i
           (fun _ => Option.mkData
                       (randFloat rand RAND_MAX (3 * i) (float_of_int 5) (float_of_int 50))
                       (randFloat rand RAND_MAX (3 * i + 1) (float_of_int 10) (float_of_int 25))
                       (randFloat rand RAND_MAX (3 * i + 2) (float_of_int 1) (float_of_int 5))
                       lit_006f lit_010f) in
       let* callValueGPU :=
         update callValueGPU i (fun _ => Option.mkValue lit_minus1f lit_minus1f) in
       Ok (optionData, callValueGPU))
    (Z.to_nat OPT_N) 0 (d0, v0))
    as ([optionData values] & Hrun & Hd & Hv & Hcells).
  - cbn [fst snd]. split; [exact Hld|]. split; [exact Hlv|]. intros j0 Hj0. lia.
  - intros k [d v] Hk (Hd & Hv & Hcells). cbn [fst snd] in *.
    destruct (at_index_lt d k ltac:(lia)) as (x & _ & Hx).
    destruct (at_index_lt v k ltac:(lia)) as (y & _ & Hy).
    rewrite (update_ok d k _ x ltac:(lia) Hx). cbn [rbind].
    rewrite (update_ok v k _ y ltac:(lia) Hy). cbn [rbind].
    eexists. split; [reflexivity|]. cbn [fst snd]. rewrite !length_insert.
    split; [exact Hd|]. split; [exact Hv|].
    intros j Hj. destruct (Nat.eq_dec j (Z.to_nat k)) as [->|Hne].
    + rewrite !list_lookup_insert_eq by lia.
      replace (Z.of_nat (Z.to_nat k)) with k by lia. split; reflexivity.
    + rewrite !list_lookup_insert_ne by congruence. apply Hcells. lia.
  - cbn [fst snd] in *. rewrite Hrun. f_equal. f_equal.
    + apply list_eq. intros j. rewrite list_lookup_fmap.
      destruct (Nat.lt_ge_cases j (Z.to_nat OPT_N)) as [Hlt|Hge].
      * rewrite lookup_seqZ_lt by lia. cbn.
        rewrite (proj1 (Hcells j ltac:(lia))). reflexivity.
      * rewrite lookup_seqZ_ge by lia. cbn. apply lookup_ge_None. lia.
    + apply list_eq. intros j.
      destruct (Nat.lt_ge_cases j (Z.to_nat OPT_N)) as [Hlt|Hge].
      * rewrite lookup_replicate_2 by lia. exact (proj2 (Hcells j ltac:(lia))).
      * rewrite (proj2 (lookup_ge_None values j)) by lia.
        symmetry. apply lookup_ge_None. rewrite length_replicate. lia.
Qed.

End InputArrays.

(** X7.  The input loop fills every cell and nothing else.  For a size that
    is not negative the option data are [OPT_N] options, cell [i] drawn from
    the three calls [3i], [3i+1], [3i+2] of the generator with rate 0.06f
    and volatility 0.10f; the result array is [OPT_N] cells that all hold
    the sentinel (-1, -1); nothing of what the fresh arrays held remains,
    and a size of zero gives empty arrays.  A negative size is refused by
    the allocation, before any cell is written. *)
Theorem input_arrays_filled
  (rand : Z -> Z) (RAND_MAX : Z)
  (garbage_data : nat -> TOptionData) (garbage_value : nat -> TOptionValue) (OPT_N : Z) :
  (0 <= OPT_N ->
   exists optionData values,
     generate_input rand RAND_MAX garbage_data garbage_value OPT_N =
       Ok (optionData, values) /\
     length optionData = Z.to_nat OPT_N /\
     length values = Z.to_nat OPT_N /\
     (forall i d, optionData !! i = Some d ->
        d = generated_option rand RAND_MAX (Z.of_nat i) /\
        Option.R d = lit_006f /\ Option.V d = lit_010f) /\
     (forall i v, values !! i = Some v ->
        Option.Expected v = lit_minus1f /\ Option.Confidence v = lit_minus1f) /\
     (forall garbage_data' garbage_value',
        generate_input rand RAND_MAX garbage_data' garbage_value' OPT_N =
        Ok (optionData, values))) /\
  (OPT_N < 0 ->
   generate_input rand RAND_MAX garbage_data garbage_value OPT_N =
     Fault BadArrayNewLength).
Proof.
  split.
  - intros HN. eexists _, _. split; [now apply generate_input_closed_form|].
    split; [rewrite length_map, length_seqZ; reflexivity|].
    split; [apply length_replicate|].
    split; [|split].
    + intros i d Hd. rewrite list_lookup_fmap in Hd.
      destruct (seqZ 0 OPT_N !! i) as [j|] eqn:Hj; [|discriminate].
      apply lookup_seqZ in Hj. destruct Hj as [-> _]. injection Hd as <-.
      replace (0 + Z.of_nat i) with (Z.of_nat i) by lia. repeat split.
    + intros i v Hv. apply lookup_replicate in Hv. destruct Hv as [-> _].
      split; reflexivity.
    + intros gd gv. now apply generate_input_closed_form.
  - intros HN. unfold generate_input. now rewrite new_array_negative.
Qed.

Lemma input_arrays_filled_witness :
  (exists optionData values,
     generate_input scenario_rand 2147483647 (fun _ => zero_data) (fun _ => unset_value) 2 =
       Ok (optionData, values) /\
     length optionData = 2%nat /\
     length values = 2%nat /\
     (forall d, optionData !! 1%nat = Some d ->
        d = generated_option scenario_rand 2147483647 1 /\
        Option.R d = lit_006f /\ Option.V d = lit_010f) /\
     (forall v, values !! 1%nat = Some v ->
        Option.Expected v = lit_minus1f /\ Option.Confidence v = lit_minus1f)) /\
  generate_input scenario_rand 2147483647 (fun _ => zero_data) (fun _ => unset_value) (-1) =
    Fault BadArrayNewLength.
Proof.
  split.
  - destruct (proj1 (input_arrays_filled scenario_rand 2147483647 (fun _ => zero_data)
                       (fun _ => unset_value) 2) ltac:(lia))
      as (optionData & values & Hrun & Hd & Hv & Hdata & Hvalues & _).
    exists optionData, values. split; [exact Hrun|]. split; [exact Hd|]. split; [exact Hv|].
    split; [exact (Hdata 1%nat)|exact (Hvalues 1%nat)].
  - apply (proj2 (input_arrays_filled scenario_rand 2147483647 (fun _ => zero_data)
                    (fun _ => unset_value) (-1))).
    lia.
Defined.

(** X8.  Whatever the configuration, the outcome of [main] does not depend
    on what the three accumulators held before their first assignment: one
    of the two passes always runs, and each assigns them before reading
    them. *)
Theorem main_ignores_uninitialised_accumulators
  (P : Platform) (raises : list call -> call -> bool)
  (kernel : list call -> TOptionPlan -> Z -> TOptionValue)
  (BlackScholesCall : TOptionData -> spec_float) (rand : Z -> Z) (RAND_MAX : Z)
  (garbage_plan : nat -> TOptionPlan) (garbage_data : nat -> TOptionData)
  (garbage_value : nat -> TOptionValue) (cfg : Config) (GPU_N : Z)
  (acc0 acc0' : Accumulators) (w : World) :
  main P raises kernel BlackScholesCall rand RAND_MAX
    garbage_plan garbage_data garbage_value cfg GPU_N acc0 w =
  main P raises kernel BlackScholesCall rand RAND_MAX
    garbage_plan garbage_data garbage_value cfg GPU_N acc0' w.
Proof.
  unfold main. destruct (use_threads cfg), (bqatest cfg); reflexivity.
Qed.

(** ** The calls of a whole run *)

Section WholeRun.

Variable P : Platform.
Variable raises : list call -> call -> bool.
Variable kernel : list call -> TOptionPlan -> Z -> TOptionValue.
Variable BlackScholesCall : TOptionData -> spec_float.
Variable rand : Z -> Z.
Variable RAND_MAX : Z.
Variable garbage_plan : nat -> TOptionPlan.
Variable garbage_data : nat -> TOptionData.
Variable garbage_value : nat -> TOptionValue.
Variable cfg : Config.
Variable GPU_N : Z.
Hypothesis devices : 1 <= GPU_N <= INT_MAX.
Hypothesis options : 0 <= problem_size P cfg GPU_N.

Local Abbreviation OPT_N := (problem_size P cfg GPU_N).
Local Abbreviation plans := (map (planned P GPU_N OPT_N 262144) (seqZ 0 GPU_N)).
Local Abbreviation optionData := (map (generated_option rand RAND_MAX) (seqZ 0 OPT_N)).
Local Abbreviation sentinels :=
  (replicate (Z.to_nat OPT_N) (Option.mkValue lit_minus1f lit_minus1f)).

Lemma plans_length : GPU_N = Z.of_nat (length plans).
Proof. rewrite length_map, length_seqZ. lia. Qed.

Lemma problem_size_int : 0 <= OPT_N <= INT_MAX.
Proof. split; [exact options|]. unfold problem_size, int_mul. apply to_int_range. Qed.

(** [setup] in closed form. *)
Lemma setup_closed_form (w : World) :
  setup P rand RAND_MAX garbage_plan garbage_data garbage_value cfg GPU_N w =
  (mkWorld (trace w ++ timer_setup_calls plans) sentinels,
   Done (OPT_N, optionData, plans)).
Proof.
  unfold setup. cbv zeta.
  destruct (appends_index_loop plans
              (fun i => let! _ := log (CreateTimer i) in log (ResetTimer i))
              (fun i => [CreateTimer i; ResetTimer i])
              ltac:(intros k _; apply (appends_bind _ _ [_] [_]);
                    [apply appends_log|intros _; apply appends_log]) w)
    as ([] & values & Hrun & _).
  rewrite <- plans_length in Hrun.
  rewrite (hbind_run _ _ _ _ _ Hrun).
  rewrite (generate_input_closed_form _ _ _ _ _ options).
  rewrite (build_plans_closed_form P GPU_N OPT_N 262144 garbage_plan devices
             problem_size_int).
  reflexivity.
Qed.

Lemma threaded_pass_calls (optionData' : list TOptionData) (acc0 : Accumulators)
  (w : World) :
  (forall h c, raises h c = false) ->
  length optionData' = Z.to_nat OPT_N ->
  length (callValueGPU w) = Z.to_nat OPT_N ->
  exists values acc,
    threaded_pass raises kernel BlackScholesCall GPU_N OPT_N plans optionData' acc0 w =
      (mkWorld (trace w ++ thread_calls plans) values, Done acc) /\
    length values = Z.to_nat OPT_N /\
    compare_pass BlackScholesCall OPT_N optionData' acc0
      (mkWorld (trace w ++ thread_calls plans) values) =
      (mkWorld (trace w ++ thread_calls plans) values, Done acc).
Proof.
  intros quiet Hd Hv. unfold threaded_pass.
  destruct (appends_plan_loop plans (fun p _ => solverThread raises kernel p)
              (fun _ p => threaded_calls p)
              ltac:(intros k p _; now apply solverThread_quiet) w)
    as ([] & values & Hrun & Hlen).
  rewrite <- plans_length in Hrun.
  rewrite (hbind_run _ _ _ _ _ Hrun).
  destruct (compare_pass_ok BlackScholesCall OPT_N optionData' acc0
              (mkWorld (trace w ++ thread_calls plans) values)
              Hd ltac:(cbn [callValueGPU]; congruence)) as (acc & Hcmp).
  exists values, acc. split; [exact Hcmp|]. split; [congruence|exact Hcmp].
Qed.

Lemma streamed_pass_calls (optionData' : list TOptionData) (acc0 : Accumulators)
  (w : World) :
  (forall h c, raises h c = false) ->
  length optionData' = Z.to_nat OPT_N ->
  length (callValueGPU w) = Z.to_nat OPT_N ->
  exists values acc,
    streamed_pass raises kernel BlackScholesCall GPU_N OPT_N plans optionData' acc0 w =
      (mkWorld (trace w ++ streamed_calls plans) values, Done acc) /\
    length values = Z.to_nat OPT_N /\
    compare_pass BlackScholesCall OPT_N optionData' acc0
      (mkWorld (trace w ++ streamed_calls plans) values) =
      (mkWorld (trace w ++ streamed_calls plans) values, Done acc).
Proof.
  intros quiet Hd Hv. unfold streamed_pass.
  destruct (multiSolver_quiet raises kernel plans quiet w) as ([] & values & Hrun & Hlen).
  rewrite <- plans_length in Hrun.
  rewrite (hbind_run _ _ _ _ _ Hrun).
  destruct (compare_pass_ok BlackScholesCall OPT_N optionData' acc0
              (mkWorld (trace w ++ streamed_calls plans) values)
              Hd ltac:(cbn [callValueGPU]; congruence)) as (acc & Hcmp).
  exists values, acc. split; [exact Hcmp|]. split; [congruence|exact Hcmp].
Qed.

Lemma shutdown_calls_run (acc : Accumulators) (w : World) :
  shutdown GPU_N acc w =
  (mkWorld (trace w ++ shutdown_calls plans) (callValueGPU w), Done (summary acc)).
Proof.
  unfold shutdown.
  assert (Hloop : forall n i w0,
    host_for n i (fun j (_ : unit) => sdkStartTimer j) tt w0 =
    (mkWorld (trace w0 ++ per_plan (fun j _ => [StartTimer j]) i
                (replicate n (Plan.mk 0 0 0 0 0 0))) (callValueGPU w0), Done tt)).
  { induction n as [|n IH]; intros i w0.
    - cbn. rewrite app_nil_r. now destruct w0.
    - cbn [host_for replicate per_plan].
      rewrite (hbind_run _ _ w0 (mkWorld (trace w0 ++ [StartTimer i]) (callValueGPU w0)) tt)
        by reflexivity.
      rewrite IH. cbn [trace callValueGPU]. now rewrite <- app_assoc. }
  assert (Hsame : forall (f : Z -> list call) (l l' : list TOptionPlan) i,
    length l = length l' ->
    per_plan (fun j _ => f j) i l = per_plan (fun j _ => f j) i l').
  { intros f l. induction l as [|x l IH]; intros [|y l'] i Hlen; try discriminate;
      [reflexivity|].
    cbn [per_plan]. f_equal. apply IH. now injection Hlen. }
  unfold host_upto. rewrite (hbind_run _ _ _ _ _ (Hloop _ _ _)).
  unfold hret, shutdown_calls. cbn [trace callValueGPU].
  rewrite (Hsame (fun j => [StartTimer j]) _ plans 0); [reflexivity|].
  rewrite length_replicate, length_map, length_seqZ. reflexivity.
Qed.

(** The whole run when nothing raises: the calls it makes and where its
    report comes from. *)
Lemma main_run (acc0 : Accumulators) (w : World) :
  (forall h c, raises h c = false) ->
  exists values acc w1,
    main P raises kernel BlackScholesCall rand RAND_MAX
      garbage_plan garbage_data garbage_value cfg GPU_N acc0 w =
      (mkWorld (trace w ++ main_calls cfg plans) values, Done (summary acc)) /\
    length values = Z.to_nat OPT_N /\
    length (callValueGPU w1) = Z.to_nat OPT_N /\
    compare_pass BlackScholesCall OPT_N optionData acc0 w1 = (w1, Done acc) /\
    callValueGPU w1 = values.
Proof.
  intros quiet. unfold main.
  rewrite (hbind_run _ _ _ _ _ (setup_closed_form w)). cbv beta iota.
  assert (Hd : length optionData = Z.to_nat OPT_N).
  { rewrite length_map, length_seqZ. reflexivity. }
  assert (Hs : length sentinels = Z.to_nat OPT_N) by apply length_replicate.
  unfold main_calls.
  destruct (use_threads cfg) eqn:Hthreads, (bqatest cfg) eqn:Hqa; cbn [orb negb].
  - destruct (threaded_pass_calls optionData acc0
                (mkWorld (trace w ++ timer_setup_calls plans) sentinels) quiet Hd Hs)
      as (v1 & acc1 & Hrun1 & Hv1 & _).
    rewrite (hbind_run _ _ _ _ _ Hrun1).
    cbn [trace] in Hrun1.
    destruct (streamed_pass_calls optionData acc1
                (mkWorld ((trace w ++ timer_setup_calls plans) ++ thread_calls plans) v1)
                quiet Hd Hv1)
      as (v2 & acc2 & Hrun2 & Hv2 & Hcmp2).
    rewrite (hbind_run _ _ _ _ _ Hrun2). rewrite shutdown_calls_run.
    cbn [trace callValueGPU] in *. eexists v2, acc2, _.
    split; [now rewrite <- !app_assoc|]. split; [exact Hv2|].
    split; [|split; [exact Hcmp2|reflexivity]]. exact Hv2.
  - destruct (threaded_pass_calls optionData acc0
                (mkWorld (trace w ++ timer_setup_calls plans) sentinels) quiet Hd Hs)
      as (v1 & acc1 & Hrun1 & Hv1 & Hcmp1).
    rewrite (hbind_run _ _ _ _ _ Hrun1).
    rewrite (hbind_run _ _ _ _ acc1) by reflexivity. rewrite shutdown_calls_run.
    cbn [trace callValueGPU] in *. eexists v1, acc1, _.
    split; [now rewrite <- !app_assoc|]. split; [exact Hv1|].
    split; [|split; [exact Hcmp1|reflexivity]]. exact Hv1.
  - destruct (threaded_pass_calls optionData acc0
                (mkWorld (trace w ++ timer_setup_calls plans) sentinels) quiet Hd Hs)
      as (v1 & acc1 & Hrun1 & Hv1 & _).
    rewrite (hbind_run _ _ _ _ _ Hrun1).
    cbn [trace] in Hrun1.
    destruct (streamed_pass_calls optionData acc1
                (mkWorld ((trace w ++ timer_setup_calls plans) ++ thread_calls plans) v1)
                quiet Hd Hv1)
      as (v2 & acc2 & Hrun2 & Hv2 & Hcmp2).
    rewrite (hbind_run _ _ _ _ _ Hrun2). rewrite shutdown_calls_run.
    cbn [trace callValueGPU] in *. eexists v2, acc2, _.
    split; [now rewrite <- !app_assoc|]. split; [exact Hv2|].
    split; [|split; [exact Hcmp2|reflexivity]]. exact Hv2.
  - rewrite (hbind_run _ _ _ _ acc0) by reflexivity.
    destruct (streamed_pass_calls optionData acc0
                (mkWorld (trace w ++ timer_setup_calls plans) sentinels) quiet Hd Hs)
      as (v2 & acc2 & Hrun2 & Hv2 & Hcmp2).
    rewrite (hbind_run _ _ _ _ _ Hrun2). rewrite shutdown_calls_run.
    cbn [trace callValueGPU] in *. eexists v2, acc2, _.
    split; [now rewrite <- !app_assoc|]. split; [exact Hv2|].
    split; [|split; [exact Hcmp2|reflexivity]]. exact Hv2.
Qed.

End WholeRun.

(** X9.  What [setup] hands to the drivers is consistent: with at least one
    device and a non-negative problem size it ends without fault, both
    arrays have [OPT_N] cells, there is one plan per device, every result
    cell holds the sentinel, and the two views of every plan lie within the
    arrays. *)
Theorem views_within_arrays
  (P : Platform) (rand : Z -> Z) (RAND_MAX : Z)
  (garbage_plan : nat -> TOptionPlan) (garbage_data : nat -> TOptionData)
  (garbage_value : nat -> TOptionValue) (cfg : Config) (GPU_N : Z) (w : World) :
  1 <= GPU_N <= INT_MAX ->
  0 <= problem_size P cfg GPU_N ->
  exists w1 optionData plans,
    setup P rand RAND_MAX garbage_plan garbage_data garbage_value cfg GPU_N w =
      (w1, Done (problem_size P cfg GPU_N, optionData, plans)) /\
    Z.of_nat (length optionData) = problem_size P cfg GPU_N /\
    Z.of_nat (length (callValueGPU w1)) = problem_size P cfg GPU_N /\
    Z.of_nat (length plans) = GPU_N /\
    (forall i v, callValueGPU w1 !! i = Some v ->
       v = Option.mkValue lit_minus1f lit_minus1f) /\
    (forall i p, plans !! i = Some p ->
       Plan.optionData p = Plan.callValue p /\
       0 <= Plan.callValue p /\
       0 <= Plan.optionCount p /\
       Plan.callValue p + Plan.optionCount p <= Z.of_nat (length (callValueGPU w1))).
Proof.
  intros HG HO.
  pose proof (problem_size_int P cfg GPU_N HO) as HO'.
  destruct (planned_layout P GPU_N (problem_size P cfg GPU_N) 262144 HG HO')
    as [Hcont Htotal].
  eexists _, _, _. split; [now apply setup_closed_form|].
  cbn [callValueGPU].
  split; [rewrite length_map, length_seqZ; lia|].
  split; [rewrite length_replicate; lia|].
  split; [rewrite length_map, length_seqZ; lia|].
  split.
  - intros i v Hv. apply lookup_replicate in Hv. now destruct Hv.
  - intros i p Hp.
    destruct (contiguous_within _ 0 Hcont i p Hp) as [Hlo Hhi].
    rewrite Htotal in Hhi. rewrite length_replicate.
    apply lookup_planned in Hp. destruct Hp as [-> _].
    pose proof (share_bounds GPU_N (problem_size P cfg GPU_N) HG HO' (Z.of_nat i)).
    cbn [planned Plan.optionData Plan.callValue Plan.optionCount] in *.
    repeat split; lia.
Qed.

Lemma views_within_arrays_witness :
  exists w1 optionData plans,
    setup (uniform_platform 8) scenario_rand 2147483647 zero_plan
      (fun _ => zero_data) (fun _ => unset_value) (mkConfig false false false) 2
      empty_world =
      (w1, Done (problem_size (uniform_platform 8) (mkConfig false false false) 2,
                 optionData, plans)) /\
    Z.of_nat (length optionData) =
      problem_size (uniform_platform 8) (mkConfig false false false) 2 /\
    Z.of_nat (length (callValueGPU w1)) =
      problem_size (uniform_platform 8) (mkConfig false false false) 2 /\
    Z.of_nat (length plans) = 2 /\
    (forall i v, callValueGPU w1 !! i = Some v ->
       v = Option.mkValue lit_minus1f lit_minus1f) /\
    (forall i p, plans !! i = Some p ->
       Plan.optionData p = Plan.callValue p /\
       0 <= Plan.callValue p /\
       0 <= Plan.optionCount p /\
       Plan.callValue p + Plan.optionCount p <= Z.of_nat (length (callValueGPU w1))).
Proof.
  apply views_within_arrays.
  - unfold INT_MAX. lia.
  - vm_compute. discriminate.
Defined.

(** X10.  A run with the streamed method alone in which nothing raises.  Of
    the timer and driver calls it makes exactly these, in this order: a
    timer is created and reset per device; the six loops of [multiSolver]
    follow; at the end a timer is started (not deleted) per device.  What
    it reports is the summary of the comparison loop over the generated
    options and the result array as the drivers left it, with the reserve
    sum divided by [OPT_N]. *)
Theorem streamed_run_calls_and_report
  (P : Platform) (raises : list call -> call -> bool)
  (kernel : list call -> TOptionPlan -> Z -> TOptionValue)
  (BlackScholesCall : TOptionData -> spec_float) (rand : Z -> Z) (RAND_MAX : Z)
  (garbage_plan : nat -> TOptionPlan) (garbage_data : nat -> TOptionData)
  (garbage_value : nat -> TOptionValue) (cfg : Config) (GPU_N : Z)
  (acc0 : Accumulators) (w : World) :
  use_threads cfg = false -> bqatest cfg = false ->
  1 <= GPU_N <= INT_MAX ->
  0 <= problem_size P cfg GPU_N ->
  (forall h c, raises h c = false) ->
  exists plans values,
    build_plans P GPU_N (problem_size P cfg GPU_N) 262144 garbage_plan = Ok plans /\
    length values = Z.to_nat (problem_size P cfg GPU_N) /\
    main P raises kernel BlackScholesCall rand RAND_MAX
      garbage_plan garbage_data garbage_value cfg GPU_N acc0 w =
    (mkWorld
       (trace w ++
        per_plan (fun i _ => [CreateTimer i; ResetTimer i]) 0 plans ++
        streamed_calls plans ++
        per_plan (fun i _ => [StartTimer i]) 0 plans)
       values,
     Done (summary
             (averaged (problem_size P cfg GPU_N)
                (accumulated BlackScholesCall
                   (map (generated_option rand RAND_MAX)
                      (seqZ 0 (problem_size P cfg GPU_N)))
                   values)))).
Proof.
  intros Ht Hq HG HO quiet.
  destruct (main_run P raises kernel BlackScholesCall rand RAND_MAX
              garbage_plan garbage_data garbage_value cfg GPU_N HG HO acc0 w quiet)
    as (values & acc & w1 & Hrun & Hlen & Hlen1 & Hcmp & Hvalues).
  rewrite compare_pass_closed_form in Hcmp;
    [|rewrite length_map, length_seqZ; reflexivity|exact Hlen1].
  injection Hcmp as <-. rewrite Hvalues in Hrun.
  unfold main_calls in Hrun. rewrite Ht, Hq in Hrun. cbn [orb negb app] in Hrun.
  eexists _, values. split; [|split; [exact Hlen|exact Hrun]].
  apply build_plans_closed_form; [exact HG|now apply problem_size_int].
Qed.

Lemma streamed_run_calls_and_report_witness :
  exists values,
    length values = 8%nat /\
    scenario_main (mkConfig false false false) =
    (mkWorld
       [CreateTimer 0; ResetTimer 0; CreateTimer 1; ResetTimer 1;
        OpenQueue 0 0; OpenQueue 1 1;
        Init (Plan.mk 0 4 0 0 262144 4) 0; Init (Plan.mk 1 4 4 4 262144 4) 1;
        QueueWaitAndThrow 0; QueueWaitAndThrow 1;
        Simulate (Plan.mk 0 4 0 0 262144 4) 0; SubmitBarrier 0;
        Simulate (Plan.mk 1 4 4 4 262144 4) 1; SubmitBarrier 1;
        EventWaitAndThrow 0; EventWaitAndThrow 1; StopTimer 0;
        Close (Plan.mk 0 4 0 0 262144 4) 0; Close (Plan.mk 1 4 4 4 262144 4) 1;
        StartTimer 0; StartTimer 1]
       values,
     Done (summary
             (averaged 8
                (accumulated scenario_reference
                   (map (generated_option scenario_rand 2147483647) (seqZ 0 8))
                   values)))).
Proof.
  destruct (streamed_run_calls_and_report (uniform_platform 8) never_raises scenario_kernel
              scenario_reference scenario_rand 2147483647 zero_plan
              (fun _ => zero_data) (fun _ => unset_value) (mkConfig false false false) 2
              nan_accumulators empty_world)
    as (plans & values & Hplans & Hlen & Hrun).
  - reflexivity.
  - reflexivity.
  - unfold INT_MAX. lia.
  - vm_compute. discriminate.
  - reflexivity.
  - exists values. split; [exact Hlen|].
    assert (Hp : plans = [Plan.mk 0 4 0 0 262144 4; Plan.mk 1 4 4 4 262144 4]).
    { vm_compute in Hplans. now injection Hplans as <-. }
    subst plans. exact Hrun.
Defined.

(** X11.  The streamed pass stops timer 0 without any timer having been
    started: the only timer call of [multiSolver] is the stop of timer 0,
    and in a run with the streamed method alone no timer is started before
    that stop (the timers are started only at shutdown). *)
Theorem streamed_timer_never_started
  (P : Platform) (raises : list call -> call -> bool)
  (kernel : list call -> TOptionPlan -> Z -> TOptionValue)
  (BlackScholesCall : TOptionData -> spec_float) (rand : Z -> Z) (RAND_MAX : Z)
  (garbage_plan : nat -> TOptionPlan) (garbage_data : nat -> TOptionData)
  (garbage_value : nat -> TOptionValue) :
  (forall h c, raises h c = false) ->
  (forall plans w, exists calls values,
      multiSolver raises kernel plans (Z.of_nat (length plans)) w =
        (mkWorld (trace w ++ calls) values, Done tt) /\
      List.filter is_timer_call calls = [StopTimer 0]) /\
  (forall cfg GPU_N acc0 w,
      use_threads cfg = false -> bqatest cfg = false ->
      1 <= GPU_N <= INT_MAX ->
      0 <= problem_size P cfg GPU_N ->
      exists before after values r,
        main P raises kernel BlackScholesCall rand RAND_MAX
          garbage_plan garbage_data garbage_value cfg GPU_N acc0 w =
          (mkWorld (trace w ++ before ++ StopTimer 0 :: after) values, Done r) /\
        List.filter is_start_timer before = []).
Proof.
  intros quiet. split.
  - intros plans w.
    destruct (multiSolver_quiet raises kernel plans quiet w) as ([] & values & Hrun & _).
    exists (streamed_calls plans), values. split; [exact Hrun|].
    unfold streamed_calls. rewrite !List.filter_app.
    unfold streamed_opens, streamed_inits, streamed_init_waits, streamed_issues,
      streamed_marker_waits, streamed_closes.
    rewrite !filter_per_plan_nil by reflexivity. reflexivity.
  - intros cfg GPU_N acc0 w Ht Hq HG HO.
    destruct (main_run P raises kernel BlackScholesCall rand RAND_MAX
                garbage_plan garbage_data garbage_value cfg GPU_N HG HO acc0 w quiet)
      as (values & acc & w1 & Hrun & _).
    unfold main_calls in Hrun. rewrite Ht, Hq in Hrun. cbn [orb negb] in Hrun.
    unfold streamed_calls in Hrun. cbn [app] in Hrun.
    eexists (timer_setup_calls _ ++ streamed_opens _ ++ streamed_inits _ ++
             streamed_init_waits _ ++ streamed_issues _ ++ streamed_marker_waits _),
            _, values, _.
    split.
    + rewrite Hrun. repeat rewrite <- app_assoc. reflexivity.
    + rewrite !List.filter_app.
      unfold timer_setup_calls, streamed_opens, streamed_inits, streamed_init_waits,
        streamed_issues, streamed_marker_waits.
      rewrite !filter_per_plan_nil by reflexivity. reflexivity.
Qed.

Lemma streamed_timer_never_started_witness :
  exists before after values r,
    scenario_main (mkConfig false false false) =
      (mkWorld (before ++ StopTimer 0 :: after) values, Done r) /\
    List.filter is_start_timer before = [].
Proof.
  apply (proj2 (streamed_timer_never_started (uniform_platform 8) never_raises
                  scenario_kernel scenario_reference scenario_rand 2147483647
                  zero_plan (fun _ => zero_data) (fun _ => unset_value)
                  (fun _ _ => eq_refl))
           (mkConfig false false false) 2 nan_accumulators empty_world).
  - reflexivity.
  - reflexivity.
  - unfold INT_MAX. lia.
  - vm_compute. discriminate.
Defined.

(** X12.  A portfolio of size zero is not rejected.  When the selected
    device reports no or one compute unit, the problem size is zero and
    every plan is empty; when nothing raises, [main] still initialises, runs
    and closes every plan, whichever method is chosen, and then divides zero
    by zero twice: the L1 norm and the average reserve are NaN and the run
    is judged failed. *)
Theorem zero_size_portfolio
  (P : Platform) (raises : list call -> call -> bool)
  (kernel : list call -> TOptionPlan -> Z -> TOptionValue)
  (BlackScholesCall : TOptionData -> spec_float) (rand : Z -> Z) (RAND_MAX : Z)
  (garbage_plan : nat -> TOptionPlan) (garbage_data : nat -> TOptionData)
  (garbage_value : nat -> TOptionValue) (cfg : Config) (GPU_N : Z)
  (acc0 : Accumulators) (w : World) :
  1 <= GPU_N <= INT_MAX ->
  0 <= to_int (selected_compute_units P) <= 1 ->
  (forall h c, raises h c = false) ->
  problem_size P cfg GPU_N = 0 /\
  exists plans calls values,
    build_plans P GPU_N 0 262144 garbage_plan = Ok plans /\
    Z.of_nat (length plans) = GPU_N /\
    (forall i p, plans !! i = Some p -> Plan.optionCount p = 0) /\
    main P raises kernel BlackScholesCall rand RAND_MAX
      garbage_plan garbage_data garbage_value cfg GPU_N acc0 w =
    (mkWorld (trace w ++ calls) values,
     Done (mkReport S754_nan S754_nan ("Test failed!" ++ newline)%string
             EXIT_FAILURE)) /\
    (forall i p, plans !! i = Some p ->
       In (Init p (Z.of_nat i)) calls /\
       In (Simulate p (Z.of_nat i)) calls /\
       In (Close p (Z.of_nat i)) calls).
Proof.
  intros HG Hcores quiet.
  assert (Hsize : problem_size P cfg GPU_N = 0).
  { unfold problem_size. rewrite adjustProblemSize_closed.
    destruct (Z.leb_spec GPU_N 0); [lia|].
    destruct (Z.leb_spec (to_int (selected_compute_units P)) 32); [|lia].
    assert (Hq : Z.quot (to_int (selected_compute_units P)) 2 = 0).
    { apply Z.quot_small. lia. }
    rewrite Hq. reflexivity. }
  split; [exact Hsize|].
  destruct (main_run P raises kernel BlackScholesCall rand RAND_MAX
              garbage_plan garbage_data garbage_value cfg GPU_N HG
              ltac:(rewrite Hsize; lia) acc0 w quiet)
    as (values & acc & w1 & Hrun & _ & _ & Hcmp & _).
  rewrite Hsize in Hrun, Hcmp.
  assert (Hacc : acc = mkAcc (S754_zero false) (S754_zero false) S754_nan).
  { unfold compare_pass, host_upto, hbind in Hcmp. cbn in Hcmp.
    injection Hcmp as <-. reflexivity. }
  subst acc. eexists _, _, _.
  split; [apply build_plans_closed_form; [exact HG|unfold INT_MAX; lia]|].
  split; [rewrite length_map, length_seqZ; lia|].
  split; [|split; [exact Hrun|]].
  - intros i p Hp. apply lookup_planned in Hp. destruct Hp as [-> _].
    cbn [planned Plan.optionCount]. unfold share.
    rewrite Z.quot_0_l, Z.rem_0_l by lia.
    destruct (Z.ltb_spec (Z.of_nat i) 0); lia.
  - intros i p Hp.
    pose proof (lookup_planned _ _ _ _ _ _ Hp) as [Hplanned _].
    assert (Hdev : Plan.device p = Z.of_nat i) by now rewrite Hplanned.
    assert (Hthreads : forall c, In c (threaded_calls p) ->
              In c (thread_calls (map (planned P GPU_N 0 262144) (seqZ 0 GPU_N)))).
    { intros c Hc. now apply (in_per_plan _ _ 0 i p c Hp). }
    assert (Hstreamed : forall c,
              In c [Init p (Z.of_nat i); Simulate p (Z.of_nat i); Close p (Z.of_nat i)] ->
              In c (streamed_calls (map (planned P GPU_N 0 262144) (seqZ 0 GPU_N)))).
    { intros c Hc. unfold streamed_calls, streamed_inits, streamed_issues, streamed_closes.
      rewrite !in_app_iff.
      destruct Hc as [<-|[<-|[<-|[]]]].
      - right. left. apply (in_per_plan _ _ 0 i p _ Hp).
        replace (0 + Z.of_nat i) with (Z.of_nat i) by lia. now left.
      - do 3 right. left. apply (in_per_plan _ _ 0 i p _ Hp).
        replace (0 + Z.of_nat i) with (Z.of_nat i) by lia. now left.
      - do 6 right. apply (in_per_plan _ _ 0 i p _ Hp).
        replace (0 + Z.of_nat i) with (Z.of_nat i) by lia. now left. }
    assert (Hall : forall c,
              In c [Init p (Z.of_nat i); Simulate p (Z.of_nat i); Close p (Z.of_nat i)] ->
              In c (main_calls cfg (map (planned P GPU_N 0 262144) (seqZ 0 GPU_N)))).
    { intros c Hc. unfold main_calls. rewrite !in_app_iff.
      destruct (use_threads cfg) eqn:Hthr; cbn [orb negb].
      - right. left. apply Hthreads. unfold threaded_calls. rewrite Hdev.
        cbn [In] in *. tauto.
      - right. right. left. now apply Hstreamed. }
    repeat split; apply Hall; cbn [In]; tauto.
Qed.

Lemma zero_size_portfolio_witness :
  problem_size (uniform_platform 1) (mkConfig true false false) 2 = 0 /\
  exists plans calls values,
    build_plans (uniform_platform 1) 2 0 262144 zero_plan = Ok plans /\
    Z.of_nat (length plans) = 2 /\
    (forall i p, plans !! i = Some p -> Plan.optionCount p = 0) /\
    main (uniform_platform 1) never_raises scenario_kernel scenario_reference
      scenario_rand 2147483647 zero_plan (fun _ => zero_data) (fun _ => unset_value)
      (mkConfig true false false) 2 nan_accumulators empty_world =
    (mkWorld calls values,
     Done (mkReport S754_nan S754_nan ("Test failed!" ++ newline)%string
             EXIT_FAILURE)) /\
    (forall i p, plans !! i = Some p ->
       In (Init p (Z.of_nat i)) calls /\
       In (Simulate p (Z.of_nat i)) calls /\
       In (Close p (Z.of_nat i)) calls).
Proof.
  apply zero_size_portfolio.
  - unfold INT_MAX. lia.
  - vm_compute. split; discriminate.
  - reflexivity.
Defined.

(** ** Signs in the comparison pass *)

Lemma binary_round_aux_signed (prec emax : Z) (sx : bool) (mx ex : Z) (lx : location) :
  signed_or_nan sx (binary_round_aux prec emax sx mx ex lx).
Proof.
  unfold binary_round_aux.
  destruct (shr_fexp prec emax mx ex lx) as [mrs' e'].
  destruct (shr_fexp prec emax
              (round_nearest_even (shr_m mrs') (loc_of_shr_record mrs')) e' loc_Exact)
    as [mrs'' e''].
  destruct (shr_m mrs'') as [|m|m]; cbn; try reflexivity.
  destruct (e'' <=? emax - prec); reflexivity.
Qed.

Lemma binary_round_signed (prec emax : Z) (sx : bool) (mx : positive) (ex : Z) :
  signed_or_nan sx (binary_round prec emax sx mx ex).
Proof.
  unfold binary_round.
  destruct (shl_align mx ex (fexp prec emax (Z.pos (digits2_pos mx) + ex))) as [mz ez].
  apply binary_round_aux_signed.
Qed.

Lemma signed_not_negative (x : spec_float) :
  signed_or_nan false x -> not_negative x = true.
Proof. destruct x as [s|s| |s m e]; cbn; try reflexivity; now intros ->. Qed.

Lemma signed_not_positive (x : spec_float) :
  signed_or_nan true x -> not_positive x = true.
Proof. destruct x as [s|s| |s m e]; cbn; try reflexivity; now intros ->. Qed.

Lemma double_add_unsigned (x y : spec_float) :
  signed_or_nan false x -> signed_or_nan false y ->
  signed_or_nan false (double_add x y).
Proof.
  destruct x as [sx|sx| |sx mx ex], y as [sy|sy| |sy my ey]; cbn [signed_or_nan];
    intros Hx Hy; subst; try reflexivity; try exact I.
  unfold double_add, SFadd. cbn [cond_Zopp Z.add]. apply binary_round_signed.
Qed.

Lemma double_add_not_positive (x y : spec_float) :
  not_positive x = true -> not_positive y = true ->
  not_positive (double_add x y) = true.
Proof.
  destruct x as [sx|sx| |sx mx ex], y as [sy|sy| |sy my ey]; cbn [not_positive];
    intros Hx Hy; subst; try reflexivity; try (now destruct sx); try (now destruct sy);
    try (now destruct sx, sy).
  unfold double_add, SFadd. cbn [cond_Zopp Z.opp Z.add].
  apply signed_not_positive. apply binary_round_signed.
Qed.

(** The quotient by a value whose sign bit is clear keeps to the side of
    zero its numerator is on. *)
Lemma double_div_unsigned (x y : spec_float) :
  signed_or_nan false x -> signed_or_nan false y ->
  signed_or_nan false (double_div x y).
Proof.
  destruct x as [sx|sx| |sx mx ex], y as [sy|sy| |sy my ey]; cbn [signed_or_nan];
    intros Hx Hy; subst; try reflexivity; try exact I.
  unfold double_div, SFdiv.
  destruct (SFdiv_core_binary 53 1024 (Z.pos mx) ex (Z.pos my) ey) as [[mz ez] lz].
  apply binary_round_aux_signed.
Qed.

Lemma double_div_not_positive (x y : spec_float) :
  not_positive x = true -> signed_or_nan false y ->
  not_positive (double_div x y) = true.
Proof.
  destruct x as [sx|sx| |sx mx ex], y as [sy|sy| |sy my ey];
    cbn [not_positive signed_or_nan];
    intros Hx Hy; subst; try reflexivity.
  unfold double_div, SFdiv.
  destruct (SFdiv_core_binary 53 1024 (Z.pos mx) ex (Z.pos my) ey) as [[mz ez] lz].
  apply signed_not_positive. apply binary_round_aux_signed.
Qed.

Lemma abs_unsigned (x : spec_float) : signed_or_nan false (SFabs x).
Proof. now destruct x. Qed.

Lemma double_of_float_not_positive (x : spec_float) :
  not_positive x = true -> not_positive (double_of_float x) = true.
Proof.
  destruct x as [s|s| |s m e]; cbn [not_positive double_of_float]; intros Hx;
    subst; try reflexivity.
  cbn [cond_Zopp Z.opp binary_normalize].
  apply signed_not_positive. apply binary_round_signed.
Qed.

Lemma double_of_int_unsigned (n : Z) :
  0 <= n -> signed_or_nan false (double_of_int n).
Proof.
  intros Hn. destruct n as [|p|p]; try lia; [reflexivity|].
  unfold double_of_int, binary_normalize. apply binary_round_signed.
Qed.

Lemma not_positive_fails (x : spec_float) :
  not_positive x = true -> fp_gt x (double_of_float lit_1f) = false.
Proof.
  destruct x as [s|s| |s m e]; cbn [not_positive]; intros Hx; subst; reflexivity.
Qed.

(** X13.  The error sums cannot go below zero: on arrays of [OPT_N] cells
    holding any values whatever (NaN and infinities included) the comparison
    pass returns, and the summed error, the summed reference and the L1 norm
    it leaves are each zero, positive, or NaN. *)
Theorem error_sums_not_negative
  (BlackScholesCall : TOptionData -> spec_float)
  (OPT_N : Z) (optionData : list TOptionData) (acc0 : Accumulators) (w : World) :
  length optionData = Z.to_nat OPT_N ->
  length (callValueGPU w) = Z.to_nat OPT_N ->
  exists acc,
    compare_pass BlackScholesCall OPT_N optionData acc0 w = (w, Done acc) /\
    not_negative (sumDelta acc) = true /\
    not_negative (sumRef acc) = true /\
    not_negative (L1_norm (summary acc)) = true.
Proof.
  intros Hd Hv.
  destruct (compare_pass_inv BlackScholesCall
    (fun acc => signed_or_nan false (sumDelta acc) /\ signed_or_nan false (sumRef acc))
    OPT_N optionData acc0 w Hd Hv) as (acc & Hrun & Hdelta & Href).
  - split; reflexivity.
  - intros i d v acc _ _ [Hdelta Href]. unfold compare_option. cbn [sumDelta sumRef].
    split; apply double_add_unsigned; auto using abs_unsigned.
  - eexists. split; [exact Hrun|]. cbn [sumDelta sumRef summary L1_norm].
    split; [now apply signed_not_negative|]. split; [now apply signed_not_negative|].
    apply signed_not_negative. now apply double_div_unsigned.
Qed.

Lemma error_sums_not_negative_witness :
  exists acc,
    compare_pass (fun _ => float_of_int 4) 2 [zero_data; zero_data] nan_accumulators
      (mkWorld [] [unset_value; Option.mkValue S754_nan (float_of_int 1)]) =
    (mkWorld [] [unset_value; Option.mkValue S754_nan (float_of_int 1)], Done acc) /\
    not_negative (sumDelta acc) = true /\
    not_negative (sumRef acc) = true /\
    not_negative (L1_norm (summary acc)) = true.
Proof.
  apply (error_sums_not_negative (fun _ => float_of_int 4) 2); reflexivity.
Defined.

(** X14.  A run cannot pass without a positive confidence: when no result
    cell holds a confidence above zero (as when every cell still holds the
    sentinel -1), the average reserve is zero, negative or NaN whatever the
    reference prices and expected values are, and the run is judged
    failed. *)
Theorem no_positive_confidence_fails
  (BlackScholesCall : TOptionData -> spec_float)
  (OPT_N : Z) (optionData : list TOptionData) (acc0 : Accumulators) (w : World) :
  0 <= OPT_N ->
  length optionData = Z.to_nat OPT_N ->
  length (callValueGPU w) = Z.to_nat OPT_N ->
  (forall i v, callValueGPU w !! i = Some v ->
               not_positive (Option.Confidence v) = true) ->
  exists acc,
    compare_pass BlackScholesCall OPT_N optionData acc0 w = (w, Done acc) /\
    not_positive (average_reserve (summary acc)) = true /\
    exit_status (summary acc) = EXIT_FAILURE /\
    verdict (summary acc) = ("Test failed!" ++ newline)%string.
Proof.
  intros HN Hd Hv Hconf.
  destruct (compare_pass_inv BlackScholesCall
    (fun acc => not_positive (sumReserve acc) = true)
    OPT_N optionData acc0 w Hd Hv) as (acc & Hrun & Hres).
  - reflexivity.
  - intros i d v acc _ Hvi Hres. unfold compare_option. cbn [sumReserve].
    destruct (fp_gt _ lit_1em6); [|exact Hres].
    apply double_add_not_positive; [exact Hres|].
    apply double_div_not_positive; [|apply abs_unsigned].
    apply double_of_float_not_positive. now apply (Hconf i).
  - assert (Hfinal : not_positive (double_div (sumReserve acc) (double_of_int OPT_N)) = true).
    { apply double_div_not_positive; [exact Hres|now apply double_of_int_unsigned]. }
    eexists. split; [exact Hrun|].
    unfold summary. cbn [sumReserve average_reserve exit_status verdict].
    rewrite (not_positive_fails _ Hfinal). repeat split. exact Hfinal.
Qed.

Lemma no_positive_confidence_fails_witness :
  exists acc,
    compare_pass (fun _ => float_of_int 4) 2 [zero_data; zero_data] nan_accumulators
      (mkWorld [] [unset_value; unset_value]) =
    (mkWorld [] [unset_value; unset_value], Done acc) /\
    not_positive (average_reserve (summary acc)) = true /\
    exit_status (summary acc) = EXIT_FAILURE /\
    verdict (summary acc) = ("Test failed!" ++ newline)%string.
Proof.
  apply (no_positive_confidence_fails (fun _ => float_of_int 4) 2).
  - lia.
  - reflexivity.
  - reflexivity.
  - intros i v Hv. destruct i as [|[|i]]; cbn in Hv; try discriminate;
      injection Hv as <-; reflexivity.
Defined.

(** X17.  Accuracy alone never passes.  When the error of every option is at
    most 1e-6 (or is a NaN), no reserve term is ever added: the reserve sum
    stays at zero, the average reserve is zero (NaN for an empty portfolio),
    and the run is judged failed whatever the confidences are. *)
Theorem errors_within_tolerance_fail
  (BlackScholesCall : TOptionData -> spec_float)
  (OPT_N : Z) (optionData : list TOptionData) (acc0 : Accumulators) (w : World) :
  length optionData = Z.to_nat OPT_N ->
  length (callValueGPU w) = Z.to_nat OPT_N ->
  (forall i d v,
      optionData !! i = Some d -> callValueGPU w !! i = Some v ->
      fp_gt (SFabs (double_of_float (float_sub (BlackScholesCall d) (Option.Expected v))))
        lit_1em6 = false) ->
  exists acc,
    compare_pass BlackScholesCall OPT_N optionData acc0 w = (w, Done acc) /\
    average_reserve (summary acc) = double_div (S754_zero false) (double_of_int OPT_N) /\
    (0 < OPT_N < 2 ^ 53 -> average_reserve (summary acc) = S754_zero false) /\
    exit_status (summary acc) = EXIT_FAILURE /\
    verdict (summary acc) = ("Test failed!" ++ newline)%string.
Proof.
  intros Hd Hv Hsmall.
  destruct (compare_pass_inv BlackScholesCall
    (fun acc => sumReserve acc = S754_zero false)
    OPT_N optionData acc0 w Hd Hv) as (acc & Hrun & Hres).
  - reflexivity.
  - intros i d v acc Hdi Hvi Hres. unfold compare_option. cbn [sumReserve].
    now rewrite (Hsmall i d v Hdi Hvi).
  - eexists. split; [exact Hrun|].
    unfold summary. cbn [sumReserve average_reserve exit_status verdict].
    rewrite Hres, zero_reserve_fails.
    split; [reflexivity|]. split; [|split; reflexivity].
    intros HN. destruct (double_of_int_pos OPT_N HN) as (m & e & ->). reflexivity.
Qed.

Lemma errors_within_tolerance_fail_witness :
  exists acc,
    compare_pass (fun _ => float_of_int 4) 2 [zero_data; zero_data] nan_accumulators
      (mkWorld []
         [Option.mkValue (float_of_int 4) (float_of_int 1);
          Option.mkValue (float_add (float_of_int 4) (SFulp 24 128 (float_of_int 4)))
            (float_of_int 1)]) =
    (mkWorld []
       [Option.mkValue (float_of_int 4) (float_of_int 1);
        Option.mkValue (float_add (float_of_int 4) (SFulp 24 128 (float_of_int 4)))
          (float_of_int 1)], Done acc) /\
    average_reserve (summary acc) = double_div (S754_zero false) (double_of_int 2) /\
    (0 < 2 < 2 ^ 53 -> average_reserve (summary acc) = S754_zero false) /\
    exit_status (summary acc) = EXIT_FAILURE /\
    verdict (summary acc) = ("Test failed!" ++ newline)%string.
Proof.
  apply (errors_within_tolerance_fail (fun _ => float_of_int 4) 2).
  - reflexivity.
  - reflexivity.
  - intros i d v Hd Hv. destruct i as [|[|i]]; cbn in Hv; try discriminate;
      injection Hv as <-; vm_compute; reflexivity.
Defined.
